(** * Study planner: the weekly scheduling engine

    A shallow embedding of [src/utils/schedulingAlgorithm.js]
    (class [SchedulingEngine]) and the properties of its greedy allocation,
    its validation pass and its reschedule-on-miss logic, together with the
    callers that group the stored sessions by date, mark a session and
    display the workload ([src/hooks/useSchedule.js],
    [src/components/dashboard/Dashboard.jsx] and the schedule generator
    component).

    Modelling conventions.
    - Minutes (estimated times, durations, the daily limit) are JavaScript
      numbers holding integers; they are modelled as [Z], negative and zero
      values included.
    - A calendar date, as the date-only string ["yyyy-MM-dd"] that a task
      deadline, an exam date and [session.date] hold, is the number of days
      since 1970-01-01, a [Z].  [format _ "yyyy-MM-dd"] is injective, so the
      formatted string that keys [sessionTimeUsed] is represented by the day
      number itself.
    - The local time zone is its offset [utcOffset] from UTC in minutes,
      positive east of Greenwich, the same at all the instants compared; the
      results depend only on whether the zone is west of UTC, at UTC or east
      of it.  An instant is the number of minutes that the local clock
      shows since its midnight of 1970-01-01.  The window start and the
      days [addDays] derives from it are local midnights, and
      [format (addDays weekStart i)] is the local day [weekStart + i].
      [new Date(dateString)] of a date-only string is midnight UTC of that
      day, [utcOffset] minutes after the local midnight of the same day.
      [differenceInDays] counts the full days between two instants and
      truncates toward zero, so [daysUntilDeadline] and [daysUntilExam] are
      the calendar difference at UTC, one more east of UTC for a date before
      the window start, and one less west of UTC for a date after it.
    - In [validateSchedule], [isBefore] compares two such midnights UTC,
      hence the two day numbers, and the two strings formatted from them
      agree exactly when the day numbers do.
    - [rescheduleMissedSession] takes [currentDate] as the local day of the
      [Date] it is given.
    - [Date.now()] is an oracle [now : nat -> Z]: [now k] is the value
      returned by the k-th call.  The number of calls made so far is threaded
      through the allocation as [tick].
    - [sessionTimeUsed] is a finite map from dates to minutes.  Reading a
      missing key gives [undefined] in JavaScript; the subtraction is then
      [NaN] and [NaN > 0] is false, which is what the [None] branches do. *)

From stdpp Require Import gmap strings list fin_maps pretty sorting.

Local Open Scope Z_scope.

(** ** Data model *)

Inductive SessionType := homework | exam_revision.
Inductive SessionStatus := planned | completed | missed | rescheduled.

Global Instance SessionType_eq_dec : EqDecision SessionType.
Proof. solve_decision. Defined.
Global Instance SessionStatus_eq_dec : EqDecision SessionStatus.
Proof. solve_decision. Defined.

Record Task := mkTask {
  task_id : string;
  task_name : string;
  task_subject : string;
  task_deadline : Z;
  task_estimatedTime : Z
}.

(** [exam_estimatedTime] is [None] when the field is absent. *)
Record Exam := mkExam {
  exam_id : string;
  exam_subject : string;
  exam_date : Z;
  exam_estimatedTime : option Z
}.

(** A homework session carries [taskId] and no [examId]; a revision session
    the other way round. *)
Record Session := mkSession {
  s_id : string;
  s_type : SessionType;
  s_taskId : option string;
  s_examId : option string;
  s_title : string;
  s_subject : string;
  s_date : Z;
  s_duration : Z;
  s_status : SessionStatus
}.

Record DailyBucket := mkBucket {
  b_date : Z;
  b_sessions : list Session;
  b_totalMinutes : Z
}.

(** The schedule object has one property per window day, inserted in day
    order; [Object.values] enumerates them in that order. *)
Definition WeeklySchedule := list DailyBucket.

Record UnscheduledItem := mkItem {
  u_id : string;
  u_name : string;
  u_type : SessionType;
  u_missingMinutes : Z
}.

Record Validations := mkValidations {
  allTasksScheduled : bool;
  noDeadlineViolations : bool;
  examDistribution : bool;
  studySessionLimitRespected : bool
}.

Record ValidationReport := mkReport {
  isValid : bool;
  details : Validations;
  unscheduledItems : list UnscheduledItem
}.

(** The mutable state of one allocation loop: the minutes still to place,
    the shared capacity tracker, the number of [Date.now()] calls made, and
    the sessions pushed so far. *)
Record AllocState := mkAlloc {
  remainingMinutes : Z;
  sessionTimeUsed : gmap Z Z;
  tick : nat;
  out : list Session
}.

(** The accumulated state of [generateWeeklySchedule]. *)
Record RunState := mkRun {
  r_sessions : list Session;
  r_used : gmap Z Z;
  r_tick : nat
}.

(** ** [Date] and date-fns *)

(** Day 0 (1970-01-01) is a Thursday; weeks start on Monday. *)
Definition startOfWeek (d : Z) : Z := d - (d + 3) `mod` 7.

Definition minutesPerDay : Z := 1440.

(** [startOfWeek(...)] and [addDays(weekStart, i)] are local midnights: the
    instant, in minutes on the local clock, at which a local day starts. *)
Definition localMidnight (d : Z) : Z := d * minutesPerDay.

(** [new Date(dateString)] for a date-only string ["yyyy-MM-dd"]: midnight
    UTC of that day, which the local clock shows [utcOffset] minutes after
    its own midnight of that day (before it, west of UTC). *)
Definition parseDate (utcOffset dateString : Z) : Z :=
  dateString * minutesPerDay + utcOffset.

(** [differenceInDays(laterDate, earlierDate)]: the number of full days
    between the two instants, truncated toward zero. *)
Definition differenceInDays (laterDate earlierDate : Z) : Z :=
  (laterDate - earlierDate) `quot` minutesPerDay.

(** ** Small helpers standing for JavaScript built-ins *)

(** [sessions.reduce((sum, s) => sum + s.duration, 0)] *)
Definition sumDurations (ss : list Session) : Z :=
  foldl (λ sum s, sum + s_duration s) 0 ss.

Definition onDate (d : Z) (s : Session) : bool := s_date s =? d.

Definition hasTaskId (i : string) (s : Session) : bool :=
  bool_decide (s_taskId s = Some i).

Definition hasExamId (i : string) (s : Session) : bool :=
  bool_decide (s_examId s = Some i).

(** [Math.ceil(a / b)] on integers, for [b] different from 0. *)
Definition ceilDiv (a b : Z) : Z := - ((- a) `div` b).

(** [exam.estimatedTime || 240]: every falsy value gives 240. *)
Definition orDefault240 (t : option Z) : Z :=
  match t with
  | Some v => if v =? 0 then 240 else v
  | None => 240
  end.

Definition addDuration (extra : Z) (s : Session) : Session :=
  mkSession (s_id s) (s_type s) (s_taskId s) (s_examId s) (s_title s)
            (s_subject s) (s_date s) (s_duration s + extra) (s_status s).

(** [sessions.find((s) => s.date === d)] followed by
    [existingSession.duration += extra]: the first session on [d] is updated
    in place; [None] when there is none. *)
Fixpoint addToExisting (d extra : Z) (ss : list Session) : option (list Session) :=
  match ss with
  | [] => None
  | s :: rest =>
      if onDate d s then Some (addDuration extra s :: rest)
      else (λ r, s :: r) <$> addToExisting d extra rest
  end.

(** A [for] loop over [days] whose body ends with
    [if (remainingMinutes <= 0) break;]. *)
Fixpoint forDays (body : Z → AllocState → AllocState) (days : list Z)
    (st : AllocState) : AllocState :=
  match days with
  | [] => st
  | day :: rest =>
      let st' := body day st in
      if remainingMinutes st' <=? 0 then st' else forDays body rest st'
  end.

(** ** The engine *)

Section Engine.
(** [Date.now], [this.studySessionLimitMinutes] and the offset of the local
    time zone from UTC, in minutes, positive east of Greenwich. *)
Variable now : nat → Z.
Variable studySessionLimitMinutes : Z.
Variable utcOffset : Z.

(** *** sortTasksByDeadline: a stable sort, earliest deadline first *)

Fixpoint insertByDeadline (t : Task) (l : list Task) : list Task :=
  match l with
  | [] => [t]
  | x :: rest =>
      if task_deadline t <=? task_deadline x then t :: x :: rest
      else x :: insertByDeadline t rest
  end.

Definition sortTasksByDeadline (tasks : list Task) : list Task :=
  foldr insertByDeadline [] tasks.

(** *** scheduleTask *)

Definition taskSession (task : Task) (day currentDay timeToAssign : Z)
    (k : nat) : Session :=
  {| s_id := "task-" +:+ task_id task +:+ "-" +:+ pretty day +:+ "-"
             +:+ pretty (now k);
     s_type := homework;
     s_taskId := Some (task_id task);
     s_examId := None;
     s_title := task_name task;
     s_subject := task_subject task;
     s_date := currentDay;
     s_duration := timeToAssign;
     s_status := planned |}.

Definition scheduleTask_day (task : Task) (weekStart day : Z)
    (st : AllocState) : AllocState :=
  let currentDay := weekStart + day in
  match sessionTimeUsed st !! currentDay with
  | None => st
  | Some usedToday =>
      let freeMinutes := studySessionLimitMinutes - usedToday in
      if 0 <? freeMinutes then
        let timeToAssign := Z.min (remainingMinutes st) freeMinutes in
        {| remainingMinutes := remainingMinutes st - timeToAssign;
           sessionTimeUsed :=
             <[currentDay := usedToday + timeToAssign]> (sessionTimeUsed st);
           tick := S (tick st);
           out := out st ++
                  [taskSession task day currentDay timeToAssign (tick st)] |}
      else st
  end.

Definition scheduleTask (task : Task) (weekStart : Z)
    (used : gmap Z Z) (k : nat) : AllocState :=
  let deadline := parseDate utcOffset (task_deadline task) in
  let daysUntilDeadline := differenceInDays deadline (localMidnight weekStart) in
  forDays (scheduleTask_day task weekStart)
          (seqZ 0 (Z.min daysUntilDeadline 6 + 1))
          (mkAlloc (task_estimatedTime task) used k []).

(** *** distributeExamRevision *)

Definition examSession (exam : Exam) (suffix : string)
    (day currentDay timeToAssign : Z) (k : nat) : Session :=
  {| s_id := "exam-" +:+ exam_id exam +:+ "-" +:+ pretty day +:+ suffix
             +:+ pretty (now k);
     s_type := exam_revision;
     s_taskId := None;
     s_examId := Some (exam_id exam);
     s_title := exam_subject exam +:+ " Revision";
     s_subject := exam_subject exam;
     s_date := currentDay;
     s_duration := timeToAssign;
     s_status := planned |}.

(** Pass 1: at most the ideal daily share per day. *)
Definition examPass1_day (exam : Exam) (weekStart idealDailyShare day : Z)
    (st : AllocState) : AllocState :=
  let currentDay := weekStart + day in
  match sessionTimeUsed st !! currentDay with
  | None => st
  | Some usedToday =>
      let freeMinutes := studySessionLimitMinutes - usedToday in
      if 0 <? freeMinutes then
        let timeToAssign :=
          Z.min (Z.min (remainingMinutes st) freeMinutes) idealDailyShare in
        if 0 <? timeToAssign then
          {| remainingMinutes := remainingMinutes st - timeToAssign;
             sessionTimeUsed :=
               <[currentDay := usedToday + timeToAssign]> (sessionTimeUsed st);
             tick := S (tick st);
             out := out st ++
                    [examSession exam "-" day currentDay timeToAssign (tick st)] |}
        else st
      else st
  end.

(** Pass 2: fill whatever is free, merging into the session of the day. *)
Definition examPass2_day (exam : Exam) (weekStart day : Z)
    (st : AllocState) : AllocState :=
  let currentDay := weekStart + day in
  match sessionTimeUsed st !! currentDay with
  | None => st
  | Some usedToday =>
      let freeMinutes := studySessionLimitMinutes - usedToday in
      if 0 <? freeMinutes then
        let timeToAssign := Z.min (remainingMinutes st) freeMinutes in
        match addToExisting currentDay timeToAssign (out st) with
        | Some merged =>
            {| remainingMinutes := remainingMinutes st - timeToAssign;
               sessionTimeUsed :=
                 <[currentDay := usedToday + timeToAssign]> (sessionTimeUsed st);
               tick := tick st;
               out := merged |}
        | None =>
            {| remainingMinutes := remainingMinutes st - timeToAssign;
               sessionTimeUsed :=
                 <[currentDay := usedToday + timeToAssign]> (sessionTimeUsed st);
               tick := S (tick st);
               out := out st ++
                      [examSession exam "-extra-" day currentDay timeToAssign
                                   (tick st)] |}
        end
      else st
  end.

Definition daysToUse (daysUntilExam : Z) : Z :=
  Z.min (Z.max daysUntilExam 3) 7.

(** The days visited by [for (day = 0; day < daysToUse && day < 7; day++)]. *)
Definition revisionDays (daysUntilExam : Z) : list Z :=
  seqZ 0 (Z.min (daysToUse daysUntilExam) 7).

Definition distributeExamRevision (exam : Exam) (weekStart : Z)
    (used : gmap Z Z) (k : nat) : AllocState :=
  let examDate := parseDate utcOffset (exam_date exam) in
  let daysUntilExam := differenceInDays examDate (localMidnight weekStart) in
  if daysUntilExam <? 0 then mkAlloc 0 used k []
  else
    let needed := orDefault240 (exam_estimatedTime exam) in
    let idealDailyShare := ceilDiv needed (daysToUse daysUntilExam) in
    let st1 := forDays (examPass1_day exam weekStart idealDailyShare)
                       (revisionDays daysUntilExam)
                       (mkAlloc needed used k []) in
    if 0 <? remainingMinutes st1 then
      forDays (examPass2_day exam weekStart) (revisionDays daysUntilExam) st1
    else st1.

(** *** formatSchedule *)

Definition bucketFor (sessions : list Session) (d : Z) : DailyBucket :=
  {| b_date := d;
     b_sessions := filter (λ s, onDate d s = true) sessions;
     b_totalMinutes := sumDurations (filter (λ s, onDate d s = true) sessions) |}.

Definition windowDates (weekStart : Z) : list Z :=
  (λ i, weekStart + i) <$> seqZ 0 7.

Definition formatSchedule (sessions : list Session) (weekStart : Z)
    : WeeklySchedule :=
  bucketFor sessions <$> windowDates weekStart.

(** *** generateWeeklySchedule *)

Definition initialTimeUsed (start : Z) : gmap Z Z :=
  foldl (λ m d, <[d := 0]> m) ∅ (windowDates start).

Definition runTask (start : Z) (st : RunState) (task : Task) : RunState :=
  let r := scheduleTask task start (r_used st) (r_tick st) in
  mkRun (r_sessions st ++ out r) (sessionTimeUsed r) (tick r).

Definition runExam (start : Z) (st : RunState) (exam : Exam) : RunState :=
  let r := distributeExamRevision exam start (r_used st) (r_tick st) in
  mkRun (r_sessions st ++ out r) (sessionTimeUsed r) (tick r).

(** All sessions pushed by the two steps, before they are grouped by day. *)
Definition allocate (tasks : list Task) (exams : list Exam) (start : Z)
    : RunState :=
  let afterTasks :=
    foldl (runTask start) (mkRun [] (initialTimeUsed start) 0%nat)
          (sortTasksByDeadline tasks) in
  foldl (runExam start) afterTasks exams.

Definition generateWeeklySchedule (tasks : list Task) (exams : list Exam)
    (startDate : Z) : WeeklySchedule :=
  let start := startOfWeek startDate in
  formatSchedule (r_sessions (allocate tasks exams start)) start.

(** *** rescheduleMissedSession *)

(** [if (!timeUsed[d]) timeUsed[d] = 0; timeUsed[d] += duration] *)
Definition recordSession (timeUsed : gmap Z Z) (s : Session) : gmap Z Z :=
  let current :=
    match timeUsed !! s_date s with
    | Some v => if v =? 0 then 0 else v
    | None => 0
    end in
  <[s_date s := current + s_duration s]> timeUsed.

Definition calculateSessionTimeUsed (sessions : list Session) : gmap Z Z :=
  foldl recordSession ∅ sessions.

Definition rescheduledSession (missedSession : Session)
    (day targetDate timeToAssign : Z) (k : nat) : Session :=
  {| s_id := s_id missedSession +:+ "-rescheduled-" +:+ pretty day +:+ "-"
             +:+ pretty (now k);
     s_type := s_type missedSession;
     s_taskId := s_taskId missedSession;
     s_examId := s_examId missedSession;
     s_title := s_title missedSession;
     s_subject := s_subject missedSession;
     s_date := targetDate;
     s_duration := timeToAssign;
     s_status := rescheduled |}.

(** [sessionTimeUsed[d] || 0] *)
Definition usedOr0 (used : gmap Z Z) (d : Z) : Z := default 0 (used !! d).

Definition reschedule_day (missedSession : Session) (currentDate day : Z)
    (st : AllocState) : AllocState :=
  let targetDate := currentDate + day in
  let freeMinutes :=
    studySessionLimitMinutes - usedOr0 (sessionTimeUsed st) targetDate in
  if 0 <? freeMinutes then
    let timeToAssign := Z.min (remainingMinutes st) freeMinutes in
    {| remainingMinutes := remainingMinutes st - timeToAssign;
       sessionTimeUsed :=
         <[targetDate := usedOr0 (sessionTimeUsed st) targetDate + timeToAssign]>
           (sessionTimeUsed st);
       tick := S (tick st);
       out := out st ++
              [rescheduledSession missedSession day targetDate timeToAssign
                                  (tick st)] |}
  else st.

Definition rescheduleMissedSession (missedSession : Session)
    (currentDate : Z) (existingSessions : list Session) : list Session :=
  out (forDays (reschedule_day missedSession currentDate) (seqZ 1 3)
               (mkAlloc (s_duration missedSession)
                        (calculateSessionTimeUsed existingSessions) 0%nat [])).

(** *** validateSchedule *)

Definition allSessionsOf (schedule : WeeklySchedule) : list Session :=
  flat_map b_sessions schedule.

Definition scheduledMinutesOfTask (allSessions : list Session) (task : Task) : Z :=
  sumDurations (filter (λ s, hasTaskId (task_id task) s = true) allSessions).

Definition scheduledMinutesOfExam (allSessions : list Session) (exam : Exam) : Z :=
  sumDurations (filter (λ s, hasExamId (exam_id exam) s = true) allSessions).

Definition taskShortfall (allSessions : list Session) (task : Task)
    : list UnscheduledItem :=
  let scheduledMinutes := scheduledMinutesOfTask allSessions task in
  if scheduledMinutes <? task_estimatedTime task then
    [mkItem (task_id task) (task_name task) homework
            (task_estimatedTime task - scheduledMinutes)]
  else [].

Definition examShortfall (allSessions : list Session) (exam : Exam)
    : list UnscheduledItem :=
  let scheduledMinutes := scheduledMinutesOfExam allSessions exam in
  let totalNeeded := orDefault240 (exam_estimatedTime exam) in
  if scheduledMinutes <? totalNeeded then
    [mkItem (exam_id exam) (exam_subject exam) exam_revision
            (totalNeeded - scheduledMinutes)]
  else [].

Definition taskMeetsDeadline (allSessions : list Session) (task : Task) : bool :=
  let taskSessions :=
    filter (λ s, hasTaskId (task_id task) s = true) allSessions in
  if (length taskSessions =? 0)%nat then false
  else forallb (λ s, (s_date s <? task_deadline task)
                     || (s_date s =? task_deadline task)) taskSessions.

Definition examWellDistributed (allSessions : list Session) (exam : Exam) : bool :=
  (3 <=? length (filter (λ s, hasExamId (exam_id exam) s = true) allSessions))%nat.

Definition validateSchedule (tasks : list Task) (exams : list Exam)
    (schedule : WeeklySchedule) : ValidationReport :=
  let allSessions := allSessionsOf schedule in
  let items := flat_map (taskShortfall allSessions) tasks
               ++ flat_map (examShortfall allSessions) exams in
  let validations :=
    {| allTasksScheduled := (length items =? 0)%nat;
       noDeadlineViolations := forallb (taskMeetsDeadline allSessions) tasks;
       examDistribution := forallb (examWellDistributed allSessions) exams;
       studySessionLimitRespected :=
         forallb (λ day, b_totalMinutes day <=? studySessionLimitMinutes)
                 schedule |} in
  {| isValid := allTasksScheduled validations && noDeadlineViolations validations
                && examDistribution validations
                && studySessionLimitRespected validations;
     details := validations;
     unscheduledItems := items |}.

End Engine.

(** The (date, sourceId, duration) triple of a session; the source is the
    task of a homework session and the exam of a revision session. *)
Definition sourceId (s : Session) : option string :=
  match s_type s with
  | homework => s_taskId s
  | exam_revision => s_examId s
  end.

Definition triple (s : Session) : Z * option string * Z :=
  (s_date s, sourceId s, s_duration s).

(** A session with its identity string erased. *)
Definition forgetId (s : Session) : Session :=
  mkSession "" (s_type s) (s_taskId s) (s_examId s) (s_title s) (s_subject s)
            (s_date s) (s_duration s) (s_status s).

(** ** Vocabulary of the properties *)

(** The minutes of the sessions of [ss] dated [d]. *)
Definition minutesOn (d : Z) (ss : list Session) : Z :=
  sumDurations (filter (λ s, onDate d s = true) ss).

(** [tracks base used ss]: on every date, the tracker [used] is the
    tracker [base] the call started from plus the minutes of the sessions
    [ss] pushed since. *)
Definition tracks (base : gmap Z Z) (used : gmap Z Z) (ss : list Session) : Prop :=
  ∀ d, used !! d = (λ u, u + minutesOn d ss) <$> base !! d.

Definition withinLimit (limit : Z) (used : gmap Z Z) : Prop :=
  ∀ d u, used !! d = Some u → u ≤ limit.

Definition allocInv (limit : Z) (base : gmap Z Z) (st : AllocState) : Prop :=
  tracks base (sessionTimeUsed st) (out st) ∧ withinLimit limit (sessionTimeUsed st).

Definition runInv (limit : Z) (base : gmap Z Z) (st : RunState) : Prop :=
  tracks base (r_used st) (r_sessions st) ∧ withinLimit limit (r_used st).

(** Two loop states that agree on everything but the identity strings of
    the sessions pushed so far. *)
Definition simAlloc (st1 st2 : AllocState) : Prop :=
  remainingMinutes st1 = remainingMinutes st2
  ∧ sessionTimeUsed st1 = sessionTimeUsed st2
  ∧ forgetId <$> out st1 = forgetId <$> out st2.

Definition simRun (st1 st2 : RunState) : Prop :=
  r_used st1 = r_used st2
  ∧ forgetId <$> r_sessions st1 = forgetId <$> r_sessions st2.

(** [daysUntilDeadline] and [daysUntilExam] as the engine computes them: the
    full days from the local midnight that starts the window to the UTC
    midnight of the date given. *)
Definition daysUntil (utcOffset dateString weekStart : Z) : Z :=
  differenceInDays (parseDate utcOffset dateString) (localMidnight weekStart).

Definition inWindow (ws : Z) (s : Session) : Prop :=
  ∃ day, 0 ≤ day < 7 ∧ s_date s = ws + day.

(** What [scheduleTask] pushes for [t]. *)
Definition madeForTask (utcOffset : Z) (t : Task) (ws : Z) (s : Session) : Prop :=
  s_type s = homework ∧ s_taskId s = Some (task_id t) ∧ s_examId s = None
  ∧ s_status s = planned
  ∧ ∃ day, 0 ≤ day ≤ Z.min (daysUntil utcOffset (task_deadline t) ws) 6
           ∧ s_date s = ws + day.

(** What [distributeExamRevision] pushes for [e]. *)
Definition madeForExam (e : Exam) (ws : Z) (s : Session) : Prop :=
  s_type s = exam_revision ∧ s_taskId s = None ∧ s_examId s = Some (exam_id e)
  ∧ s_status s = planned ∧ inWindow ws s.

(** The entries of a shortfall list that report the source [i] of kind [ty]. *)
Definition shortfallFor (ty : SessionType) (i : string)
    (items : list UnscheduledItem) : list UnscheduledItem :=
  filter (λ u, u_type u = ty ∧ u_id u = i) items.

(** Free minutes of a date: the limit minus what is committed, when
    positive. *)
Definition spareMinutes (limit : Z) (used : gmap Z Z) (d : Z) : Z :=
  Z.max 0 (limit - usedOr0 used d).

Definition spareOver (limit : Z) (used : gmap Z Z) (from : Z) (days : list Z) : Z :=
  foldr (λ day acc, spareMinutes limit used (from + day) + acc) 0 days.

(** The free minutes of a date given the existing sessions, whatever their
    status. *)
Definition freeOn (limit : Z) (existing : list Session) (d : Z) : Z :=
  Z.max 0 (limit - minutesOn d existing).

(** Free minutes of a date in the tracker of a weekly run; a date the
    tracker does not hold has none. *)
Definition trackerFree (limit : Z) (used : gmap Z Z) (d : Z) : Z :=
  match used !! d with
  | Some usedToday => Z.max 0 (limit - usedToday)
  | None => 0
  end.

Definition aggregateFree (limit : Z) (used : gmap Z Z) (ws : Z) (days : list Z) : Z :=
  foldr (λ day acc, trackerFree limit used (ws + day) + acc) 0 days.

(** The number of days of [days] with free minutes. *)
Definition freeDays (limit : Z) (used : gmap Z Z) (ws : Z) (days : list Z) : nat :=
  length (filter (λ day, 0 < trackerFree limit used (ws + day)) days).

(** A loop body that gives a day with free minutes as many of the remaining
    minutes as fit, and leaves the minutes and the tracker alone on a day
    with none. *)
Definition greedyBody (limit ws : Z) (body : Z → AllocState → AllocState) : Prop :=
  ∀ day st,
    (¬ 0 < trackerFree limit (sessionTimeUsed st) (ws + day) →
     remainingMinutes (body day st) = remainingMinutes st
     ∧ sessionTimeUsed (body day st) = sessionTimeUsed st)
    ∧ (0 < trackerFree limit (sessionTimeUsed st) (ws + day) →
       ∃ usedToday,
         sessionTimeUsed st !! (ws + day) = Some usedToday
         ∧ remainingMinutes (body day st)
           = remainingMinutes st - Z.min (remainingMinutes st) (limit - usedToday)
         ∧ sessionTimeUsed (body day st)
           = <[ws + day
               := usedToday + Z.min (remainingMinutes st) (limit - usedToday)]>
               (sessionTimeUsed st)).

(** [s] is [s1] with some minutes added. *)
Definition toppedUp (s1 s : Session) : Prop :=
  ∃ extra, 0 ≤ extra ∧ s = addDuration extra s1.

(** The state of [distributeExamRevision] at the end of pass 1, for an exam
    that is not before the window. *)
Definition examPass1State (now : nat → Z) (limit utcOffset : Z) (exam : Exam)
    (ws : Z) (used : gmap Z Z) (k : nat) : AllocState :=
  forDays (examPass1_day now limit exam ws
             (ceilDiv (orDefault240 (exam_estimatedTime exam))
                      (daysToUse (daysUntil utcOffset (exam_date exam) ws))))
          (revisionDays (daysUntil utcOffset (exam_date exam) ws))
          (mkAlloc (orDefault240 (exam_estimatedTime exam)) used k []).

(** [s] is the missed session [m] moved to one of the [days] after [D]. *)
Definition movedFrom (m : Session) (D : Z) (days : list Z) (s : Session) : Prop :=
  s_type s = s_type m ∧ s_taskId s = s_taskId m ∧ s_examId s = s_examId m
  ∧ s_title s = s_title m ∧ s_subject s = s_subject m
  ∧ s_status s = rescheduled
  ∧ ∃ day, day ∈ days ∧ s_date s = D + day.

(** The tracker of a rescheduling loop follows the existing sessions and
    the new ones, and no day goes beyond the limit unless it already was. *)
Definition rescheduleInv (limit : Z) (m : Session) (D : Z) (days : list Z)
    (existing : list Session) (st : AllocState) : Prop :=
  Forall (movedFrom m D days) (out st)
  ∧ (∀ d, usedOr0 (sessionTimeUsed st) d
          = minutesOn d existing + minutesOn d (out st))
  ∧ (∀ d, usedOr0 (sessionTimeUsed st) d ≤ Z.max limit (minutesOn d existing)).

(** Two sessions that agree on every field but the status. *)
Definition sameButStatus (s s' : Session) : Prop :=
  s_id s' = s_id s ∧ s_type s' = s_type s ∧ s_taskId s' = s_taskId s
  ∧ s_examId s' = s_examId s ∧ s_title s' = s_title s
  ∧ s_subject s' = s_subject s ∧ s_date s' = s_date s
  ∧ s_duration s' = s_duration s.

(** The sum of [f] over a list, as [reduce((sum, x) => sum + f(x), 0)]
    computes it. *)
Definition totalOver {A} (f : A → Z) (l : list A) : Z :=
  foldr (λ x acc, f x + acc) 0 l.

(** A session made for one of the tasks or for one of the exams. *)
Definition ownedBy (tasks : list Task) (exams : list Exam) (s : Session) : Prop :=
  (s_examId s = None ∧ ∃ t, t ∈ tasks ∧ s_taskId s = Some (task_id t))
  ∨ (s_taskId s = None ∧ ∃ e, e ∈ exams ∧ s_examId s = Some (exam_id e)).

(** ** Sample inputs *)

Definition noClock : nat → Z := λ _, 0.

Definition durationsByDay (w : WeeklySchedule) : list (list Z) :=
  (λ b, s_duration <$> b_sessions b) <$> w.

(** Sample inputs for the week of Monday 2024-01-01 (day 19723). *)
Definition longEssay : Task := mkTask "t1" "Essay" "English" 19725 1500.
Definition lateTask : Task := mkTask "t2" "Problem set" "Physics" 19724 100.
Definition overdueTask : Task := mkTask "t3" "Lab report" "Chemistry" 19720 90.
Definition sampleTasks : list Task := [longEssay; lateTask; overdueTask].
(** A task due on Sunday 2023-12-31, the day before that week. *)
Definition sundayTask : Task := mkTask "t9" "Lab report" "Chemistry" 19722 90.
Definition sampleExam : Exam := mkExam "e1" "Maths" 19728 (Some 240).
Definition sampleExams : list Exam := [sampleExam].

(** A 90-minute session missed on the Monday, with 450 minutes already
    committed on the Tuesday. *)
Definition sampleMissed : Session :=
  mkSession "task-t1-0-0" homework (Some "t1") None "Essay" "English"
            19723 90 missed.
Definition sampleExisting : list Session :=
  [sampleMissed;
   mkSession "task-t2-1-0" homework (Some "t2") None "Problem set" "Physics"
             19724 300 planned;
   mkSession "exam-e1-1-0" exam_revision None (Some "e1") "Maths Revision" "Maths"
             19724 150 completed].

(** A task that fills the Monday, and a task of zero minutes due on the
    Sunday. *)
Definition fullMonday : Task := mkTask "t4" "Mock paper" "History" 19723 480.
Definition idleTask : Task := mkTask "t5" "Reading" "English" 19729 0.

(** Three tasks that fill Monday to Wednesday, an exam on the Saturday with
    no estimated time, and the tracker as the tasks leave it. *)
Definition busyTasks : list Task :=
  [mkTask "t6" "Maths IA" "Maths" 19723 480;
   mkTask "t7" "Extended essay" "English" 19724 480;
   mkTask "t8" "TOK essay" "TOK" 19725 480].
Definition defaultExam : Exam := mkExam "e2" "Biology" 19728 None.
(** An exam on Sunday 2023-12-31, the day before that week. *)
Definition sundayExam : Exam := mkExam "e9" "Physics" 19722 (Some 120).
(** An exam of 300 minutes on Saturday 2024-01-06. *)
Definition saturdayExam : Exam := mkExam "e5" "Chemistry" 19728 (Some 300).
(** An exam on Friday 2024-01-05. *)
Definition fridayExam : Exam := mkExam "e4" "Physics" 19727 (Some 240).
Definition busyTracker : gmap Z Z :=
  r_used (allocate noClock 480 0 busyTasks [] (startOfWeek 19723)).


(** ** Callers of the engine *)

(** [useSchedule.loadSchedule] and [Dashboard.loadData]: the stored sessions
    are grouped into a schedule object, one property per date; a new date
    is appended, so [Object.values] lists the days in the order in which
    their dates first occur. *)
Fixpoint addToSchedule (session : Session) (scheduleObj : WeeklySchedule)
    : WeeklySchedule :=
  match scheduleObj with
  | [] => [mkBucket (s_date session) ([] ++ [session]) (0 + s_duration session)]
  | b :: rest =>
      if b_date b =? s_date session then
        mkBucket (b_date b) (b_sessions b ++ [session])
                 (b_totalMinutes b + s_duration session) :: rest
      else b :: addToSchedule session rest
  end.

Definition sessionsToSchedule (sessions : list Session) : WeeklySchedule :=
  foldl (λ scheduleObj session, addToSchedule session scheduleObj) [] sessions.

(** [schedule[dateKey]] *)
Definition bucketOf (schedule : WeeklySchedule) (dateKey : Z) : option DailyBucket :=
  List.find (λ b, b_date b =? dateKey) schedule.

(** [schedule[dateKey]?.sessions || []] *)
Definition getSessionsForDate (schedule : WeeklySchedule) (date : Z) : list Session :=
  match bucketOf schedule date with
  | Some b => b_sessions b
  | None => []
  end.

(** [schedule[dateKey]?.totalMinutes || 0] *)
Definition getTotalTimeForDate (schedule : WeeklySchedule) (date : Z) : Z :=
  match bucketOf schedule date with
  | Some b => if b_totalMinutes b =? 0 then 0 else b_totalMinutes b
  | None => 0
  end.

(** [{ ...s, status }] *)
Definition withStatus (status : SessionStatus) (s : Session) : Session :=
  mkSession (s_id s) (s_type s) (s_taskId s) (s_examId s) (s_title s)
            (s_subject s) (s_date s) (s_duration s) status.

(** The local update of [updateSessionStatus] (hook and dashboard): in every
    day the sessions with the given identity get the new status; dates and
    totals are left as they are. *)
Definition updateSessionStatus (sessionId : string) (status : SessionStatus)
    (schedule : WeeklySchedule) : WeeklySchedule :=
  (λ b, mkBucket (b_date b)
          ((λ s, if bool_decide (s_id s = sessionId) then withStatus status s
                 else s) <$> b_sessions b)
          (b_totalMinutes b)) <$> schedule.

(** [ScheduleGenerator]: the workload shown before generating. *)
Definition getTotalWorkload (pendingTasks : list Task) (upcomingExams : list Exam) : Z :=
  foldl (λ sum t, sum + task_estimatedTime t) 0 pendingTasks
  + foldl (λ sum e, sum + orDefault240 (exam_estimatedTime e)) 0 upcomingExams.

Definition getEstimatedDays (pendingTasks : list Task) (upcomingExams : list Exam)
    (dailyBudget : Z) : Z :=
  ceilDiv (getTotalWorkload pendingTasks upcomingExams) dailyBudget.

(** * Properties *)

(** In an unfolded engine function, name the day count again. *)
Ltac fold_daysUntil :=
  repeat progress
    change (differenceInDays (parseDate ?o ?d) (localMidnight ?w))
      with (daysUntil o d w) in *.


(** ** The examples of the specification, run on the model *)

(** 2024-01-01, a Monday, is day 19723. *)
Example startOfWeek_monday : startOfWeek 19723 = 19723.
Proof. reflexivity. Qed.

Example startOfWeek_sunday : startOfWeek 19729 = 19723.
Proof. reflexivity. Qed.

(** Example 1: 500 minutes due on day 2 with a 480-minute limit. *)
Example example1 :
  durationsByDay
    (generateWeeklySchedule noClock 480 0
       [mkTask "t1" "Essay" "English" 19725 500] [] 19723)
  = [[480]; [20]; []; []; []; []; []].
Proof. vm_compute. reflexivity. Qed.

(** Example 2: a 240-minute exam five days out. *)
Example example2 :
  durationsByDay
    (generateWeeklySchedule noClock 480 0
       [] [mkExam "e1" "Maths" 19728 (Some 240)] 19723)
  = [[48]; [48]; [48]; [48]; [48]; []; []].
Proof. vm_compute. reflexivity. Qed.

(** ** Full days from the window start to a parsed date *)

Lemma daysUntil_spec utcOffset d ws :
  -1440 < utcOffset < 1440 →
  daysUntil utcOffset d ws
  = if 0 <? utcOffset then (if d <? ws then d - ws + 1 else d - ws)
    else if utcOffset <? 0 then (if ws <? d then d - ws - 1 else d - ws)
    else d - ws.
Proof.
  intros Hoff. unfold daysUntil, differenceInDays, parseDate, localMidnight,
    minutesPerDay.
  destruct (Z.ltb_spec 0 utcOffset), (Z.ltb_spec utcOffset 0),
    (Z.ltb_spec d ws), (Z.ltb_spec ws d);
    try lia; Z.to_euclidean_division_equations; lia.
Qed.

Lemma daysUntil_utc d ws : daysUntil 0 d ws = d - ws.
Proof. by rewrite daysUntil_spec by lia. Qed.

Lemma daysUntil_le_max utcOffset d ws :
  -1440 < utcOffset < 1440 → daysUntil utcOffset d ws ≤ Z.max (d - ws) 0.
Proof.
  intros Hoff. rewrite daysUntil_spec by done.
  repeat match goal with |- context [?a <? ?b] => destruct (Z.ltb_spec a b) end; lia.
Qed.

Lemma daysUntil_le utcOffset d ws :
  -1440 < utcOffset < 1440 → utcOffset ≤ 0 ∨ ws ≤ d →
  daysUntil utcOffset d ws ≤ d - ws.
Proof.
  intros Hoff Hcase. rewrite daysUntil_spec by done.
  repeat match goal with |- context [?a <? ?b] => destruct (Z.ltb_spec a b) end; lia.
Qed.

Lemma daysUntil_nonneg utcOffset d ws :
  -1440 < utcOffset < 1440 → ws ≤ d → 0 ≤ daysUntil utcOffset d ws.
Proof.
  intros Hoff Hdue. rewrite daysUntil_spec by done.
  repeat match goal with |- context [?a <? ?b] => destruct (Z.ltb_spec a b) end; lia.
Qed.

Lemma daysUntil_negative utcOffset d ws :
  -1440 < utcOffset < 1440 →
  daysUntil utcOffset d ws < 0 ↔ d < ws - 1 ∨ (d < ws ∧ utcOffset ≤ 0).
Proof.
  intros Hoff. rewrite daysUntil_spec by done.
  repeat match goal with |- context [?a <? ?b] => destruct (Z.ltb_spec a b) end; lia.
Qed.

(** ** Sums of durations *)

Lemma foldl_duration_shift (ss : list Session) (a : Z) :
  foldl (λ sum s, sum + s_duration s) a ss = a + sumDurations ss.
Proof.
  unfold sumDurations. revert a.
  induction ss as [|s ss IH]; intros a; simpl; [lia|].
  rewrite (IH (a + s_duration s)), (IH (0 + s_duration s)). lia.
Qed.

Lemma sumDurations_nil : sumDurations [] = 0.
Proof. reflexivity. Qed.

Lemma sumDurations_cons s ss :
  sumDurations (s :: ss) = s_duration s + sumDurations ss.
Proof. unfold sumDurations at 1. simpl. rewrite foldl_duration_shift. lia. Qed.

Lemma sumDurations_app ss1 ss2 :
  sumDurations (ss1 ++ ss2) = sumDurations ss1 + sumDurations ss2.
Proof.
  induction ss1 as [|s ss1 IH]; simpl; [rewrite sumDurations_nil; lia|].
  rewrite !sumDurations_cons, IH. lia.
Qed.

Lemma sumDurations_Permutation ss1 ss2 :
  ss1 ≡ₚ ss2 → sumDurations ss1 = sumDurations ss2.
Proof.
  induction 1; rewrite ?sumDurations_cons; lia.
Qed.

Lemma minutesOn_nil d : minutesOn d [] = 0.
Proof. reflexivity. Qed.

Lemma minutesOn_app d ss1 ss2 :
  minutesOn d (ss1 ++ ss2) = minutesOn d ss1 + minutesOn d ss2.
Proof. unfold minutesOn. by rewrite filter_app, sumDurations_app. Qed.

Lemma minutesOn_cons d s ss :
  minutesOn d (s :: ss) = (if onDate d s then s_duration s else 0) + minutesOn d ss.
Proof.
  unfold minutesOn. rewrite filter_cons.
  destruct (onDate d s); case_decide; try done; rewrite ?sumDurations_cons; lia.
Qed.

Lemma minutesOn_single d s :
  minutesOn d [s] = if s_date s =? d then s_duration s else 0.
Proof. rewrite minutesOn_cons, minutesOn_nil. unfold onDate. case_match; lia. Qed.

Lemma addToExisting_minutesOn d cd extra ss ss' :
  addToExisting cd extra ss = Some ss' →
  minutesOn d ss' = minutesOn d ss + (if cd =? d then extra else 0).
Proof.
  revert ss'. induction ss as [|s ss IH]; intros ss'; simpl; [done|].
  destruct (onDate cd s) eqn:Hs.
  - intros [= <-]. rewrite !minutesOn_cons. unfold onDate in *. simpl.
    apply Z.eqb_eq in Hs. rewrite Hs.
    destruct (cd =? d); lia.
  - destruct (addToExisting cd extra ss) as [r|]; simpl; [|done].
    intros [= <-]. rewrite !minutesOn_cons, (IH r eq_refl). lia.
Qed.

(** ** Loops with a break *)

Lemma forDays_invariant (P : AllocState → Prop) body days st :
  P st →
  (∀ day st', day ∈ days → P st' → P (body day st')) →
  P (forDays body days st).
Proof.
  revert st. induction days as [|day days IH]; intros st Hst Hbody; simpl; [done|].
  assert (P (body day st)) by (apply Hbody; [left|done]).
  case_match; [done|].
  apply IH; [done|]. intros day' st' Hin. apply Hbody. by right.
Qed.

(** ** The capacity tracker follows the sessions *)

Lemma tracks_refl base : tracks base base [].
Proof.
  intros d. rewrite minutesOn_nil. destruct (base !! d); simpl; f_equal; lia.
Qed.

Lemma tracks_trans base used1 used2 ss1 ss2 :
  tracks base used1 ss1 → tracks used1 used2 ss2 → tracks base used2 (ss1 ++ ss2).
Proof.
  intros H1 H2 d. rewrite (H2 d), (H1 d), minutesOn_app.
  destruct (base !! d); simpl; f_equal; lia.
Qed.

Lemma tracks_push base used ss cd usedToday amount s :
  tracks base used ss →
  used !! cd = Some usedToday →
  s_date s = cd → s_duration s = amount →
  tracks base (<[cd := usedToday + amount]> used) (ss ++ [s]).
Proof.
  intros Htr Hcd Hdate Hdur d. rewrite minutesOn_app, minutesOn_single, Hdate, Hdur.
  destruct (decide (cd = d)) as [->|Hne].
  - rewrite lookup_insert_eq, Z.eqb_refl.
    rewrite (Htr d) in Hcd. destruct (base !! d); simplify_eq/=. f_equal. lia.
  - rewrite lookup_insert_ne by done. rewrite (Htr d).
    destruct (Z.eqb_spec cd d); [done|].
    destruct (base !! d); simpl; f_equal; lia.
Qed.

Lemma tracks_merge base used ss ss' cd usedToday amount :
  tracks base used ss →
  used !! cd = Some usedToday →
  addToExisting cd amount ss = Some ss' →
  tracks base (<[cd := usedToday + amount]> used) ss'.
Proof.
  intros Htr Hcd Hadd d. rewrite (addToExisting_minutesOn d _ _ _ _ Hadd).
  destruct (decide (cd = d)) as [->|Hne].
  - rewrite lookup_insert_eq, Z.eqb_refl.
    rewrite (Htr d) in Hcd. destruct (base !! d); simplify_eq/=. f_equal. lia.
  - rewrite lookup_insert_ne by done. rewrite (Htr d).
    destruct (Z.eqb_spec cd d); [done|].
    destruct (base !! d); simpl; f_equal; lia.
Qed.

Lemma withinLimit_commit limit used cd usedToday amount :
  withinLimit limit used →
  usedToday + amount ≤ limit →
  withinLimit limit (<[cd := usedToday + amount]> used).
Proof.
  intros Hlim Hle d u. destruct (decide (cd = d)) as [->|Hne].
  - rewrite lookup_insert_eq. intros [= <-]. done.
  - rewrite lookup_insert_ne by done. apply Hlim.
Qed.

Section DailyLimit.
Variable now : nat → Z.
Variable limit : Z.
Variable utcOffset : Z.

Ltac day_cases :=
  repeat match goal with
  | |- context [match ?x !! ?k with _ => _ end] => destruct (x !! k) eqn:?
  | |- context [if ?b then _ else _] => destruct b eqn:?
  | |- context [match ?o with Some _ => _ | None => _ end] => destruct o eqn:?
  end; try done.

Lemma scheduleTask_day_inv base task ws day st :
  allocInv limit base st →
  allocInv limit base (scheduleTask_day now limit task ws day st).
Proof.
  intros [Htr Hlim]. unfold scheduleTask_day. day_cases.
  split; simpl.
  - by eapply tracks_push.
  - apply withinLimit_commit; [done|lia].
Qed.

Lemma examPass1_day_inv base exam ws ideal day st :
  allocInv limit base st →
  allocInv limit base (examPass1_day now limit exam ws ideal day st).
Proof.
  intros [Htr Hlim]. unfold examPass1_day. day_cases.
  split; simpl.
  - by eapply tracks_push.
  - apply withinLimit_commit; [done|lia].
Qed.

Lemma examPass2_day_inv base exam ws day st :
  allocInv limit base st →
  allocInv limit base (examPass2_day now limit exam ws day st).
Proof.
  intros [Htr Hlim]. unfold examPass2_day. day_cases.
  - split; simpl.
    + by eapply tracks_merge.
    + apply withinLimit_commit; [done|lia].
  - split; simpl.
    + by eapply tracks_push.
    + apply withinLimit_commit; [done|lia].
Qed.

Lemma allocInv_start used rem k :
  withinLimit limit used → allocInv limit used (mkAlloc rem used k []).
Proof. intros H. split; [apply tracks_refl|done]. Qed.

Lemma scheduleTask_inv task ws used k :
  withinLimit limit used →
  allocInv limit used (scheduleTask now limit utcOffset task ws used k).
Proof.
  intros H. unfold scheduleTask; fold_daysUntil. apply forDays_invariant.
  - by apply allocInv_start.
  - intros. by apply scheduleTask_day_inv.
Qed.

Lemma distributeExamRevision_inv exam ws used k :
  withinLimit limit used →
  allocInv limit used (distributeExamRevision now limit utcOffset exam ws used k).
Proof.
  intros H. unfold distributeExamRevision; fold_daysUntil.
  destruct (daysUntil utcOffset (exam_date exam) ws <? 0); [by apply allocInv_start|].
  set (st1 := forDays _ _ _).
  assert (allocInv limit used st1) as H1.
  { apply forDays_invariant; [by apply allocInv_start|].
    intros. by apply examPass1_day_inv. }
  destruct (0 <? remainingMinutes st1); [|done].
  apply forDays_invariant; [done|]. intros. by apply examPass2_day_inv.
Qed.

Lemma runTask_inv base start st task :
  runInv limit base st → runInv limit base (runTask now limit utcOffset start st task).
Proof.
  intros [Htr Hlim].
  destruct (scheduleTask_inv task start (r_used st) (r_tick st) Hlim) as [Htr' Hlim'].
  split; simpl; [by eapply tracks_trans|done].
Qed.

Lemma runExam_inv base start st exam :
  runInv limit base st → runInv limit base (runExam now limit utcOffset start st exam).
Proof.
  intros [Htr Hlim].
  destruct (distributeExamRevision_inv exam start (r_used st) (r_tick st) Hlim)
    as [Htr' Hlim'].
  split; simpl; [by eapply tracks_trans|done].
Qed.

Lemma foldl_runTask_inv base start tasks st :
  runInv limit base st → runInv limit base (foldl (runTask now limit utcOffset start) st tasks).
Proof.
  revert st. induction tasks as [|t tasks IH]; intros st H; simpl; [done|].
  apply IH. by apply runTask_inv.
Qed.

Lemma foldl_runExam_inv base start exams st :
  runInv limit base st → runInv limit base (foldl (runExam now limit utcOffset start) st exams).
Proof.
  revert st. induction exams as [|e exams IH]; intros st H; simpl; [done|].
  apply IH. by apply runExam_inv.
Qed.

Lemma foldl_insert0_lookup (ds : list Z) (m : gmap Z Z) (d : Z) :
  foldl (λ m d, <[d := 0]> m) m ds !! d
  = if bool_decide (d ∈ ds) then Some 0 else m !! d.
Proof.
  revert m. induction ds as [|x ds IH]; intros m; cbn [foldl].
  - rewrite bool_decide_eq_false_2; [done|]. apply not_elem_of_nil.
  - rewrite IH. destruct (decide (d ∈ ds)) as [Hin|Hin].
    + rewrite (bool_decide_eq_true_2 _ Hin), bool_decide_eq_true_2; [done|by right].
    + rewrite (bool_decide_eq_false_2 _ Hin).
      destruct (decide (x = d)) as [->|Hne].
      * rewrite lookup_insert_eq, bool_decide_eq_true_2; [done|]. by left.
      * rewrite lookup_insert_ne by done.
        rewrite bool_decide_eq_false_2; [done|].
        rewrite elem_of_cons. intros [?|?]; [by subst|done].
Qed.

Lemma initialTimeUsed_lookup start d :
  initialTimeUsed start !! d
  = if bool_decide (d ∈ windowDates start) then Some 0 else None.
Proof. unfold initialTimeUsed. by rewrite foldl_insert0_lookup, lookup_empty. Qed.

Lemma initialTimeUsed_withinLimit start :
  0 ≤ limit → withinLimit limit (initialTimeUsed start).
Proof.
  intros H d u. rewrite initialTimeUsed_lookup. case_bool_decide; [|done].
  by intros [= <-].
Qed.

Lemma allocate_inv tasks exams start :
  0 ≤ limit →
  runInv limit (initialTimeUsed start) (allocate now limit utcOffset tasks exams start).
Proof.
  intros H. unfold allocate. apply foldl_runExam_inv, foldl_runTask_inv.
  split; [apply tracks_refl|by apply initialTimeUsed_withinLimit].
Qed.

End DailyLimit.

(** ** C1: no day is filled beyond the daily limit *)

(** C1 (amended).  For every invocation of [generateWeeklySchedule] with a
    daily limit that is not negative (any tasks, any exams, any start date),
    every daily bucket of the returned schedule has [totalMinutes] at most
    the limit: the task loop and both exam passes commit at most the free
    minutes of a day, and only to a day with free minutes. *)
Theorem daily_limit_respected now limit utcOffset tasks exams startDate :
  0 ≤ limit →
  Forall (λ b, b_totalMinutes b ≤ limit)
         (generateWeeklySchedule now limit utcOffset tasks exams startDate).
Proof.
  intros Hlimit. unfold generateWeeklySchedule, formatSchedule.
  set (start := startOfWeek startDate).
  destruct (allocate_inv now limit utcOffset tasks exams start Hlimit) as [Htr Hlim].
  apply Forall_fmap, Forall_forall. intros d Hd. simpl.
  change (minutesOn d (r_sessions (allocate now limit utcOffset tasks exams start)) ≤ limit).
  specialize (Htr d). rewrite initialTimeUsed_lookup in Htr.
  rewrite bool_decide_eq_true_2 in Htr by done. simpl in Htr.
  apply Hlim in Htr. lia.
Qed.

Lemma daily_limit_respected_witness :
  0 ≤ 480 ∧
  Forall (λ b, b_totalMinutes b ≤ 480)
         (generateWeeklySchedule noClock 480 0
            [mkTask "t1" "Essay" "English" 19725 500]
            [mkExam "e1" "Maths" 19728 (Some 240)] 19723).
Proof.
  split; [lia|]. apply daily_limit_respected. lia.
Defined.

(** With a negative limit nothing is scheduled, and the empty days, at 0
    minutes, are above the limit. *)
Lemma negative_limit_exceeded :
  ¬ Forall (λ b, b_totalMinutes b ≤ -1)
           (generateWeeklySchedule noClock (-1) 0 [] [] 19723).
Proof.
  intros H. apply Forall_cons_1 in H as [H _]. vm_compute in H. by apply H.
Qed.

(** ** C2: the allocation does not depend on the clock *)

Lemma forDays_sim body1 body2 days st1 st2 :
  (∀ day a b, simAlloc a b → simAlloc (body1 day a) (body2 day b)) →
  simAlloc st1 st2 →
  simAlloc (forDays body1 days st1) (forDays body2 days st2).
Proof.
  intros Hbody. revert st1 st2.
  induction days as [|day days IH]; intros st1 st2 Hsim; simpl; [done|].
  pose proof (Hbody day _ _ Hsim) as Hstep.
  destruct Hstep as (Hrem & Hused & Hout). rewrite Hrem.
  destruct (remainingMinutes (body2 day st2) <=? 0); [done|].
  by apply IH.
Qed.

Lemma forgetId_push (ss1 ss2 : list Session) s1 s2 :
  forgetId <$> ss1 = forgetId <$> ss2 → forgetId s1 = forgetId s2 →
  forgetId <$> (ss1 ++ [s1]) = forgetId <$> (ss2 ++ [s2]).
Proof. intros H1 H2. rewrite !fmap_app. simpl. by rewrite H1, H2. Qed.

Lemma forgetId_date s1 s2 : forgetId s1 = forgetId s2 → s_date s1 = s_date s2.
Proof. by intros [=]. Qed.

Lemma forgetId_addDuration extra s1 s2 :
  forgetId s1 = forgetId s2 →
  forgetId (addDuration extra s1) = forgetId (addDuration extra s2).
Proof. intros [=]. unfold forgetId, addDuration. simpl. congruence. Qed.

Lemma addToExisting_sim d extra (ss1 ss2 : list Session) :
  forgetId <$> ss1 = forgetId <$> ss2 →
  match addToExisting d extra ss1, addToExisting d extra ss2 with
  | Some r1, Some r2 => forgetId <$> r1 = forgetId <$> r2
  | None, None => True
  | _, _ => False
  end.
Proof.
  revert ss2. induction ss1 as [|s1 ss1 IH]; intros [|s2 ss2] Heq; try done.
  rewrite !fmap_cons in Heq.
  assert (forgetId s1 = forgetId s2) as Hhd by congruence.
  assert (forgetId <$> ss1 = forgetId <$> ss2) as Htl by congruence.
  clear Heq. simpl. unfold onDate. rewrite (forgetId_date _ _ Hhd).
  destruct (s_date s2 =? d).
  - simpl. f_equal; [by apply forgetId_addDuration|done].
  - specialize (IH ss2 Htl).
    destruct (addToExisting d extra ss1), (addToExisting d extra ss2); simpl;
      try done.
    simpl. by f_equal.
Qed.

Lemma filter_sim (P : Session → bool) (ss1 ss2 : list Session) :
  (∀ s, P (forgetId s) = P s) →
  forgetId <$> ss1 = forgetId <$> ss2 →
  forgetId <$> filter (λ s, P s = true) ss1
  = forgetId <$> filter (λ s, P s = true) ss2.
Proof.
  intros HP. revert ss2.
  induction ss1 as [|s1 ss1 IH]; intros [|s2 ss2] Heq; try done.
  rewrite !fmap_cons in Heq.
  assert (forgetId s1 = forgetId s2) as Hhd by congruence.
  assert (forgetId <$> ss1 = forgetId <$> ss2) as Htl by congruence.
  clear Heq. rewrite !filter_cons.
  assert (P s1 = P s2) as Heq by (rewrite <- (HP s1), <- (HP s2); congruence).
  rewrite Heq. destruct (P s2); repeat case_decide; try done.
  - rewrite !fmap_cons. f_equal; [done|by apply IH].
  - by apply IH.
Qed.

Lemma triple_forgetId s : triple (forgetId s) = triple s.
Proof. by destruct s as [? [] ? ? ? ? ? ? ?]. Qed.

Section Determinism.
Variables now1 now2 : nat → Z.
Variable limit : Z.
Variable utcOffset : Z.

Ltac sim_step Hsim :=
  destruct Hsim as (Hrem & Hused & Hout); rewrite Hrem, Hused;
  repeat match goal with
  | |- context [match ?x !! ?k with _ => _ end] => destruct (x !! k) eqn:?
  | |- context [if ?b then _ else _] => destruct b eqn:?
  end; try done.

Lemma scheduleTask_day_sim task ws day a b :
  simAlloc a b →
  simAlloc (scheduleTask_day now1 limit task ws day a)
           (scheduleTask_day now2 limit task ws day b).
Proof.
  intros Hsim. unfold scheduleTask_day. sim_step Hsim.
  repeat split; simpl; try congruence. by apply forgetId_push.
Qed.

Lemma examPass1_day_sim exam ws ideal day a b :
  simAlloc a b →
  simAlloc (examPass1_day now1 limit exam ws ideal day a)
           (examPass1_day now2 limit exam ws ideal day b).
Proof.
  intros Hsim. unfold examPass1_day. sim_step Hsim.
  repeat split; simpl; try congruence. by apply forgetId_push.
Qed.

Lemma examPass2_day_sim exam ws day a b :
  simAlloc a b →
  simAlloc (examPass2_day now1 limit exam ws day a)
           (examPass2_day now2 limit exam ws day b).
Proof.
  intros Hsim. unfold examPass2_day. sim_step Hsim.
  pose proof (addToExisting_sim (ws + day)
                (Z.min (remainingMinutes b) (limit - z)) _ _ Hout) as Hadd.
  destruct (addToExisting _ _ (out a)), (addToExisting _ _ (out b)); try done.
  repeat split; try done. by apply forgetId_push.
Qed.

Lemma scheduleTask_sim task ws used k1 k2 :
  simAlloc (scheduleTask now1 limit utcOffset task ws used k1)
           (scheduleTask now2 limit utcOffset task ws used k2).
Proof.
  unfold scheduleTask; fold_daysUntil. apply forDays_sim; [|done].
  intros. by apply scheduleTask_day_sim.
Qed.

Lemma distributeExamRevision_sim exam ws used k1 k2 :
  simAlloc (distributeExamRevision now1 limit utcOffset exam ws used k1)
           (distributeExamRevision now2 limit utcOffset exam ws used k2).
Proof.
  unfold distributeExamRevision; fold_daysUntil.
  destruct (daysUntil utcOffset (exam_date exam) ws <? 0); [done|].
  set (st1 := forDays (examPass1_day now1 _ _ _ _) _ _).
  set (st2 := forDays (examPass1_day now2 _ _ _ _) _ _).
  assert (simAlloc st1 st2) as Hsim.
  { apply forDays_sim; [|done]. intros. by apply examPass1_day_sim. }
  pose proof Hsim as (Hrem & _). rewrite Hrem.
  destruct (0 <? remainingMinutes st2); [|done].
  apply forDays_sim; [|done]. intros. by apply examPass2_day_sim.
Qed.

Lemma runTask_sim start a b task :
  simRun a b →
  simRun (runTask now1 limit utcOffset start a task) (runTask now2 limit utcOffset start b task).
Proof.
  intros [Hused Hss]. unfold runTask. rewrite Hused.
  destruct (scheduleTask_sim task start (r_used b) (r_tick a) (r_tick b))
    as (_ & Hu & Ho).
  split; simpl; [done|]. by rewrite !fmap_app, Hss, Ho.
Qed.

Lemma runExam_sim start a b exam :
  simRun a b →
  simRun (runExam now1 limit utcOffset start a exam) (runExam now2 limit utcOffset start b exam).
Proof.
  intros [Hused Hss]. unfold runExam. rewrite Hused.
  destruct (distributeExamRevision_sim exam start (r_used b) (r_tick a) (r_tick b))
    as (_ & Hu & Ho).
  split; simpl; [done|]. by rewrite !fmap_app, Hss, Ho.
Qed.

Lemma allocate_sim tasks exams start :
  simRun (allocate now1 limit utcOffset tasks exams start)
         (allocate now2 limit utcOffset tasks exams start).
Proof.
  unfold allocate.
  assert (∀ l a b, simRun a b →
            simRun (foldl (runTask now1 limit utcOffset start) a l)
                   (foldl (runTask now2 limit utcOffset start) b l)) as Htasks.
  { induction l as [|t l IH]; intros a b Hab; simpl; [done|].
    by apply IH, runTask_sim. }
  assert (∀ l a b, simRun a b →
            simRun (foldl (runExam now1 limit utcOffset start) a l)
                   (foldl (runExam now2 limit utcOffset start) b l)) as Hexams.
  { induction l as [|e l IH]; intros a b Hab; simpl; [done|].
    by apply IH, runExam_sim. }
  apply Hexams, Htasks. done.
Qed.

Lemma formatSchedule_sim (ss1 ss2 : list Session) dates :
  forgetId <$> ss1 = forgetId <$> ss2 →
  forgetId <$> allSessionsOf (bucketFor ss1 <$> dates)
  = forgetId <$> allSessionsOf (bucketFor ss2 <$> dates).
Proof.
  intros Hss. unfold allSessionsOf.
  induction dates as [|d dates IH]; [done|].
  rewrite !fmap_cons. cbn [flat_map]. rewrite !fmap_app.
  f_equal; [|done]. by apply (filter_sim (onDate d)).
Qed.

End Determinism.

(** C2.  Two invocations of [generateWeeklySchedule] on the same tasks, the
    same exams, the same daily limit and the same start date, under any two
    clocks, produce the same sequence (hence the same multiset) of
    (date, sourceId, duration) triples; the sessions differ at most in their
    identity strings, the only field that embeds the clock. *)
Theorem schedule_triples_deterministic
    now1 now2 limit utcOffset tasks exams startDate :
  triple <$> allSessionsOf
               (generateWeeklySchedule now1 limit utcOffset tasks exams startDate)
  = triple <$> allSessionsOf
                 (generateWeeklySchedule now2 limit utcOffset tasks exams startDate)
  ∧ forgetId <$> allSessionsOf
                   (generateWeeklySchedule now1 limit utcOffset tasks exams startDate)
    = forgetId <$> allSessionsOf
                     (generateWeeklySchedule now2 limit utcOffset tasks exams startDate).
Proof.
  assert (forgetId <$> allSessionsOf
                         (generateWeeklySchedule now1 limit utcOffset tasks exams
                            startDate)
          = forgetId <$> allSessionsOf
                           (generateWeeklySchedule now2 limit utcOffset tasks exams
                              startDate))
    as Hforget.
  { unfold generateWeeklySchedule, formatSchedule.
    apply formatSchedule_sim.
    apply (allocate_sim now1 now2 limit utcOffset tasks exams (startOfWeek startDate)). }
  split; [|done].
  rewrite <- (list_fmap_ext (triple ∘ forgetId) triple
                (allSessionsOf (generateWeeklySchedule now1 limit utcOffset tasks exams startDate)))
    by (intros; apply triple_forgetId).
  rewrite <- (list_fmap_ext (triple ∘ forgetId) triple
                (allSessionsOf (generateWeeklySchedule now2 limit utcOffset tasks exams startDate)))
    by (intros; apply triple_forgetId).
  by rewrite !list_fmap_compose, Hforget.
Qed.

(** ** Where the sessions of a schedule come from *)

Lemma filter_all {A} (P : A → Prop) `{∀ x, Decision (P x)} (l : list A) :
  Forall P l → filter P l = l.
Proof.
  induction 1 as [|x l Hx Hl IH]; [done|]. by rewrite filter_cons_True, IH.
Qed.

Lemma filter_none {A} (P : A → Prop) `{∀ x, Decision (P x)} (l : list A) :
  Forall (λ x, ¬ P x) l → filter P l = [].
Proof.
  induction 1 as [|x l Hx Hl IH]; [done|]. by rewrite filter_cons_False, IH.
Qed.

Lemma forDays_invariant_active (P : AllocState → Prop) body days st :
  0 < remainingMinutes st →
  P st →
  (∀ day st', day ∈ days → 0 < remainingMinutes st' → P st' → P (body day st')) →
  P (forDays body days st).
Proof.
  revert st. induction days as [|day days IH]; intros st Hpos Hst Hbody; simpl;
    [done|].
  assert (P (body day st)) by (apply Hbody; [left|done..]).
  destruct (Z.leb_spec (remainingMinutes (body day st)) 0); [done|].
  apply IH; [done..|]. intros day' st' Hin. apply Hbody. by right.
Qed.

Lemma addToExisting_Forall (P : Session → Prop) d extra ss ss' :
  (∀ s, P s → P (addDuration extra s)) →
  Forall P ss → addToExisting d extra ss = Some ss' → Forall P ss'.
Proof.
  intros HP. revert ss'. induction ss as [|s ss IH]; intros ss' Hall; simpl; [done|].
  apply Forall_cons_1 in Hall as [Hs Hss].
  destruct (onDate d s).
  - intros [= <-]. apply Forall_cons; auto.
  - destruct (addToExisting d extra ss) as [r|]; simpl; [|done].
    intros [= <-]. apply Forall_cons; auto.
Qed.

Section Origins.
Variable now : nat → Z.
Variable limit : Z.
Variable utcOffset : Z.

Ltac step_cases :=
  repeat match goal with
  | |- context [match ?x !! ?k with _ => _ end] => destruct (x !! k) eqn:?
  | |- context [if ?b then _ else _] => destruct b eqn:?
  | |- context [match ?o with Some _ => _ | None => _ end] => destruct o eqn:?
  end; try done.

Lemma scheduleTask_made t ws used k :
  Forall (madeForTask utcOffset t ws) (out (scheduleTask now limit utcOffset t ws used k)).
Proof.
  unfold scheduleTask; fold_daysUntil.
  apply (forDays_invariant (λ st, Forall (madeForTask utcOffset t ws) (out st))); [done|].
  intros day st Hday Hall. apply elem_of_seqZ in Hday.
  unfold scheduleTask_day. step_cases. simpl.
  apply Forall_app; split; [done|]. apply Forall_singleton.
  repeat split; simpl; try done. exists day. split; [lia|done].
Qed.

Lemma scheduleTask_sum t ws used k :
  sumDurations (out (scheduleTask now limit utcOffset t ws used k))
  = task_estimatedTime t - remainingMinutes (scheduleTask now limit utcOffset t ws used k).
Proof.
  unfold scheduleTask; fold_daysUntil.
  apply (forDays_invariant
           (λ st, sumDurations (out st) = task_estimatedTime t - remainingMinutes st)).
  - simpl. rewrite sumDurations_nil. lia.
  - intros day st _ Hsum. unfold scheduleTask_day. step_cases. simpl.
    rewrite sumDurations_app, sumDurations_cons, sumDurations_nil. simpl. lia.
Qed.

Lemma scheduleTask_remaining t ws used k :
  0 ≤ task_estimatedTime t →
  0 ≤ remainingMinutes (scheduleTask now limit utcOffset t ws used k).
Proof.
  intros Hest. unfold scheduleTask; fold_daysUntil.
  apply (forDays_invariant (λ st, 0 ≤ remainingMinutes st)); [done|].
  intros day st _ Hrem. unfold scheduleTask_day. step_cases. simpl. lia.
Qed.

Lemma scheduleTask_past_deadline t ws used k :
  daysUntil utcOffset (task_deadline t) ws < 0 →
  out (scheduleTask now limit utcOffset t ws used k) = [].
Proof.
  intros Hpast. unfold scheduleTask; fold_daysUntil. rewrite seqZ_nil by lia. done.
Qed.

Lemma madeForExam_addDuration e ws extra s :
  madeForExam e ws s → madeForExam e ws (addDuration extra s).
Proof. by intros (? & ? & ? & ? & ?). Qed.

Lemma revisionDays_range dUE day : day ∈ revisionDays dUE → 0 ≤ day < 7.
Proof. unfold revisionDays, daysToUse. rewrite elem_of_seqZ. lia. Qed.

Lemma distributeExamRevision_made e ws used k :
  Forall (madeForExam e ws) (out (distributeExamRevision now limit utcOffset e ws used k)).
Proof.
  unfold distributeExamRevision; fold_daysUntil.
  destruct (daysUntil utcOffset (exam_date e) ws <? 0); [done|].
  set (st1 := forDays _ _ _).
  assert (Forall (madeForExam e ws) (out st1)) as H1.
  { apply (forDays_invariant (λ st, Forall (madeForExam e ws) (out st))); [done|].
    intros day st Hday%revisionDays_range Hall.
    unfold examPass1_day. step_cases. simpl.
    apply Forall_app; split; [done|]. apply Forall_singleton.
    repeat split; simpl; try done. by exists day. }
  destruct (0 <? remainingMinutes st1); [|done].
  apply (forDays_invariant (λ st, Forall (madeForExam e ws) (out st))); [done|].
  intros day st Hday%revisionDays_range Hall.
  unfold examPass2_day. step_cases; simpl.
  - eapply addToExisting_Forall; [|done..]. apply madeForExam_addDuration.
  - apply Forall_app; split; [done|]. apply Forall_singleton.
    repeat split; simpl; try done. by exists day.
Qed.

End Origins.

Section Runs.
Variable now : nat → Z.
Variable limit : Z.
Variable utcOffset : Z.
Variable start : Z.

Lemma madeForTask_hasTaskId t s i :
  madeForTask utcOffset t start s → hasTaskId i s = true ↔ task_id t = i.
Proof.
  intros (_ & Hid & _). unfold hasTaskId. rewrite bool_decide_eq_true, Hid.
  split; congruence.
Qed.

Lemma scheduleTask_filter_own t used k :
  filter (λ s, hasTaskId (task_id t) s = true)
         (out (scheduleTask now limit utcOffset t start used k))
  = out (scheduleTask now limit utcOffset t start used k).
Proof.
  apply filter_all. eapply Forall_impl; [apply scheduleTask_made|].
  intros s Hs. by apply (madeForTask_hasTaskId t s).
Qed.

Lemma scheduleTask_filter_other t i used k :
  task_id t ≠ i →
  filter (λ s, hasTaskId i s = true)
         (out (scheduleTask now limit utcOffset t start used k)) = [].
Proof.
  intros Hne. apply filter_none. eapply Forall_impl; [apply scheduleTask_made|].
  intros s Hs Hi. by apply (madeForTask_hasTaskId t s i) in Hi.
Qed.

Lemma distributeExamRevision_filter_task e i used k :
  filter (λ s, hasTaskId i s = true)
         (out (distributeExamRevision now limit utcOffset e start used k)) = [].
Proof.
  apply filter_none. eapply Forall_impl; [apply distributeExamRevision_made|].
  intros s (_ & Hid & _). unfold hasTaskId.
  rewrite bool_decide_eq_true, Hid. done.
Qed.

Lemma foldl_runTask_other i tasks st :
  i ∉ task_id <$> tasks →
  filter (λ s, hasTaskId i s = true)
         (r_sessions (foldl (runTask now limit utcOffset start) st tasks))
  = filter (λ s, hasTaskId i s = true) (r_sessions st).
Proof.
  revert st. induction tasks as [|t tasks IH]; intros st Hnot; simpl; [done|].
  rewrite fmap_cons, not_elem_of_cons in Hnot. destruct Hnot as [Hne Hnot].
  rewrite IH by done. simpl.
  rewrite filter_app, scheduleTask_filter_other by done. by rewrite app_nil_r.
Qed.

Lemma foldl_runTask_own t tasks st :
  NoDup (task_id <$> tasks) → t ∈ tasks →
  ∃ used k,
    filter (λ s, hasTaskId (task_id t) s = true)
           (r_sessions (foldl (runTask now limit utcOffset start) st tasks))
    = filter (λ s, hasTaskId (task_id t) s = true) (r_sessions st)
      ++ out (scheduleTask now limit utcOffset t start used k).
Proof.
  revert st. induction tasks as [|t' tasks IH]; intros st Hnd Hin.
  { by apply elem_of_nil in Hin. }
  rewrite fmap_cons, NoDup_cons in Hnd. destruct Hnd as [Hfresh Hnd].
  apply elem_of_cons in Hin as [<-|Hin]; simpl.
  - exists (r_used st), (r_tick st).
    rewrite foldl_runTask_other by done. simpl.
    by rewrite filter_app, scheduleTask_filter_own.
  - destruct (IH (runTask now limit utcOffset start st t') Hnd Hin) as (used & k & Heq).
    exists used, k. rewrite Heq. simpl.
    rewrite filter_app, scheduleTask_filter_other, app_nil_r; [done|].
    intros Heq'. apply Hfresh. rewrite Heq'. by apply list_elem_of_fmap_2.
Qed.

Lemma foldl_runExam_tasks i exams st :
  filter (λ s, hasTaskId i s = true)
         (r_sessions (foldl (runExam now limit utcOffset start) st exams))
  = filter (λ s, hasTaskId i s = true) (r_sessions st).
Proof.
  revert st. induction exams as [|e exams IH]; intros st; simpl; [done|].
  rewrite IH. simpl.
  by rewrite filter_app, distributeExamRevision_filter_task, app_nil_r.
Qed.

Lemma insertByDeadline_Permutation t l : insertByDeadline t l ≡ₚ t :: l.
Proof.
  induction l as [|x l IH]; simpl; [done|].
  destruct (task_deadline t <=? task_deadline x); [done|].
  rewrite IH. apply Permutation_swap.
Qed.

Lemma sortTasksByDeadline_Permutation tasks : sortTasksByDeadline tasks ≡ₚ tasks.
Proof.
  induction tasks as [|t tasks IH]; simpl; [done|].
  by rewrite insertByDeadline_Permutation, IH.
Qed.

(** The sessions of a task in the allocation are those of the one call of
    [scheduleTask] made for it. *)
Lemma allocate_task_sessions tasks exams t :
  NoDup (task_id <$> tasks) → t ∈ tasks →
  ∃ used k,
    filter (λ s, hasTaskId (task_id t) s = true)
           (r_sessions (allocate now limit utcOffset tasks exams start))
    = out (scheduleTask now limit utcOffset t start used k).
Proof.
  intros Hnd Hin. unfold allocate. rewrite foldl_runExam_tasks.
  destruct (foldl_runTask_own t (sortTasksByDeadline tasks)
              (mkRun [] (initialTimeUsed start) 0%nat)) as (used & k & Heq).
  - by rewrite sortTasksByDeadline_Permutation.
  - by rewrite sortTasksByDeadline_Permutation.
  - exists used, k. by rewrite Heq.
Qed.

Lemma foldl_runTask_inWindow tasks st :
  Forall (inWindow start) (r_sessions st) →
  Forall (inWindow start) (r_sessions (foldl (runTask now limit utcOffset start) st tasks)).
Proof.
  revert st. induction tasks as [|t tasks IH]; intros st Hall; simpl; [done|].
  apply IH. simpl. apply Forall_app; split; [done|].
  eapply Forall_impl; [apply scheduleTask_made|].
  intros s (_ & _ & _ & _ & day & Hday & Hdate). exists day. split; [lia|done].
Qed.

Lemma foldl_runExam_inWindow exams st :
  Forall (inWindow start) (r_sessions st) →
  Forall (inWindow start) (r_sessions (foldl (runExam now limit utcOffset start) st exams)).
Proof.
  revert st. induction exams as [|e exams IH]; intros st Hall; simpl; [done|].
  apply IH. simpl. apply Forall_app; split; [done|].
  eapply Forall_impl; [apply distributeExamRevision_made|].
  by intros s (_ & _ & _ & _ & Hwin).
Qed.

Lemma allocate_inWindow tasks exams :
  Forall (inWindow start) (r_sessions (allocate now limit utcOffset tasks exams start)).
Proof.
  unfold allocate. apply foldl_runExam_inWindow, foldl_runTask_inWindow. done.
Qed.

End Runs.

(** ** Grouping by day keeps every session of the window *)

Lemma filter_date_split (d : Z) (ds : list Z) (ss : list Session) :
  d ∉ ds →
  filter (λ s, onDate d s = true) ss ++ filter (λ s, s_date s ∈ ds) ss
  ≡ₚ filter (λ s, s_date s ∈ d :: ds) ss.
Proof.
  intros Hfresh. induction ss as [|s ss IH]; [done|].
  destruct (decide (s_date s = d)) as [Heq|Hne].
  - rewrite (filter_cons_True (λ s, onDate d s = true)) by (by apply Z.eqb_eq).
    rewrite (filter_cons_False (λ s, s_date s ∈ ds)) by (by rewrite Heq).
    rewrite (filter_cons_True (λ s, s_date s ∈ d :: ds)) by (rewrite Heq; left).
    simpl. by apply Permutation_skip.
  - rewrite (filter_cons_False (λ s, onDate d s = true))
      by (by intros ?%Z.eqb_eq).
    destruct (decide (s_date s ∈ ds)) as [Hin|Hnin].
    + rewrite (filter_cons_True (λ s, s_date s ∈ ds)) by done.
      rewrite (filter_cons_True (λ s, s_date s ∈ d :: ds)) by (by right).
      rewrite <- Permutation_middle. by apply Permutation_skip.
    + rewrite (filter_cons_False (λ s, s_date s ∈ ds)) by done.
      rewrite (filter_cons_False (λ s, s_date s ∈ d :: ds)); [done|].
      rewrite elem_of_cons. intros [?|?]; done.
Qed.

Lemma buckets_Permutation (dates : list Z) (ss : list Session) :
  NoDup dates →
  allSessionsOf (bucketFor ss <$> dates) ≡ₚ filter (λ s, s_date s ∈ dates) ss.
Proof.
  unfold allSessionsOf. induction 1 as [|d ds Hfresh Hnd IH].
  - simpl. symmetry. rewrite filter_none; [done|].
    apply Forall_forall. intros s _. apply not_elem_of_nil.
  - rewrite fmap_cons. cbn [flat_map]. rewrite IH. simpl.
    by apply filter_date_split.
Qed.

Lemma NoDup_windowDates start : NoDup (windowDates start).
Proof.
  unfold windowDates. apply NoDup_fmap_2; [|apply NoDup_seqZ].
  intros x y. lia.
Qed.

Lemma elem_of_windowDates start d :
  d ∈ windowDates start ↔ ∃ day, 0 ≤ day < 7 ∧ d = start + day.
Proof.
  unfold windowDates. rewrite list_elem_of_fmap. setoid_rewrite elem_of_seqZ.
  split; intros (day & ? & ?); exists day; split; (lia || done).
Qed.

Lemma formatSchedule_Permutation ss start :
  Forall (inWindow start) ss →
  allSessionsOf (formatSchedule ss start) ≡ₚ ss.
Proof.
  intros Hall. unfold formatSchedule.
  rewrite buckets_Permutation by apply NoDup_windowDates.
  rewrite filter_all; [done|].
  eapply Forall_impl; [done|]. intros s Hs. by apply elem_of_windowDates.
Qed.

Lemma generateWeeklySchedule_Permutation now limit utcOffset tasks exams startDate :
  allSessionsOf (generateWeeklySchedule now limit utcOffset tasks exams startDate)
  ≡ₚ r_sessions (allocate now limit utcOffset tasks exams (startOfWeek startDate)).
Proof. apply formatSchedule_Permutation, allocate_inWindow. Qed.

(** ** C3, C5, C6: the sessions and the shortfall of one task *)

Lemma taskShortfall_other all t ty i :
  ty ≠ homework ∨ task_id t ≠ i → shortfallFor ty i (taskShortfall all t) = [].
Proof.
  intros Hne. unfold shortfallFor, taskShortfall.
  destruct (_ <? _); [|done].
  rewrite filter_cons_False; [done|]. simpl. intros [? ?]. destruct Hne; congruence.
Qed.

Lemma taskShortfall_own all t :
  shortfallFor homework (task_id t) (taskShortfall all t) = taskShortfall all t.
Proof.
  unfold shortfallFor, taskShortfall. destruct (_ <? _); [|done].
  by rewrite filter_cons_True.
Qed.

Lemma examShortfall_homework all e i :
  shortfallFor homework i (examShortfall all e) = [].
Proof.
  unfold shortfallFor, examShortfall. destruct (_ <? _); [|done].
  rewrite filter_cons_False; [done|]. simpl. by intros [? ?].
Qed.

Lemma shortfallFor_app ty i (a b : list UnscheduledItem) :
  shortfallFor ty i (a ++ b) = shortfallFor ty i a ++ shortfallFor ty i b.
Proof. apply filter_app. Qed.

Lemma shortfallFor_other_tasks all tasks i :
  i ∉ task_id <$> tasks →
  shortfallFor homework i (flat_map (taskShortfall all) tasks) = [].
Proof.
  induction tasks as [|x tasks IH]; intros Hfresh; [done|].
  rewrite fmap_cons, not_elem_of_cons in Hfresh. destruct Hfresh as [Hne Hfresh].
  cbn [flat_map]. rewrite shortfallFor_app, IH by done.
  rewrite taskShortfall_other; [done|]. right. congruence.
Qed.

Lemma shortfallFor_tasks all tasks t :
  NoDup (task_id <$> tasks) → t ∈ tasks →
  shortfallFor homework (task_id t) (flat_map (taskShortfall all) tasks)
  = taskShortfall all t.
Proof.
  induction tasks as [|t' tasks IH]; intros Hnd Hin.
  { by apply elem_of_nil in Hin. }
  rewrite fmap_cons, NoDup_cons in Hnd. destruct Hnd as [Hfresh Hnd].
  cbn [flat_map]. rewrite shortfallFor_app.
  apply elem_of_cons in Hin as [<-|Hin].
  - by rewrite taskShortfall_own, shortfallFor_other_tasks, app_nil_r.
  - rewrite IH by done.
    rewrite taskShortfall_other; [done|].
    right. intros Heq. apply Hfresh. rewrite Heq. by apply list_elem_of_fmap_2.
Qed.

Lemma shortfallFor_exams all exams i :
  shortfallFor homework i (flat_map (examShortfall all) exams) = [].
Proof.
  induction exams as [|e exams IH]; [done|].
  cbn [flat_map]. by rewrite shortfallFor_app, IH, examShortfall_homework.
Qed.

Lemma validateSchedule_task_shortfall limit tasks exams schedule t :
  NoDup (task_id <$> tasks) → t ∈ tasks →
  shortfallFor homework (task_id t)
    (unscheduledItems (validateSchedule limit tasks exams schedule))
  = taskShortfall (allSessionsOf schedule) t.
Proof.
  intros Hnd Hin. unfold validateSchedule. cbn [unscheduledItems].
  rewrite shortfallFor_app, shortfallFor_tasks by done.
  by rewrite shortfallFor_exams, app_nil_r.
Qed.

Lemma unscheduledItems_positive limit tasks exams schedule :
  Forall (λ u, 0 < u_missingMinutes u)
         (unscheduledItems (validateSchedule limit tasks exams schedule)).
Proof.
  unfold validateSchedule. cbn [unscheduledItems].
  apply Forall_app; split; apply Forall_flat_map, Forall_forall; intros x _.
  - unfold taskShortfall. destruct (_ <? _) eqn:Hlt; [|done].
    apply Z.ltb_lt in Hlt. apply Forall_singleton. simpl. lia.
  - unfold examShortfall. destruct (_ <? _) eqn:Hlt; [|done].
    apply Z.ltb_lt in Hlt. apply Forall_singleton. simpl. lia.
Qed.

Lemma forallb_false_elem {A} (f : A → bool) (l : list A) (x : A) :
  x ∈ l → f x = false → forallb f l = false.
Proof.
  induction 1 as [x l|x y l Hin IH]; intros Hf; simpl.
  - by rewrite Hf.
  - rewrite IH by done. apply andb_false_r.
Qed.

(** The sessions of task [t] that the validator sees are the output of the
    call of [scheduleTask] made for [t], up to the order of days. *)
Lemma validator_task_sessions now limit utcOffset tasks exams startDate t :
  NoDup (task_id <$> tasks) → t ∈ tasks →
  ∃ used k,
    filter (λ s, hasTaskId (task_id t) s = true)
           (allSessionsOf (generateWeeklySchedule now limit utcOffset tasks exams startDate))
    ≡ₚ out (scheduleTask now limit utcOffset t (startOfWeek startDate) used k).
Proof.
  intros Hnd Hin.
  destruct (allocate_task_sessions now limit utcOffset (startOfWeek startDate) tasks exams t
              Hnd Hin) as (used & k & Heq).
  exists used, k. rewrite <- Heq.
  by rewrite generateWeeklySchedule_Permutation.
Qed.

(** C3.  For every task of a task list with distinct identities and a
    non-negative estimated time, the minutes scheduled for it by
    [generateWeeklySchedule] (the sum the validator computes) are at most
    its estimated time; [validateSchedule] reports a shortfall entry for the
    task exactly when that sum is strictly below the estimated time, with
    [missingMinutes] the difference, which is strictly positive. *)
Theorem task_minutes_and_shortfall now limit utcOffset tasks exams startDate t :
  NoDup (task_id <$> tasks) → t ∈ tasks → 0 ≤ task_estimatedTime t →
  let schedule := generateWeeklySchedule now limit utcOffset tasks exams startDate in
  let report := validateSchedule limit tasks exams schedule in
  let scheduled := scheduledMinutesOfTask (allSessionsOf schedule) t in
  scheduled ≤ task_estimatedTime t
  ∧ shortfallFor homework (task_id t) (unscheduledItems report)
    = (if scheduled <? task_estimatedTime t
       then [mkItem (task_id t) (task_name t) homework
                    (task_estimatedTime t - scheduled)]
       else [])
  ∧ Forall (λ u, 0 < u_missingMinutes u) (unscheduledItems report).
Proof.
  intros Hnd Hin Hest schedule report scheduled. repeat split.
  - subst scheduled schedule. unfold scheduledMinutesOfTask.
    destruct (validator_task_sessions now limit utcOffset tasks exams startDate t Hnd Hin)
      as (used & k & Hperm).
    rewrite (sumDurations_Permutation _ _ Hperm), scheduleTask_sum.
    pose proof (scheduleTask_remaining now limit utcOffset t (startOfWeek startDate) used k Hest).
    lia.
  - subst report. by rewrite validateSchedule_task_shortfall.
  - apply unscheduledItems_positive.
Qed.

(** X22.  In a schedule generated from tasks with distinct identities, in a
    zone that is not east of UTC, or for a task due on or after the first
    day of the window, no session of the task is dated after its deadline.
    In every zone a session of the task is dated on or before the deadline
    or on the first day of the window, and on day 0 to 6 of the window. *)
Theorem task_sessions_dates now limit utcOffset tasks exams startDate t :
  -1440 < utcOffset < 1440 →
  NoDup (task_id <$> tasks) → t ∈ tasks →
  Forall (λ s, s_taskId s = Some (task_id t) →
               s_date s ≤ Z.max (task_deadline t) (startOfWeek startDate)
               ∧ (utcOffset ≤ 0 ∨ startOfWeek startDate ≤ task_deadline t →
                  s_date s ≤ task_deadline t)
               ∧ startOfWeek startDate ≤ s_date s ≤ startOfWeek startDate + 6)
         (allSessionsOf (generateWeeklySchedule now limit utcOffset tasks exams startDate)).
Proof.
  intros Hoff Hnd Hin. apply Forall_forall. intros s Hs Hid.
  destruct (validator_task_sessions now limit utcOffset tasks exams startDate t Hnd Hin)
    as (used & k & Hperm).
  assert (s ∈ out (scheduleTask now limit utcOffset t (startOfWeek startDate) used k))
    as Hout.
  { rewrite <- Hperm. apply list_elem_of_filter. split; [|done].
    unfold hasTaskId. by apply bool_decide_eq_true. }
  pose proof (scheduleTask_made now limit utcOffset t (startOfWeek startDate) used k)
    as Hmade.
  rewrite Forall_forall in Hmade.
  destruct (Hmade s Hout) as (_ & _ & _ & _ & day & Hday & Hdate).
  pose proof (daysUntil_le_max utcOffset (task_deadline t) (startOfWeek startDate)
                Hoff) as Hmax.
  split; [lia|]. split; [|lia]. intros Hcase.
  pose proof (daysUntil_le utcOffset (task_deadline t) (startOfWeek startDate)
                Hoff Hcase). lia.
Qed.

Lemma task_sessions_dates_witness :
  -1440 < -300 < 1440
  ∧ NoDup (task_id <$> sampleTasks) ∧ lateTask ∈ sampleTasks
  ∧ Forall (λ s, s_taskId s = Some "t2" → s_date s ≤ 19724)
      (allSessionsOf
         (generateWeeklySchedule noClock 480 (-300) sampleTasks sampleExams 19723)).
Proof.
  assert (-1440 < -300 < 1440) as Hoff by lia.
  assert (NoDup (task_id <$> sampleTasks)) as Hnd
    by (apply (bool_decide_unpack _); vm_compute; exact I).
  assert (lateTask ∈ sampleTasks) as Hin by (unfold sampleTasks; right; left).
  split; [exact Hoff|]. split; [exact Hnd|]. split; [exact Hin|].
  eapply Forall_impl;
    [exact (task_sessions_dates noClock 480 (-300) sampleTasks sampleExams 19723
              lateTask Hoff Hnd Hin)|].
  intros s Hs Hid. destruct (Hs Hid) as (_ & Hwest & _). apply Hwest. left. lia.
Defined.

(** C5 (defect of the code).  East of UTC a session can be dated after the
    deadline of its task: at UTC+7, in the week of Monday 2024-01-01, a
    90-minute task due on Sunday 2023-12-31 has [daysUntilDeadline] 0, since
    the 17 hours from the deadline (midnight UTC) back to the window start
    (midnight local time) truncate to 0 days, and it gets its 90 minutes on
    the Monday, the day after its deadline. *)
Theorem session_after_deadline_east_of_utc :
  task_deadline sundayTask < startOfWeek 19723
  ∧ daysUntil 420 (task_deadline sundayTask) (startOfWeek 19723) = 0
  ∧ triple <$> allSessionsOf
                 (generateWeeklySchedule noClock 480 420 [sundayTask] [] 19723)
    = [(task_deadline sundayTask + 1, Some (task_id sundayTask), 90)].
Proof. vm_compute. done. Qed.

(** X23.  A task (of a list with distinct identities, with a positive
    estimated time) whose deadline is two days or more before the start of
    the window, or before the start of the window in a zone that is not
    east of UTC, gets no session; the validator reports its full estimated
    time as missing, and [noDeadlineViolations] is false. *)
Theorem overdue_task_without_sessions now limit utcOffset tasks exams startDate t :
  -1440 < utcOffset < 1440 →
  NoDup (task_id <$> tasks) → t ∈ tasks →
  task_deadline t < startOfWeek startDate - 1
  ∨ (task_deadline t < startOfWeek startDate ∧ utcOffset ≤ 0) →
  0 < task_estimatedTime t →
  let schedule := generateWeeklySchedule now limit utcOffset tasks exams startDate in
  let report := validateSchedule limit tasks exams schedule in
  filter (λ s, hasTaskId (task_id t) s = true) (allSessionsOf schedule) = []
  ∧ shortfallFor homework (task_id t) (unscheduledItems report)
    = [mkItem (task_id t) (task_name t) homework (task_estimatedTime t)]
  ∧ noDeadlineViolations (details report) = false.
Proof.
  intros Hoff Hnd Hin Hpast Hest schedule report.
  apply (daysUntil_negative utcOffset _ _ Hoff) in Hpast.
  assert (filter (λ s, hasTaskId (task_id t) s = true) (allSessionsOf schedule) = [])
    as Hnone.
  { destruct (validator_task_sessions now limit utcOffset tasks exams startDate t Hnd Hin)
      as (used & k & Hperm).
    rewrite scheduleTask_past_deadline in Hperm by done.
    by apply Permutation_nil_r in Hperm. }
  repeat split; [done| |].
  - subst report. rewrite validateSchedule_task_shortfall by done.
    unfold taskShortfall, scheduledMinutesOfTask. rewrite Hnone, sumDurations_nil.
    destruct (Z.ltb_spec 0 (task_estimatedTime t)); [|lia].
    by rewrite Z.sub_0_r.
  - subst report. unfold validateSchedule. cbn [details noDeadlineViolations].
    apply (forallb_false_elem _ _ t Hin).
    unfold taskMeetsDeadline. by rewrite Hnone.
Qed.

Lemma overdue_task_without_sessions_witness :
  -1440 < 420 < 1440
  ∧ NoDup (task_id <$> sampleTasks) ∧ overdueTask ∈ sampleTasks
  ∧ (task_deadline overdueTask < startOfWeek 19723 - 1
     ∨ (task_deadline overdueTask < startOfWeek 19723 ∧ 420 ≤ 0))
  ∧ 0 < task_estimatedTime overdueTask
  ∧ filter (λ s, hasTaskId "t3" s = true)
      (allSessionsOf
         (generateWeeklySchedule noClock 480 420 sampleTasks sampleExams 19723))
    = []
  ∧ shortfallFor homework "t3"
      (unscheduledItems
         (validateSchedule 480 sampleTasks sampleExams
            (generateWeeklySchedule noClock 480 420 sampleTasks sampleExams 19723)))
    = [mkItem "t3" "Lab report" homework 90]
  ∧ noDeadlineViolations
      (details
         (validateSchedule 480 sampleTasks sampleExams
            (generateWeeklySchedule noClock 480 420 sampleTasks sampleExams 19723)))
    = false.
Proof.
  assert (-1440 < 420 < 1440) as Hoff by lia.
  assert (NoDup (task_id <$> sampleTasks)) as Hnd
    by (apply (bool_decide_unpack _); vm_compute; exact I).
  assert (overdueTask ∈ sampleTasks) as Hin
    by (unfold sampleTasks; right; right; left).
  assert (task_deadline overdueTask < startOfWeek 19723 - 1
          ∨ (task_deadline overdueTask < startOfWeek 19723 ∧ 420 ≤ 0)) as Hpast
    by (left; vm_compute; reflexivity).
  assert (0 < task_estimatedTime overdueTask) as Hest by (simpl; lia).
  destruct (overdue_task_without_sessions noClock 480 420 sampleTasks sampleExams
              19723 overdueTask Hoff Hnd Hin Hpast Hest) as (Hnone & Hitems & Hviol).
  split; [exact Hoff|]. split; [exact Hnd|]. split; [exact Hin|].
  split; [exact Hpast|]. split; [exact Hest|]. split; [exact Hnone|].
  split; [exact Hitems|exact Hviol].
Defined.

(** C6 (defect of the code).  East of UTC a task whose deadline is strictly
    before the window start can still be scheduled: at UTC+7, in the week of
    Monday 2024-01-01, the 90-minute task due on Sunday 2023-12-31 gets one
    session of 90 minutes, and the validator reports no missing minutes for
    it; [noDeadlineViolations] is false, the session being after the
    deadline.  West of UTC and at UTC the same task gets no session and its
    90 minutes are reported as missing. *)
Theorem overdue_task_scheduled_east_of_utc :
  task_deadline sundayTask < startOfWeek 19723
  ∧ s_duration
      <$> filter (λ s, hasTaskId (task_id sundayTask) s = true)
            (allSessionsOf
               (generateWeeklySchedule noClock 480 420 [sundayTask] [] 19723))
    = [90]
  ∧ unscheduledItems
      (validateSchedule 480 [sundayTask] []
         (generateWeeklySchedule noClock 480 420 [sundayTask] [] 19723))
    = []
  ∧ noDeadlineViolations
      (details
         (validateSchedule 480 [sundayTask] []
            (generateWeeklySchedule noClock 480 420 [sundayTask] [] 19723)))
    = false
  ∧ (∀ utcOffset, -1440 < utcOffset ≤ 0 →
       allSessionsOf
         (generateWeeklySchedule noClock 480 utcOffset [sundayTask] [] 19723) = []
       ∧ unscheduledItems
           (validateSchedule 480 [sundayTask] []
              (generateWeeklySchedule noClock 480 utcOffset [sundayTask] [] 19723))
         = [mkItem "t9" "Lab report" homework 90]).
Proof.
  split; [vm_compute; done|]. split; [vm_compute; done|].
  split; [vm_compute; done|]. split; [vm_compute; done|].
  intros utcOffset Hoff.
  assert (generateWeeklySchedule noClock 480 utcOffset [sundayTask] [] 19723
          = generateWeeklySchedule noClock 480 0 [sundayTask] [] 19723) as ->.
  { unfold generateWeeklySchedule, allocate. cbn [sortTasksByDeadline foldr
      insertByDeadline foldl]. unfold runTask, scheduleTask. fold_daysUntil.
    rewrite (daysUntil_spec utcOffset) by lia. rewrite daysUntil_utc.
    destruct (Z.ltb_spec 0 utcOffset); [lia|].
    by destruct (Z.ltb_spec utcOffset 0). }
  vm_compute. done.
Qed.

Lemma task_minutes_and_shortfall_witness :
  NoDup (task_id <$> sampleTasks) ∧ longEssay ∈ sampleTasks
  ∧ 0 ≤ task_estimatedTime longEssay
  ∧ scheduledMinutesOfTask
      (allSessionsOf (generateWeeklySchedule noClock 480 0 sampleTasks sampleExams 19723))
      longEssay ≤ 1500
  ∧ shortfallFor homework "t1"
      (unscheduledItems
         (validateSchedule 480 sampleTasks sampleExams
            (generateWeeklySchedule noClock 480 0 sampleTasks sampleExams 19723)))
    = [mkItem "t1" "Essay" homework 160].
Proof.
  assert (NoDup (task_id <$> sampleTasks)) as Hnd
    by (apply (bool_decide_unpack _); vm_compute; exact I).
  assert (longEssay ∈ sampleTasks) as Hin by (unfold sampleTasks; left).
  assert (0 ≤ task_estimatedTime longEssay) as Hest by (simpl; lia).
  destruct (task_minutes_and_shortfall noClock 480 0 sampleTasks sampleExams 19723
              longEssay Hnd Hin Hest) as (Hle & Hitems & _).
  repeat split; done.
Defined.

(** ** C7: rescheduling a missed session *)

Lemma usedOr0_insert used d v d' :
  usedOr0 (<[d := v]> used) d' = if decide (d = d') then v else usedOr0 used d'.
Proof. unfold usedOr0. rewrite lookup_insert. by case_decide. Qed.

Lemma usedOr0_recordSession used s d :
  usedOr0 (recordSession used s) d
  = usedOr0 used d + (if s_date s =? d then s_duration s else 0).
Proof.
  unfold recordSession. rewrite usedOr0_insert.
  destruct (Z.eqb_spec (s_date s) d) as [->|Hne].
  - rewrite decide_True by done. unfold usedOr0.
    destruct (used !! d) as [v|]; simpl; [|done].
    by destruct (Z.eqb_spec v 0) as [->|].
  - rewrite decide_False by done. lia.
Qed.

Lemma usedOr0_foldl_recordSession ss used d :
  usedOr0 (foldl recordSession used ss) d = usedOr0 used d + minutesOn d ss.
Proof.
  revert used. induction ss as [|s ss IH]; intros used; simpl.
  - rewrite minutesOn_nil. lia.
  - rewrite IH, usedOr0_recordSession, minutesOn_cons. unfold onDate. lia.
Qed.

(** The tracker rebuilt from the existing sessions holds, for every date,
    the sum of the durations of the sessions of that date. *)
Lemma usedOr0_calculateSessionTimeUsed ss d :
  usedOr0 (calculateSessionTimeUsed ss) d = minutesOn d ss.
Proof.
  unfold calculateSessionTimeUsed. rewrite usedOr0_foldl_recordSession.
  unfold usedOr0. by rewrite lookup_empty.
Qed.

Lemma spareOver_insert_fresh limit used from day v days :
  day ∉ days →
  spareOver limit (<[from + day := v]> used) from days
  = spareOver limit used from days.
Proof.
  induction days as [|x days IH]; intros Hfresh; simpl; [done|].
  rewrite not_elem_of_cons in Hfresh. destruct Hfresh as [Hne Hfresh].
  rewrite IH by done. unfold spareMinutes.
  rewrite usedOr0_insert, decide_False by lia. done.
Qed.

Section Reschedule.
Variable now : nat → Z.
Variable limit : Z.
Variable missedSession : Session.
Variable currentDate : Z.

Lemma reschedule_day_full day st :
  limit - usedOr0 (sessionTimeUsed st) (currentDate + day) ≤ 0 →
  reschedule_day now limit missedSession currentDate day st = st.
Proof.
  intros Hfull. unfold reschedule_day.
  by destruct (Z.ltb_spec 0 (limit - usedOr0 (sessionTimeUsed st) (currentDate + day)));
    [lia|].
Qed.

Lemma reschedule_day_free day st :
  let freeMinutes := limit - usedOr0 (sessionTimeUsed st) (currentDate + day) in
  let timeToAssign := Z.min (remainingMinutes st) freeMinutes in
  0 < freeMinutes →
  reschedule_day now limit missedSession currentDate day st
  = mkAlloc (remainingMinutes st - timeToAssign)
      (<[currentDate + day
         := usedOr0 (sessionTimeUsed st) (currentDate + day) + timeToAssign]>
         (sessionTimeUsed st))
      (S (tick st))
      (out st ++ [rescheduledSession now missedSession day (currentDate + day)
                    timeToAssign (tick st)]).
Proof.
  intros freeMinutes timeToAssign Hfree. unfold reschedule_day.
  by destruct (Z.ltb_spec 0 (limit - usedOr0 (sessionTimeUsed st) (currentDate + day)));
    [|lia].
Qed.

Lemma reschedule_loop_absorbs days st :
  NoDup days →
  0 ≤ remainingMinutes st ≤ spareOver limit (sessionTimeUsed st) currentDate days →
  remainingMinutes
    (forDays (reschedule_day now limit missedSession currentDate) days st) = 0.
Proof.
  intros Hnd. revert st.
  induction Hnd as [|day days Hfresh Hnd IH]; intros st Hrem.
  { simpl in *. lia. }
  change (spareOver limit (sessionTimeUsed st) currentDate (day :: days))
    with (spareMinutes limit (sessionTimeUsed st) (currentDate + day)
          + spareOver limit (sessionTimeUsed st) currentDate days) in Hrem.
  unfold spareMinutes in Hrem. cbn [forDays].
  destruct (Z.ltb_spec 0 (limit - usedOr0 (sessionTimeUsed st) (currentDate + day)))
    as [Hfree|Hfull].
  - rewrite (reschedule_day_free day st Hfree). cbn [remainingMinutes].
    destruct (Z.leb_spec
                (remainingMinutes st
                 - Z.min (remainingMinutes st)
                     (limit - usedOr0 (sessionTimeUsed st) (currentDate + day))) 0)
      as [Hdone|Hmore]; cbn [remainingMinutes]; [lia|].
    apply IH. cbn [remainingMinutes sessionTimeUsed].
    rewrite spareOver_insert_fresh by done. lia.
  - rewrite (reschedule_day_full day st Hfull).
    destruct (Z.leb_spec (remainingMinutes st) 0); [lia|].
    apply IH. lia.
Qed.

Lemma reschedule_loop_sum days st :
  sumDurations
    (out (forDays (reschedule_day now limit missedSession currentDate) days st))
  + remainingMinutes
      (forDays (reschedule_day now limit missedSession currentDate) days st)
  = sumDurations (out st) + remainingMinutes st.
Proof.
  apply (forDays_invariant
           (λ st', sumDurations (out st') + remainingMinutes st'
                   = sumDurations (out st) + remainingMinutes st)); [done|].
  intros day st' _ Hinv. unfold reschedule_day.
  destruct (0 <? _); [|done]. simpl.
  rewrite sumDurations_app, sumDurations_cons, sumDurations_nil. simpl. lia.
Qed.

Lemma reschedule_loop_made days st :
  Forall (λ s, s_status s = rescheduled
               ∧ ∃ day, day ∈ days ∧ s_date s = currentDate + day) (out st) →
  Forall (λ s, s_status s = rescheduled
               ∧ ∃ day, day ∈ days ∧ s_date s = currentDate + day)
    (out (forDays (reschedule_day now limit missedSession currentDate) days st)).
Proof.
  intros Hst. apply forDays_invariant; [done|].
  intros day st' Hday Hall. unfold reschedule_day.
  destruct (0 <? _); [|done]. simpl.
  apply Forall_app; split; [done|]. apply Forall_singleton. simpl.
  split; [done|]. by exists day.
Qed.

End Reschedule.

(** C7.  When the duration of the missed session (not negative) is at most
    the free minutes of the three days after the missed date, free minutes
    being the limit minus the durations of all existing sessions of the day
    whatever their status, [rescheduleMissedSession] returns sessions dated
    from one to three days after the missed date, all with status
    [rescheduled], whose durations sum exactly to the missed duration. *)
Theorem reschedule_absorbs_missed now limit missedSession currentDate existing :
  0 ≤ s_duration missedSession →
  s_duration missedSession
  ≤ freeOn limit existing (currentDate + 1) + freeOn limit existing (currentDate + 2)
    + freeOn limit existing (currentDate + 3) →
  let newSessions :=
    rescheduleMissedSession now limit missedSession currentDate existing in
  Forall (λ s, currentDate + 1 ≤ s_date s ≤ currentDate + 3
               ∧ s_status s = rescheduled) newSessions
  ∧ sumDurations newSessions = s_duration missedSession.
Proof.
  intros Hpos Hfits newSessions. subst newSessions.
  unfold rescheduleMissedSession. split.
  - eapply Forall_impl; [apply reschedule_loop_made; done|].
    intros s (Hstatus & day & Hday & Hdate). apply elem_of_seqZ in Hday.
    simpl. split; [lia|done].
  - pose proof (reschedule_loop_sum now limit missedSession currentDate (seqZ 1 3)
                  (mkAlloc (s_duration missedSession)
                           (calculateSessionTimeUsed existing) 0%nat [])) as Hsum.
    rewrite reschedule_loop_absorbs in Hsum.
    + cbn [out remainingMinutes] in Hsum. rewrite sumDurations_nil in Hsum. lia.
    + apply NoDup_seqZ.
    + cbn [remainingMinutes sessionTimeUsed]. split; [done|].
      change (seqZ 1 3) with [1; 2; 3]. cbn [spareOver foldr]. unfold spareMinutes.
      rewrite !usedOr0_calculateSessionTimeUsed. unfold freeOn in Hfits. lia.
Qed.

(** Example 3 of the specification, for any missed date [D]: 90 minutes
    missed, 450 of 480 minutes committed on [D + 1], nothing on [D + 2]. *)
Lemma reschedule_example3 now missedSession D existing :
  s_duration missedSession = 90 →
  minutesOn (D + 1) existing = 450 → minutesOn (D + 2) existing = 0 →
  (λ s, (s_date s, s_duration s, s_status s))
    <$> rescheduleMissedSession now 480 missedSession D existing
  = [(D + 1, 30, rescheduled); (D + 2, 60, rescheduled)].
Proof.
  intros Hdur H1 H2. unfold rescheduleMissedSession.
  change (seqZ 1 3) with [1; 2; 3]. cbn [forDays].
  rewrite reschedule_day_free
    by (cbn [sessionTimeUsed]; rewrite usedOr0_calculateSessionTimeUsed, H1; lia).
  cbn [sessionTimeUsed remainingMinutes tick out].
  rewrite usedOr0_calculateSessionTimeUsed, H1, Hdur.
  change (Z.min 90 (480 - 450)) with 30. change (90 - 30 <=? 0) with false.
  cbn match.
  rewrite reschedule_day_free
    by (cbn [sessionTimeUsed];
        rewrite usedOr0_insert, decide_False, usedOr0_calculateSessionTimeUsed, H2;
        lia).
  cbn [sessionTimeUsed remainingMinutes tick out].
  rewrite usedOr0_insert, decide_False, usedOr0_calculateSessionTimeUsed, H2 by lia.
  change (Z.min (90 - 30) (480 - 0)) with 60.
  change (90 - 30 - 60 <=? 0) with true. cbn match. done.
Qed.

Lemma reschedule_absorbs_missed_witness :
  0 ≤ s_duration sampleMissed
  ∧ s_duration sampleMissed
    ≤ freeOn 480 sampleExisting (19723 + 1) + freeOn 480 sampleExisting (19723 + 2)
      + freeOn 480 sampleExisting (19723 + 3)
  ∧ (Forall (λ s, 19723 + 1 ≤ s_date s ≤ 19723 + 3 ∧ s_status s = rescheduled)
       (rescheduleMissedSession noClock 480 sampleMissed 19723 sampleExisting)
     ∧ sumDurations
         (rescheduleMissedSession noClock 480 sampleMissed 19723 sampleExisting)
       = s_duration sampleMissed)
  ∧ (λ s, (s_date s, s_duration s))
      <$> rescheduleMissedSession noClock 480 sampleMissed 19723 sampleExisting
    = [(19724, 30); (19725, 60)].
Proof.
  assert (0 ≤ s_duration sampleMissed) as Hpos by (vm_compute; discriminate).
  assert (s_duration sampleMissed
          ≤ freeOn 480 sampleExisting (19723 + 1)
            + freeOn 480 sampleExisting (19723 + 2)
            + freeOn 480 sampleExisting (19723 + 3)) as Hfits
    by (vm_compute; discriminate).
  split; [done|]. split; [done|]. split.
  - exact (reschedule_absorbs_missed noClock 480 sampleMissed 19723 sampleExisting
             Hpos Hfits).
  - vm_compute. reflexivity.
Defined.

(** ** The dates of the revision sessions of an exam *)

Lemma addToExisting_dates d extra ss ss' :
  addToExisting d extra ss = Some ss' → s_date <$> ss' = s_date <$> ss.
Proof.
  revert ss'. induction ss as [|s ss IH]; intros ss'; simpl; [done|].
  destruct (onDate d s).
  - by intros [= <-].
  - destruct (addToExisting d extra ss) as [r|]; simpl; [|done].
    intros [= <-]. rewrite !fmap_cons. f_equal. by apply IH.
Qed.

Lemma addToExisting_None d extra ss :
  addToExisting d extra ss = None ↔ d ∉ s_date <$> ss.
Proof.
  induction ss as [|s ss IH]; cbn [addToExisting].
  - split; [intros _; apply not_elem_of_nil|done].
  - rewrite fmap_cons, not_elem_of_cons. unfold onDate.
    destruct (Z.eqb_spec (s_date s) d) as [Heq|Hne].
    + split; [done|]. intros [Hne _]. congruence.
    + destruct (addToExisting d extra ss) as [r|]; simpl.
      * split; [done|]. intros [_ Hnot]. by apply IH in Hnot.
      * split; [|done]. intros _. split; [congruence|]. by apply IH.
Qed.

Section OnePerDate.
Variable now : nat → Z.
Variable limit : Z.
Variable utcOffset : Z.
Variable exam : Exam.
Variable weekStart : Z.




End OnePerDate.

(** ** C9: no session of zero or negative length *)

Section PositiveDurations.
Variable now : nat → Z.
Variable limit : Z.
Variable utcOffset : Z.

Ltac body_cases :=
  repeat match goal with
  | |- context [match ?x !! ?k with _ => _ end] => destruct (x !! k) eqn:?
  | |- context [if ?a <? ?b then _ else _] => destruct (Z.ltb_spec a b)
  | |- context [match ?o with Some _ => _ | None => _ end] => destruct o eqn:?
  end; try done.

Lemma scheduleTask_positive t ws used k :
  1 ≤ task_estimatedTime t →
  Forall (λ s, 1 ≤ s_duration s) (out (scheduleTask now limit utcOffset t ws used k)).
Proof.
  intros Hest. unfold scheduleTask; fold_daysUntil.
  apply (forDays_invariant_active (λ st, Forall (λ s, 1 ≤ s_duration s) (out st)));
    [simpl; lia|done|].
  intros day st _ Hrem Hall. unfold scheduleTask_day. body_cases. cbn [out].
  apply Forall_app; split; [done|]. apply Forall_singleton. simpl. lia.
Qed.

Lemma distributeExamRevision_positive e ws used k :
  Forall (λ s, 1 ≤ s_duration s) (out (distributeExamRevision now limit utcOffset e ws used k)).
Proof.
  unfold distributeExamRevision; fold_daysUntil.
  destruct (daysUntil utcOffset (exam_date e) ws <? 0); [done|].
  set (st1 := forDays _ _ _).
  assert (Forall (λ s, 1 ≤ s_duration s) (out st1)) as H1.
  { apply (forDays_invariant (λ st, Forall (λ s, 1 ≤ s_duration s) (out st)));
      [done|].
    intros day st _ Hall. unfold examPass1_day. body_cases. cbn [out].
    apply Forall_app; split; [done|]. apply Forall_singleton. simpl. lia. }
  destruct (Z.ltb_spec 0 (remainingMinutes st1)); [|done].
  apply (forDays_invariant_active (λ st, Forall (λ s, 1 ≤ s_duration s) (out st)));
    [done..|].
  intros day st _ Hrem Hall. unfold examPass2_day. body_cases; cbn [out].
  - eapply addToExisting_Forall; [|done..]. intros s Hs. simpl. lia.
  - apply Forall_app; split; [done|]. apply Forall_singleton. simpl. lia.
Qed.

Lemma foldl_runTask_positive start tasks st :
  Forall (λ t, 1 ≤ task_estimatedTime t) tasks →
  Forall (λ s, 1 ≤ s_duration s) (r_sessions st) →
  Forall (λ s, 1 ≤ s_duration s)
         (r_sessions (foldl (runTask now limit utcOffset start) st tasks)).
Proof.
  intros Htasks. revert st.
  induction Htasks as [|t tasks Ht Htasks IH]; intros st Hst; simpl; [done|].
  apply IH. simpl. apply Forall_app; split; [done|].
  by apply scheduleTask_positive.
Qed.

Lemma foldl_runExam_positive start exams st :
  Forall (λ s, 1 ≤ s_duration s) (r_sessions st) →
  Forall (λ s, 1 ≤ s_duration s)
         (r_sessions (foldl (runExam now limit utcOffset start) st exams)).
Proof.
  revert st. induction exams as [|e exams IH]; intros st Hst; simpl; [done|].
  apply IH. simpl. apply Forall_app; split; [done|].
  apply distributeExamRevision_positive.
Qed.

(** A task of zero minutes: day 0 takes a session of zero minutes when it
    has free minutes; in every case the loop stops after day 0. *)
Lemma scheduleTask_zero_estimate t ws used k :
  task_estimatedTime t = 0 → 0 ≤ daysUntil utcOffset (task_deadline t) ws →
  out (scheduleTask now limit utcOffset t ws used k)
  = match used !! (ws + 0) with
    | Some usedToday =>
        if 0 <? limit - usedToday then [taskSession now t 0 (ws + 0) 0 k] else []
    | None => []
    end.
Proof.
  intros Hest Hdue. unfold scheduleTask; fold_daysUntil. rewrite Hest.
  rewrite seqZ_cons by lia. cbn [forDays].
  unfold scheduleTask_day at 1 2 3. cbn [sessionTimeUsed remainingMinutes tick out].
  destruct (used !! (ws + 0)) as [u|]; [|done].
  destruct (Z.ltb_spec 0 (limit - u)); [|done].
  cbn [remainingMinutes]. rewrite Z.min_l by lia. done.
Qed.

End PositiveDurations.

(** C9 (amended).  When every task has an estimated time of at least 1 and
    every exam has an estimated time that is absent or at least 1, every
    session of the schedule has a duration of at least 1.  The task loop has
    no guard on the minutes it assigns: a task of 0 minutes whose deadline
    is not before the window gets one session of 0 minutes on day 0 when
    day 0 has free minutes, and no session at all when day 0 has none, since
    the loop stops after day 0. *)
Theorem session_durations_positive now limit utcOffset :
  (∀ tasks exams startDate,
     Forall (λ t, 1 ≤ task_estimatedTime t) tasks →
     Forall (λ e, exam_estimatedTime e = None
                  ∨ ∃ v, exam_estimatedTime e = Some v ∧ 1 ≤ v) exams →
     Forall (λ s, 1 ≤ s_duration s)
            (allSessionsOf
               (generateWeeklySchedule now limit utcOffset tasks exams startDate)))
  ∧ (∀ t ws used k,
       -1440 < utcOffset < 1440 →
       task_estimatedTime t = 0 → ws ≤ task_deadline t →
       (λ s, (s_date s, s_duration s))
         <$> out (scheduleTask now limit utcOffset t ws used k)
       = match used !! ws with
         | Some usedToday => if 0 <? limit - usedToday then [(ws, 0)] else []
         | None => []
         end).
Proof.
  split.
  - intros tasks exams startDate Htasks _.
    rewrite generateWeeklySchedule_Permutation. unfold allocate.
    apply foldl_runExam_positive, foldl_runTask_positive; [|done].
    by rewrite sortTasksByDeadline_Permutation.
  - intros t ws used k Hoff Hest Hdue.
    rewrite scheduleTask_zero_estimate by (by try apply daysUntil_nonneg).
    rewrite Z.add_0_r.
    destruct (used !! ws) as [u|]; [|done]. by destruct (0 <? limit - u).
Qed.

Lemma session_durations_positive_witness :
  Forall (λ t, 1 ≤ task_estimatedTime t) sampleTasks
  ∧ Forall (λ e, exam_estimatedTime e = None
                 ∨ ∃ v, exam_estimatedTime e = Some v ∧ 1 ≤ v) sampleExams
  ∧ Forall (λ s, 1 ≤ s_duration s)
      (allSessionsOf (generateWeeklySchedule noClock 480 0 sampleTasks sampleExams 19723))
  ∧ -1440 < -300 < 1440
  ∧ task_estimatedTime idleTask = 0 ∧ 19723 ≤ task_deadline idleTask
  ∧ (λ s, (s_date s, s_duration s))
      <$> out (scheduleTask noClock 480 (-300) idleTask 19723
                 (initialTimeUsed 19723) 0)
    = [(19723, 0)].
Proof.
  assert (Forall (λ t, 1 ≤ task_estimatedTime t) sampleTasks) as Htasks
    by (repeat apply Forall_cons_2; [simpl; lia..|apply Forall_nil_2]).
  assert (Forall (λ e, exam_estimatedTime e = None
                       ∨ ∃ v, exam_estimatedTime e = Some v ∧ 1 ≤ v) sampleExams)
    as Hexams
    by (apply Forall_singleton; right; exists 240; split; [done|lia]).
  assert (task_estimatedTime idleTask = 0) as Hzero by done.
  assert (19723 ≤ task_deadline idleTask) as Hdue by (simpl; lia).
  assert (-1440 < -300 < 1440) as Hoff by lia.
  split; [done|]. split; [done|]. split.
  - exact (proj1 (session_durations_positive noClock 480 0)
             sampleTasks sampleExams 19723 Htasks Hexams).
  - split; [done|]. split; [done|]. split; [done|].
    exact (proj2 (session_durations_positive noClock 480 (-300))
             idleTask 19723 (initialTimeUsed 19723) 0%nat Hoff Hzero Hdue).
Defined.

(** A task of 0 minutes behind a full Monday: Tuesday is the first day with
    free minutes and is before the deadline, yet the task gets no session. *)
Lemma zero_estimate_skips_free_day :
  b_totalMinutes
    <$> generateWeeklySchedule noClock 480 0 [fullMonday; idleTask] [] 19723
  = [480; 0; 0; 0; 0; 0; 0]
  ∧ task_estimatedTime idleTask = 0
  ∧ 19723 + 1 ≤ task_deadline idleTask
  ∧ filter (λ s, hasTaskId (task_id idleTask) s = true)
      (allSessionsOf
         (generateWeeklySchedule noClock 480 0 [fullMonday; idleTask] [] 19723))
    = [].
Proof. vm_compute. repeat split; discriminate. Qed.

(** ** C4: how many sessions an exam gets *)

Lemma ceilDiv_bounds a b : 0 < b → b * (ceilDiv a b - 1) < a ≤ b * ceilDiv a b.
Proof.
  intros Hb. unfold ceilDiv.
  pose proof (Z.div_mod (- a) b ltac:(lia)) as Hdm.
  pose proof (Z.mod_pos_bound (- a) b Hb) as Hmod.
  nia.
Qed.

Lemma trackerFree_insert_ne limit used d v d' :
  d ≠ d' → trackerFree limit (<[d := v]> used) d' = trackerFree limit used d'.
Proof. intros Hne. unfold trackerFree. by rewrite lookup_insert_ne. Qed.

Lemma freeDays_insert_fresh limit used ws day v days :
  day ∉ days →
  freeDays limit (<[ws + day := v]> used) ws days = freeDays limit used ws days.
Proof.
  intros Hfresh. unfold freeDays. f_equal.
  induction days as [|x days IH]; [done|].
  rewrite not_elem_of_cons in Hfresh. destruct Hfresh as [Hne Hfresh].
  rewrite !filter_cons, IH by done.
  rewrite trackerFree_insert_ne by lia. done.
Qed.

Lemma freeDays_cons limit used ws day days :
  freeDays limit used ws (day :: days)
  = ((if decide (0 < trackerFree limit used (ws + day))%Z then 1 else 0)
     + freeDays limit used ws days)%nat.
Proof. unfold freeDays. rewrite filter_cons. by case_decide. Qed.

Lemma addToExisting_length d extra ss ss' :
  addToExisting d extra ss = Some ss' → length ss' = length ss.
Proof.
  intros Hadd%addToExisting_dates.
  by rewrite <- (length_fmap s_date ss'), Hadd, length_fmap.
Qed.

Lemma filter_submseteq {A} (P : A → Prop) `{∀ x, Decision (P x)} (l1 l2 : list A) :
  l1 ⊆+ l2 → filter P l1 ⊆+ filter P l2.
Proof.
  induction 1 as [|x l1 l2 _ IH|x y l|x l1 l2 _ IH|l1 l2 l3 _ IH1 _ IH2].
  - done.
  - rewrite !filter_cons. case_decide; [by apply submseteq_skip|done].
  - rewrite !filter_cons. repeat case_decide; try done. apply submseteq_swap.
  - rewrite filter_cons. case_decide; [by apply submseteq_cons|done].
  - by etrans.
Qed.

Section ExamCount.
Variable now : nat → Z.
Variable limit : Z.
Variable utcOffset : Z.
Variable exam : Exam.
Variable weekStart : Z.

Lemma examPass1_day_skip ideal day st :
  ¬ 0 < trackerFree limit (sessionTimeUsed st) (weekStart + day) →
  examPass1_day now limit exam weekStart ideal day st = st.
Proof.
  unfold trackerFree, examPass1_day.
  destruct (sessionTimeUsed st !! (weekStart + day)) as [u|]; [|done].
  destruct (Z.ltb_spec 0 (limit - u)); [lia|done].
Qed.

Lemma examPass1_day_take ideal day st :
  0 < ideal → 0 < remainingMinutes st →
  0 < trackerFree limit (sessionTimeUsed st) (weekStart + day) →
  ∃ usedToday timeToAssign,
    0 < timeToAssign ≤ ideal
    ∧ examPass1_day now limit exam weekStart ideal day st
      = mkAlloc (remainingMinutes st - timeToAssign)
          (<[weekStart + day := usedToday + timeToAssign]> (sessionTimeUsed st))
          (S (tick st))
          (out st ++ [examSession now exam "-" day (weekStart + day) timeToAssign
                        (tick st)]).
Proof.
  intros Hideal Hrem. unfold trackerFree, examPass1_day.
  destruct (sessionTimeUsed st !! (weekStart + day)) as [u|]; [|lia].
  intros Hfree. exists u, (Z.min (Z.min (remainingMinutes st) (limit - u)) ideal).
  split; [lia|].
  destruct (Z.ltb_spec 0 (limit - u)); [|lia].
  destruct (Z.ltb_spec 0 (Z.min (Z.min (remainingMinutes st) (limit - u)) ideal));
    [done|lia].
Qed.

(** Pass 1 gives every session at most the ideal share, and, when minutes
    remain at its end, has given a session to every day with free minutes. *)
Lemma examPass1_count ideal days st :
  0 < ideal → NoDup days → 0 < remainingMinutes st →
  let st' := forDays (examPass1_day now limit exam weekStart ideal) days st in
  remainingMinutes st - remainingMinutes st'
  ≤ ideal * (Z.of_nat (length (out st')) - Z.of_nat (length (out st)))
  ∧ (length (out st) ≤ length (out st'))%nat
  ∧ (0 < remainingMinutes st' →
     length (out st')
     = (length (out st) + freeDays limit (sessionTimeUsed st) weekStart days)%nat).
Proof.
  intros Hideal Hnd. revert st.
  induction Hnd as [|day days Hfresh Hnd IH]; intros st Hrem.
  { cbn. repeat split; lia. }
  cbn [forDays]. rewrite freeDays_cons.
  destruct (decide (0 < trackerFree limit (sessionTimeUsed st) (weekStart + day)))
    as [Hfree|Hfull].
  - destruct (examPass1_day_take ideal day st Hideal Hrem Hfree)
      as (u & amount & Hamount & ->).
    cbn [remainingMinutes].
    destruct (Z.leb_spec (remainingMinutes st - amount) 0) as [Hdone|Hmore].
    + cbn [remainingMinutes out]. rewrite length_app. simpl.
      repeat split; lia.
    + match goal with
      | |- context [forDays _ days ?s] => specialize (IH s Hmore); set (st1 := s) in *
      end.
      cbv zeta in IH. destruct IH as (IH1 & IH2 & IH3).
      subst st1. cbn [remainingMinutes out sessionTimeUsed] in *.
      rewrite length_app in *. simpl in *.
      rewrite freeDays_insert_fresh in IH3 by done.
      repeat split; [nia|lia|]. intros Hleft. rewrite IH3 by done. lia.
  - rewrite (examPass1_day_skip ideal day st Hfull).
    destruct (Z.leb_spec (remainingMinutes st) 0); [lia|].
    specialize (IH st Hrem). cbv zeta in IH. destruct IH as (IH1 & IH2 & IH3).
    repeat split; [done..|]. intros Hleft. rewrite IH3 by done. lia.
Qed.

Lemma examPass2_length days st :
  (length (out st)
   ≤ length (out (forDays (examPass2_day now limit exam weekStart) days st)))%nat.
Proof.
  apply (forDays_invariant (λ st', (length (out st) ≤ length (out st'))%nat));
    [done|].
  intros day st' _ Hle. unfold examPass2_day.
  destruct (sessionTimeUsed st' !! (weekStart + day)); [|done].
  destruct (0 <? limit - z); [|done].
  destruct (addToExisting _ _ (out st')) as [merged|] eqn:Hadd; cbn [out].
  - by rewrite (addToExisting_length _ _ _ _ Hadd).
  - rewrite length_app. simpl. lia.
Qed.

End ExamCount.

(** C4 (amended).  For an exam whose [daysUntilExam], as the engine computes
    it in the local zone (the full days from the local midnight that starts
    the window to midnight UTC of the exam date), is at least 3 and whose
    required minutes fit in the aggregate free minutes of the revision days
    (the first min(max(daysUntilExam, 3), 7) days of the window), if
    moreover at least three revision days have free minutes and the
    required minutes exceed twice the ideal daily share, then
    [distributeExamRevision] returns at least 3 sessions, and the validator's
    distribution check holds for the exam on any session list that contains
    them, in any order. *)
Theorem exam_gets_three_sessions now limit utcOffset exam weekStart used k :
  3 ≤ daysUntil utcOffset (exam_date exam) weekStart →
  orDefault240 (exam_estimatedTime exam)
  ≤ aggregateFree limit used weekStart
      (revisionDays (daysUntil utcOffset (exam_date exam) weekStart)) →
  2 * ceilDiv (orDefault240 (exam_estimatedTime exam))
              (daysToUse (daysUntil utcOffset (exam_date exam) weekStart))
  < orDefault240 (exam_estimatedTime exam) →
  (3 ≤ freeDays limit used weekStart
         (revisionDays (daysUntil utcOffset (exam_date exam) weekStart)))%nat →
  (3 ≤ length (out (distributeExamRevision now limit utcOffset exam weekStart
                      used k)))%nat
  ∧ ∀ allSessions,
      out (distributeExamRevision now limit utcOffset exam weekStart used k)
      ⊆+ allSessions →
      examWellDistributed allSessions exam = true.
Proof.
  intros Hdays _ Hshare Hfree.
  assert (3 ≤ length (out (distributeExamRevision now limit utcOffset exam weekStart used k)))%nat
    as Hcount.
  { unfold distributeExamRevision; fold_daysUntil.
    destruct (Z.ltb_spec (daysUntil utcOffset (exam_date exam) weekStart) 0); [lia|].
    set (needed := orDefault240 (exam_estimatedTime exam)) in *.
    set (dUE := daysUntil utcOffset (exam_date exam) weekStart) in *.
    set (ideal := ceilDiv needed (daysToUse dUE)) in *.
    assert (0 < daysToUse dUE) as Hd by (unfold daysToUse; lia).
    assert (daysToUse dUE ≤ 7) as Hd7 by (unfold daysToUse; lia).
    pose proof (ceilDiv_bounds needed (daysToUse dUE) Hd) as Hceil.
    fold ideal in Hceil.
    assert (3 ≤ daysToUse dUE) as Hd3 by (unfold daysToUse; lia).
    assert (0 < ideal) as Hideal.
    { destruct (Z.le_gt_cases ideal 0) as [Hle|Hgt]; [|lia].
      assert (daysToUse dUE * ideal ≤ 3 * ideal) by nia. lia. }
    assert (0 < needed) as Hneeded by lia.
    destruct (examPass1_count now limit exam weekStart ideal (revisionDays dUE)
                (mkAlloc needed used k []) Hideal (NoDup_seqZ _ _) Hneeded)
      as (Hsum & _ & Hall).
    set (st1 := forDays _ _ _) in *. cbn [remainingMinutes out sessionTimeUsed] in *.
    simpl length in *.
    destruct (Z.ltb_spec 0 (remainingMinutes st1)) as [Hleft|Hdone].
    - etrans; [|apply examPass2_length]. rewrite Hall by done. lia.
    - nia. }
  split; [done|]. intros allSessions Hsub. unfold examWellDistributed.
  apply Nat.leb_le. etrans; [exact Hcount|].
  apply (filter_submseteq (λ s, hasExamId (exam_id exam) s = true)) in Hsub.
  apply submseteq_length in Hsub. rewrite filter_all in Hsub; [done|].
  eapply Forall_impl; [apply distributeExamRevision_made|].
  intros s (_ & _ & Hid & _). unfold hasExamId. by apply bool_decide_eq_true.
Qed.

Lemma exam_gets_three_sessions_witness :
  3 ≤ daysUntil (-300) (exam_date sampleExam) 19723
  ∧ orDefault240 (exam_estimatedTime sampleExam)
    ≤ aggregateFree 480 (initialTimeUsed 19723) 19723
        (revisionDays (daysUntil (-300) (exam_date sampleExam) 19723))
  ∧ 2 * ceilDiv (orDefault240 (exam_estimatedTime sampleExam))
                (daysToUse (daysUntil (-300) (exam_date sampleExam) 19723))
    < orDefault240 (exam_estimatedTime sampleExam)
  ∧ (3 ≤ freeDays 480 (initialTimeUsed 19723) 19723
           (revisionDays (daysUntil (-300) (exam_date sampleExam) 19723)))%nat
  ∧ (3 ≤ length (out (distributeExamRevision noClock 480 (-300) sampleExam 19723
                        (initialTimeUsed 19723) 0)))%nat
  ∧ examDistribution
      (details
         (validateSchedule 480 [] [sampleExam]
            (generateWeeklySchedule noClock 480 (-300) [] [sampleExam] 19723)))
    = true.
Proof.
  assert (3 ≤ daysUntil (-300) (exam_date sampleExam) 19723) as H1 by (vm_compute; discriminate).
  assert (orDefault240 (exam_estimatedTime sampleExam)
          ≤ aggregateFree 480 (initialTimeUsed 19723) 19723
              (revisionDays (daysUntil (-300) (exam_date sampleExam) 19723))) as H2
    by (vm_compute; discriminate).
  assert (2 * ceilDiv (orDefault240 (exam_estimatedTime sampleExam))
                      (daysToUse (daysUntil (-300) (exam_date sampleExam) 19723))
          < orDefault240 (exam_estimatedTime sampleExam)) as H3
    by (vm_compute; reflexivity).
  assert (3 ≤ freeDays 480 (initialTimeUsed 19723) 19723
                (revisionDays (daysUntil (-300) (exam_date sampleExam) 19723)))%nat as H4
    by (vm_compute; lia).
  split; [exact H1|]. split; [exact H2|]. split; [exact H3|]. split; [exact H4|].
  split.
  - exact (proj1 (exam_gets_three_sessions noClock 480 (-300) sampleExam 19723
                    (initialTimeUsed 19723) 0%nat H1 H2 H3 H4)).
  - vm_compute. reflexivity.
Defined.

(** Three tasks fill Monday to Wednesday; the exam of the following
    Saturday, 240 minutes by default, fits in the free minutes of Thursday
    and Friday and gets two sessions. *)
Lemma exam_with_capacity_gets_two_sessions :
  3 ≤ exam_date defaultExam - startOfWeek 19723
  ∧ daysUntil 0 (exam_date defaultExam) (startOfWeek 19723)
    = exam_date defaultExam - startOfWeek 19723
  ∧ orDefault240 (exam_estimatedTime defaultExam)
    ≤ aggregateFree 480 busyTracker (startOfWeek 19723)
        (revisionDays (exam_date defaultExam - startOfWeek 19723))
  ∧ (λ s, (s_date s, s_duration s))
      <$> out (distributeExamRevision noClock 480 0 defaultExam (startOfWeek 19723)
                 busyTracker 3)
    = [(19726, 192); (19727, 48)]
  ∧ (λ b, (λ s, (sourceId s, s_duration s)) <$> b_sessions b)
      <$> generateWeeklySchedule noClock 480 0 busyTasks [defaultExam] 19723
    = [[(Some "t6", 480)]; [(Some "t7", 480)]; [(Some "t8", 480)];
       [(Some "e2", 192)]; [(Some "e2", 48)]; []; []]
  ∧ examDistribution
      (details
         (validateSchedule 480 busyTasks [defaultExam]
            (generateWeeklySchedule noClock 480 0 busyTasks [defaultExam] 19723)))
    = false.
Proof. vm_compute. repeat split; discriminate. Qed.

(** With every day empty, an exam of 4 minutes three days out gets an ideal
    share of 2 minutes and two sessions. *)
Lemma short_exam_gets_two_sessions :
  (λ b, s_duration <$> b_sessions b)
    <$> generateWeeklySchedule noClock 480 0 [] [mkExam "e3" "Art" 19726 (Some 4)] 19723
  = [[2]; [2]; []; []; []; []; []].
Proof. vm_compute. reflexivity. Qed.

(** West of UTC the engine counts one day less than the calendar: at UTC-5,
    with the Monday full and 480 minutes a day, a 240-minute exam on the
    Friday, four calendar days after the window start, has [daysUntilExam]
    3, is spread over Monday to Wednesday only, and gets two sessions, of
    160 and 80 minutes. *)
Lemma exam_west_of_utc_gets_two_sessions :
  exam_date fridayExam - startOfWeek 19723 = 4
  ∧ daysUntil (-300) (exam_date fridayExam) (startOfWeek 19723) = 3
  ∧ (λ b, (λ s, (sourceId s, s_duration s)) <$> b_sessions b)
      <$> generateWeeklySchedule noClock 480 (-300) [fullMonday] [fridayExam] 19723
    = [[(Some "t4", 480)]; [(Some "e4", 160)]; [(Some "e4", 80)]; []; []; []; []]
  ∧ examDistribution
      (details
         (validateSchedule 480 [fullMonday] [fridayExam]
            (generateWeeklySchedule noClock 480 (-300) [fullMonday] [fridayExam]
               19723)))
    = false.
Proof. vm_compute. done. Qed.

(** * Further properties of the engine and its callers *)

(** ** sortTasksByDeadline *)

Lemma insertByDeadline_sorted t l :
  StronglySorted (λ a b, task_deadline a ≤ task_deadline b) l →
  StronglySorted (λ a b, task_deadline a ≤ task_deadline b) (insertByDeadline t l).
Proof.
  induction 1 as [|x l Hl IH Hx]; simpl.
  - repeat constructor.
  - destruct (Z.leb_spec (task_deadline t) (task_deadline x)).
    + constructor; [by constructor|].
      constructor; [done|]. eapply Forall_impl; [exact Hx|]. simpl. lia.
    + constructor; [done|].
      rewrite insertByDeadline_Permutation. constructor; [lia|done].
Qed.

Lemma insertByDeadline_stable d t l :
  filter (λ x, task_deadline x = d) (insertByDeadline t l)
  = filter (λ x, task_deadline x = d) (t :: l).
Proof.
  induction l as [|x l IH]; simpl; [done|].
  destruct (Z.leb_spec (task_deadline t) (task_deadline x)); [done|].
  rewrite (filter_cons _ x), IH, !filter_cons.
  repeat case_decide; try done. lia.
Qed.

(** X1.  [sortTasksByDeadline] returns the tasks it was given, each once,
    in ascending order of deadline, and tasks that share a deadline keep the
    order they had in the input. *)
Theorem sortTasksByDeadline_stable_sort tasks :
  sortTasksByDeadline tasks ≡ₚ tasks
  ∧ StronglySorted (λ a b, task_deadline a ≤ task_deadline b)
                   (sortTasksByDeadline tasks)
  ∧ ∀ d, filter (λ t, task_deadline t = d) (sortTasksByDeadline tasks)
         = filter (λ t, task_deadline t = d) tasks.
Proof.
  split; [apply sortTasksByDeadline_Permutation|]. split.
  - induction tasks as [|t tasks IH]; simpl; [constructor|].
    by apply insertByDeadline_sorted.
  - intros d. induction tasks as [|t tasks IH]; simpl; [done|].
    by rewrite insertByDeadline_stable, !filter_cons, IH.
Qed.

(** ** Greedy filling takes all the free minutes it can *)

Lemma trackerFree_nonneg limit used d : 0 ≤ trackerFree limit used d.
Proof. unfold trackerFree. destruct (used !! d); lia. Qed.

Lemma trackerFree_insert_eq limit used d v :
  trackerFree limit (<[d := v]> used) d = Z.max 0 (limit - v).
Proof. unfold trackerFree. by rewrite lookup_insert_eq. Qed.

Lemma trackerFree_Some limit used d :
  0 < trackerFree limit used d →
  ∃ usedToday, used !! d = Some usedToday ∧ 0 < limit - usedToday
               ∧ trackerFree limit used d = limit - usedToday.
Proof.
  unfold trackerFree. destruct (used !! d) as [u|]; [|lia].
  intros Hfree. exists u. repeat split; lia.
Qed.

Lemma aggregateFree_nonneg limit used ws days : 0 ≤ aggregateFree limit used ws days.
Proof.
  induction days as [|day days IH]; simpl; [done|].
  pose proof (trackerFree_nonneg limit used (ws + day)). lia.
Qed.

Lemma aggregateFree_cons limit used ws day days :
  aggregateFree limit used ws (day :: days)
  = trackerFree limit used (ws + day) + aggregateFree limit used ws days.
Proof. done. Qed.

Lemma aggregateFree_insert_fresh limit used ws day v days :
  day ∉ days →
  aggregateFree limit (<[ws + day := v]> used) ws days
  = aggregateFree limit used ws days.
Proof.
  induction days as [|x days IH]; intros Hfresh; [done|].
  rewrite not_elem_of_cons in Hfresh. destruct Hfresh as [Hne Hfresh].
  rewrite !aggregateFree_cons, IH by done.
  rewrite trackerFree_insert_ne by lia. done.
Qed.

(** Committing minutes to one of the days changes the aggregate by the
    change of that day. *)
Lemma aggregateFree_insert limit used ws day v days :
  NoDup days → day ∈ days →
  aggregateFree limit (<[ws + day := v]> used) ws days
  = aggregateFree limit used ws days
    - trackerFree limit used (ws + day) + Z.max 0 (limit - v).
Proof.
  induction 1 as [|x days Hfresh Hnd IH]; intros Hin.
  { by apply elem_of_nil in Hin. }
  rewrite !aggregateFree_cons.
  apply elem_of_cons in Hin as [->|Hin].
  - rewrite aggregateFree_insert_fresh, trackerFree_insert_eq by done. lia.
  - rewrite IH by done. rewrite trackerFree_insert_ne; [lia|].
    intros Heq. apply Hfresh. replace x with day by lia. done.
Qed.

Lemma greedy_loop_remaining limit ws body days st :
  greedyBody limit ws body → NoDup days → 0 ≤ remainingMinutes st →
  remainingMinutes (forDays body days st)
  = Z.max 0 (remainingMinutes st
             - aggregateFree limit (sessionTimeUsed st) ws days).
Proof.
  intros Hbody Hnd. revert st.
  induction Hnd as [|day days Hfresh Hnd IH]; intros st Hrem.
  { simpl. lia. }
  cbn [forDays]. rewrite aggregateFree_cons.
  pose proof (aggregateFree_nonneg limit (sessionTimeUsed st) ws days) as Hagg.
  destruct (Hbody day st) as [Hskip Htake].
  destruct (decide (0 < trackerFree limit (sessionTimeUsed st) (ws + day)))
    as [Hfree|Hfull].
  - destruct (trackerFree_Some _ _ _ Hfree) as (u & Hu & Hpos & Heq).
    destruct (Htake Hfree) as (u' & Hu' & Hr & Hs).
    assert (u' = u) as -> by congruence.
    destruct (Z.leb_spec (remainingMinutes (body day st)) 0) as [Hdone|Hmore].
    + lia.
    + rewrite IH by lia. rewrite Hs, aggregateFree_insert_fresh by done. lia.
  - destruct (Hskip Hfull) as [Hr Hs]. rewrite Hr.
    pose proof (trackerFree_nonneg limit (sessionTimeUsed st) (ws + day)).
    destruct (Z.leb_spec (remainingMinutes st) 0) as [Hdone|Hmore].
    + lia.
    + rewrite IH by lia. rewrite Hs, Hr. lia.
Qed.

Lemma scheduleTask_day_greedy now limit task ws :
  greedyBody limit ws (scheduleTask_day now limit task ws).
Proof.
  intros day st. unfold trackerFree, scheduleTask_day.
  destruct (sessionTimeUsed st !! (ws + day)) as [u|]; [|split; [done|lia]].
  destruct (Z.ltb_spec 0 (limit - u)); split; try done; try lia.
  intros _. by exists u.
Qed.

Lemma examPass2_day_greedy now limit exam ws :
  greedyBody limit ws (examPass2_day now limit exam ws).
Proof.
  intros day st. unfold trackerFree, examPass2_day.
  destruct (sessionTimeUsed st !! (ws + day)) as [u|]; [|split; [done|lia]].
  destruct (Z.ltb_spec 0 (limit - u)); split; try done; try lia.
  intros _. exists u. by destruct (addToExisting _ _ (out st)).
Qed.

(** X2.  A task with an estimated time that is not negative gets as many
    minutes as days 0 to min(daysUntilDeadline, 6) of the window have free,
    [daysUntilDeadline] being the full days from the local midnight that
    starts the window to midnight UTC of the deadline (west of UTC, one day
    less than the calendar difference for a deadline after the first day):
    the minutes of its sessions sum to the smaller of the estimated time
    and the aggregate free minutes of those days, and the rest remains. *)
Theorem scheduleTask_takes_all_it_can now limit utcOffset task ws used k :
  0 ≤ task_estimatedTime task →
  sumDurations (out (scheduleTask now limit utcOffset task ws used k))
  = Z.min (task_estimatedTime task)
          (aggregateFree limit used ws
             (seqZ 0 (Z.min (daysUntil utcOffset (task_deadline task) ws) 6 + 1)))
  ∧ remainingMinutes (scheduleTask now limit utcOffset task ws used k)
    = Z.max 0 (task_estimatedTime task
               - aggregateFree limit used ws
                   (seqZ 0 (Z.min (daysUntil utcOffset (task_deadline task) ws) 6 + 1))).
Proof.
  intros Hest. rewrite scheduleTask_sum. unfold scheduleTask; fold_daysUntil.
  rewrite (greedy_loop_remaining limit ws)
    by (done || apply scheduleTask_day_greedy || apply NoDup_seqZ).
  simpl. lia.
Qed.

Lemma scheduleTask_takes_all_it_can_witness :
  0 ≤ task_estimatedTime longEssay
  ∧ daysUntil (-300) (task_deadline longEssay) 19723 = 1
  ∧ sumDurations (out (scheduleTask noClock 480 (-300) longEssay 19723
                         (initialTimeUsed 19723) 0))
    = 960
  ∧ remainingMinutes (scheduleTask noClock 480 (-300) longEssay 19723
                        (initialTimeUsed 19723) 0)
    = 540.
Proof.
  assert (0 ≤ task_estimatedTime longEssay) as Hest by (vm_compute; discriminate).
  destruct (scheduleTask_takes_all_it_can noClock 480 (-300) longEssay 19723
              (initialTimeUsed 19723) 0%nat Hest) as [Hsum Hrem].
  split; [exact Hest|]. split; [vm_compute; reflexivity|]. split.
  - rewrite Hsum. vm_compute. reflexivity.
  - rewrite Hrem. vm_compute. reflexivity.
Defined.

Lemma addToExisting_sum d extra ss ss' :
  addToExisting d extra ss = Some ss' →
  sumDurations ss' = sumDurations ss + extra.
Proof.
  revert ss'. induction ss as [|s ss IH]; intros ss'; simpl; [done|].
  destruct (onDate d s).
  - intros [= <-]. rewrite !sumDurations_cons. simpl. lia.
  - destruct (addToExisting d extra ss) as [r|]; simpl; [|done].
    intros [= <-]. rewrite !sumDurations_cons, (IH r eq_refl). lia.
Qed.

Section ExamTotal.
Variable now : nat → Z.
Variable limit : Z.
Variable utcOffset : Z.
Variable exam : Exam.
Variable weekStart : Z.

Lemma examPass1_day_sum ideal day st :
  sumDurations (out (examPass1_day now limit exam weekStart ideal day st))
  + remainingMinutes (examPass1_day now limit exam weekStart ideal day st)
  = sumDurations (out st) + remainingMinutes st.
Proof.
  unfold examPass1_day.
  destruct (sessionTimeUsed st !! (weekStart + day)) as [u|]; [|done].
  destruct (0 <? limit - u); [|done]. destruct (0 <? _); [|done].
  cbn [out remainingMinutes].
  rewrite sumDurations_app, sumDurations_cons, sumDurations_nil. simpl. lia.
Qed.

Lemma examPass2_day_sum day st :
  sumDurations (out (examPass2_day now limit exam weekStart day st))
  + remainingMinutes (examPass2_day now limit exam weekStart day st)
  = sumDurations (out st) + remainingMinutes st.
Proof.
  unfold examPass2_day.
  destruct (sessionTimeUsed st !! (weekStart + day)) as [u|]; [|done].
  destruct (0 <? limit - u); [|done].
  destruct (addToExisting _ _ (out st)) as [merged|] eqn:Hadd;
    cbn [out remainingMinutes].
  - rewrite (addToExisting_sum _ _ _ _ Hadd). lia.
  - rewrite sumDurations_app, sumDurations_cons, sumDurations_nil. simpl. lia.
Qed.

(** The minutes given to an exam and the minutes left make up the minutes
    it needs. *)
Lemma distributeExamRevision_sum used k :
  0 ≤ daysUntil utcOffset (exam_date exam) weekStart →
  sumDurations (out (distributeExamRevision now limit utcOffset exam weekStart used k))
  + remainingMinutes (distributeExamRevision now limit utcOffset exam weekStart used k)
  = orDefault240 (exam_estimatedTime exam).
Proof.
  intros Hdue. unfold distributeExamRevision; fold_daysUntil.
  destruct (Z.ltb_spec (daysUntil utcOffset (exam_date exam) weekStart) 0); [lia|].
  set (st1 := forDays _ _ _).
  assert (sumDurations (out st1) + remainingMinutes st1
          = orDefault240 (exam_estimatedTime exam)) as H1.
  { apply (forDays_invariant
             (λ st, sumDurations (out st) + remainingMinutes st
                    = orDefault240 (exam_estimatedTime exam))); [done|].
    intros day st _ <-. apply examPass1_day_sum. }
  destruct (0 <? remainingMinutes st1); [|done].
  apply (forDays_invariant
           (λ st, sumDurations (out st) + remainingMinutes st
                  = orDefault240 (exam_estimatedTime exam))); [done|].
  intros day st _ <-. apply examPass2_day_sum.
Qed.

(** Pass 1 takes from the remaining minutes what it takes from the free
    minutes of the days. *)
Lemma examPass1_balance ideal days st :
  NoDup days → 0 ≤ remainingMinutes st →
  let st' := forDays (examPass1_day now limit exam weekStart ideal) days st in
  0 ≤ remainingMinutes st'
  ∧ remainingMinutes st' - aggregateFree limit (sessionTimeUsed st') weekStart days
    = remainingMinutes st - aggregateFree limit (sessionTimeUsed st) weekStart days.
Proof.
  intros Hnd Hrem st'. subst st'.
  apply (forDays_invariant
           (λ st', 0 ≤ remainingMinutes st'
                   ∧ remainingMinutes st'
                     - aggregateFree limit (sessionTimeUsed st') weekStart days
                     = remainingMinutes st
                       - aggregateFree limit (sessionTimeUsed st) weekStart days));
    [done|].
  intros day st' Hday [Hpos Hbal]. unfold examPass1_day.
  destruct (sessionTimeUsed st' !! (weekStart + day)) as [u|] eqn:Hu; [|done].
  destruct (Z.ltb_spec 0 (limit - u)) as [Hfree|]; [|done].
  destruct (Z.ltb_spec 0 (Z.min (Z.min (remainingMinutes st') (limit - u)) ideal))
    as [Htake|]; [|done].
  cbn [remainingMinutes sessionTimeUsed].
  rewrite aggregateFree_insert by done.
  assert (trackerFree limit (sessionTimeUsed st') (weekStart + day) = limit - u)
    as -> by (unfold trackerFree; rewrite Hu; lia).
  lia.
Qed.

End ExamTotal.

Lemma distributeExamRevision_remaining now limit utcOffset exam weekStart used k :
  0 ≤ daysUntil utcOffset (exam_date exam) weekStart →
  0 ≤ orDefault240 (exam_estimatedTime exam) →
  remainingMinutes (distributeExamRevision now limit utcOffset exam weekStart used k)
  = Z.max 0 (orDefault240 (exam_estimatedTime exam)
             - aggregateFree limit used weekStart
                 (revisionDays (daysUntil utcOffset (exam_date exam) weekStart))).
Proof.
  intros Hdue Hneed. unfold distributeExamRevision; fold_daysUntil.
  destruct (Z.ltb_spec (daysUntil utcOffset (exam_date exam) weekStart) 0); [lia|].
  set (days := revisionDays _). set (needed := orDefault240 _) in *.
  destruct (examPass1_balance now limit exam weekStart
              (ceilDiv needed (daysToUse (daysUntil utcOffset (exam_date exam) weekStart))) days
              (mkAlloc needed used k []) (NoDup_seqZ _ _) Hneed) as [Hpos Hbal].
  set (st1 := forDays _ _ _) in *. cbn [remainingMinutes sessionTimeUsed] in Hbal.
  pose proof (aggregateFree_nonneg limit (sessionTimeUsed st1) weekStart days).
  destruct (Z.ltb_spec 0 (remainingMinutes st1)).
  - rewrite (greedy_loop_remaining limit weekStart)
      by (apply examPass2_day_greedy || apply NoDup_seqZ || lia).
    lia.
  - lia.
Qed.

(** X3.  An exam whose [daysUntilExam] (the full days from the local
    midnight that starts the window to midnight UTC of the exam date) is
    not negative and that needs a number of minutes that is not negative
    gets, over the two passes, as many minutes as its revision days, the
    first min(max(daysUntilExam, 3), 7) days of the window, have free: its
    sessions sum to the smaller of the minutes needed and the aggregate
    free minutes of those days. *)
Theorem distributeExamRevision_takes_all_it_can now limit utcOffset exam weekStart used k :
  0 ≤ daysUntil utcOffset (exam_date exam) weekStart →
  0 ≤ orDefault240 (exam_estimatedTime exam) →
  sumDurations (out (distributeExamRevision now limit utcOffset exam weekStart used k))
  = Z.min (orDefault240 (exam_estimatedTime exam))
          (aggregateFree limit used weekStart
             (revisionDays (daysUntil utcOffset (exam_date exam) weekStart))).
Proof.
  intros Hdue Hneed.
  pose proof (distributeExamRevision_sum now limit utcOffset exam weekStart used k Hdue) as Hsum.
  pose proof (distributeExamRevision_remaining now limit utcOffset exam weekStart used k
                Hdue Hneed) as Hrem.
  lia.
Qed.

Lemma distributeExamRevision_takes_all_it_can_witness :
  0 ≤ daysUntil (-300) (exam_date saturdayExam) (startOfWeek 19723)
  ∧ 0 ≤ orDefault240 (exam_estimatedTime saturdayExam)
  ∧ revisionDays (daysUntil (-300) (exam_date saturdayExam) (startOfWeek 19723))
    = [0; 1; 2; 3]
  ∧ sumDurations (out (distributeExamRevision noClock 60 (-300) saturdayExam
                         (startOfWeek 19723) (initialTimeUsed 19723) 0))
    = 240.
Proof.
  assert (0 ≤ daysUntil (-300) (exam_date saturdayExam) (startOfWeek 19723)) as Hdue
    by (vm_compute; discriminate).
  assert (0 ≤ orDefault240 (exam_estimatedTime saturdayExam)) as Hneed
    by (vm_compute; discriminate).
  split; [exact Hdue|]. split; [exact Hneed|]. split; [vm_compute; reflexivity|].
  rewrite (distributeExamRevision_takes_all_it_can noClock 60 (-300) saturdayExam
             (startOfWeek 19723) (initialTimeUsed 19723) 0%nat Hdue Hneed).
  vm_compute. reflexivity.
Defined.

(** ** The days and the sessions of an exam *)

Lemma distributeExamRevision_days now limit utcOffset exam weekStart used k :
  Forall (λ s, weekStart ≤ s_date s ≤ weekStart + 6
               ∧ s_date s < weekStart + Z.max (daysUntil utcOffset (exam_date exam) weekStart) 3)
         (out (distributeExamRevision now limit utcOffset exam weekStart used k)).
Proof.
  unfold distributeExamRevision; fold_daysUntil.
  destruct (daysUntil utcOffset (exam_date exam) weekStart <? 0); [done|].
  set (P := λ s, weekStart ≤ s_date s ≤ weekStart + 6
                 ∧ s_date s < weekStart + Z.max (daysUntil utcOffset (exam_date exam) weekStart) 3).
  assert (∀ day, day ∈ revisionDays (daysUntil utcOffset (exam_date exam) weekStart) →
                 0 ≤ day ≤ 6 ∧ day < Z.max (daysUntil utcOffset (exam_date exam) weekStart) 3)
    as Hrange.
  { intros day. unfold revisionDays, daysToUse. rewrite elem_of_seqZ. lia. }
  set (st1 := forDays _ _ _).
  assert (Forall P (out st1)) as H1.
  { apply (forDays_invariant (λ st, Forall P (out st))); [done|].
    intros day st Hday%Hrange Hall. unfold examPass1_day.
    destruct (sessionTimeUsed st !! (weekStart + day)); [|done].
    destruct (0 <? limit - z); [|done]. destruct (0 <? _); [|done].
    cbn [out]. apply Forall_app; split; [done|]. apply Forall_singleton.
    unfold P. simpl. lia. }
  destruct (0 <? remainingMinutes st1); [|done].
  apply (forDays_invariant (λ st, Forall P (out st))); [done|].
  intros day st Hday%Hrange Hall. unfold examPass2_day.
  destruct (sessionTimeUsed st !! (weekStart + day)); [|done].
  destruct (0 <? limit - z); [|done].
  destruct (addToExisting _ _ (out st)) eqn:Hadd; cbn [out].
  - eapply addToExisting_Forall; [|done..]. by intros s Hs.
  - apply Forall_app; split; [done|]. apply Forall_singleton.
    unfold P. simpl. lia.
Qed.

(** X4.  In every time zone the revision sessions of an exam lie in the
    window, on the first max(d, 3) days of it, d being the calendar days
    from the window start to the exam date; so they are all before the exam
    when the exam is at least 3 days after the window start (an exam nearer
    than that still gets days 0 to 2). *)
Theorem revision_sessions_days now limit utcOffset exam weekStart used k :
  -1440 < utcOffset < 1440 →
  Forall (λ s, weekStart ≤ s_date s ≤ weekStart + 6
               ∧ s_date s < weekStart + Z.max (exam_date exam - weekStart) 3)
         (out (distributeExamRevision now limit utcOffset exam weekStart used k))
  ∧ (3 ≤ exam_date exam - weekStart →
     Forall (λ s, s_date s < exam_date exam)
            (out (distributeExamRevision now limit utcOffset exam weekStart used k))).
Proof.
  intros Hoff.
  pose proof (daysUntil_le_max utcOffset (exam_date exam) weekStart Hoff) as Hmax.
  split; [|intros Hfar];
    (eapply Forall_impl; [apply distributeExamRevision_days|]); simpl; lia.
Qed.

Lemma revision_sessions_days_witness :
  -1440 < 420 < 1440
  ∧ 3 ≤ exam_date sampleExam - 19723
  ∧ Forall (λ s, s_date s < exam_date sampleExam)
      (out (distributeExamRevision noClock 480 420 sampleExam 19723
              (initialTimeUsed 19723) 0)).
Proof.
  assert (-1440 < 420 < 1440) as Hoff by lia.
  assert (3 ≤ exam_date sampleExam - 19723) as Hfar by (vm_compute; discriminate).
  split; [exact Hoff|]. split; [exact Hfar|].
  exact (proj2 (revision_sessions_days noClock 480 420 sampleExam 19723
                  (initialTimeUsed 19723) 0%nat Hoff) Hfar).
Defined.

Lemma toppedUp_refl s : toppedUp s s.
Proof. exists 0. split; [done|]. destruct s. unfold addDuration. simpl. f_equal. lia. Qed.

Lemma toppedUp_more s1 s extra :
  0 ≤ extra → toppedUp s1 s → toppedUp s1 (addDuration extra s).
Proof.
  intros Hextra (x & Hx & ->). exists (x + extra). split; [lia|].
  unfold addDuration. simpl. f_equal. lia.
Qed.

Lemma Forall2_toppedUp_refl ss : Forall2 toppedUp ss ss.
Proof. induction ss; constructor; [apply toppedUp_refl|done]. Qed.

Lemma addToExisting_toppedUp d extra base ss ss' :
  0 ≤ extra → Forall2 toppedUp base ss →
  addToExisting d extra ss = Some ss' → Forall2 toppedUp base ss'.
Proof.
  intros Hextra Hall. revert ss'.
  induction Hall as [|s1 s base ss Hs Hall IH]; intros ss'; simpl; [done|].
  destruct (onDate d s).
  - intros [= <-]. constructor; [by apply toppedUp_more|done].
  - destruct (addToExisting d extra ss) as [r|]; simpl; [|done].
    intros [= <-]. constructor; [done|]. by apply IH.
Qed.

Section TopUp.
Variable now : nat → Z.
Variable limit : Z.
Variable utcOffset : Z.
Variable exam : Exam.
Variable weekStart : Z.

(** When minutes remain after pass 1, every day that still has free minutes
    has a session of pass 1. *)
Lemma examPass1_covers ideal days st :
  0 < ideal → NoDup days → 0 < remainingMinutes st →
  let st' := forDays (examPass1_day now limit exam weekStart ideal) days st in
  0 < remainingMinutes st' →
  (∀ day, day ∈ days →
          0 < trackerFree limit (sessionTimeUsed st') (weekStart + day) →
          weekStart + day ∈ s_date <$> out st')
  ∧ (∀ day, day ∉ days →
            sessionTimeUsed st' !! (weekStart + day)
            = sessionTimeUsed st !! (weekStart + day))
  ∧ (∀ d, d ∈ s_date <$> out st → d ∈ s_date <$> out st').
Proof.
  intros Hideal Hnd. revert st.
  induction Hnd as [|day days Hfresh Hnd IH]; intros st Hrem.
  { cbn. intros _. split; [|done]. intros day Hday. by apply elem_of_nil in Hday. }
  cbn [forDays].
  destruct (decide (0 < trackerFree limit (sessionTimeUsed st) (weekStart + day)))
    as [Hfree|Hfull].
  - destruct (examPass1_day_take now limit exam weekStart ideal day st
                Hideal Hrem Hfree) as (u & amount & Hamount & ->).
    cbn [remainingMinutes].
    destruct (Z.leb_spec (remainingMinutes st - amount) 0) as [Hdone|Hmore].
    { cbn [remainingMinutes]. lia. }
    match goal with
    | |- context [forDays _ days ?s] => specialize (IH s Hmore); set (st1 := s) in *
    end.
    cbv zeta in *. intros Hleft. destruct (IH Hleft) as (Hcov & Hframe & Hmono).
    assert (weekStart + day ∈ s_date <$> out st1) as Hhere.
    { subst st1. cbn [out]. rewrite fmap_app, elem_of_app. right.
      cbn. by left. }
    split; [|split].
    + intros day' [->|Hin]%elem_of_cons Hfree'; [by apply Hmono|by apply Hcov].
    + intros day' [Hne Hnin]%not_elem_of_cons. rewrite Hframe by done.
      subst st1. cbn [sessionTimeUsed]. rewrite lookup_insert_ne by lia. done.
    + intros d Hd. apply Hmono. subst st1. cbn [out].
      rewrite fmap_app, elem_of_app. by left.
  - rewrite (examPass1_day_skip now limit exam weekStart ideal day st Hfull).
    destruct (Z.leb_spec (remainingMinutes st) 0); [lia|].
    specialize (IH st Hrem). cbv zeta in *. intros Hleft.
    destruct (IH Hleft) as (Hcov & Hframe & Hmono).
    split; [|split].
    + intros day' [->|Hin]%elem_of_cons Hfree'; [|by apply Hcov].
      exfalso. apply Hfull. unfold trackerFree in *.
      by rewrite <- (Hframe day Hfresh).
    + intros day' [Hne Hnin]%not_elem_of_cons. by apply Hframe.
    + done.
Qed.

(** Pass 2, started with minutes to place from a state in which every day
    with free minutes has a session, only adds minutes to sessions. *)
Lemma examPass2_tops_up days st1 :
  0 < remainingMinutes st1 →
  (∀ day, day ∈ days →
          0 < trackerFree limit (sessionTimeUsed st1) (weekStart + day) →
          weekStart + day ∈ s_date <$> out st1) →
  Forall2 toppedUp (out st1)
          (out (forDays (examPass2_day now limit exam weekStart) days st1))
  ∧ tick (forDays (examPass2_day now limit exam weekStart) days st1) = tick st1.
Proof.
  intros Hrem Hcov.
  enough (Forall2 toppedUp (out st1)
            (out (forDays (examPass2_day now limit exam weekStart) days st1))
          ∧ tick (forDays (examPass2_day now limit exam weekStart) days st1)
            = tick st1
          ∧ ∀ day, day ∈ days →
              0 < trackerFree limit
                    (sessionTimeUsed
                       (forDays (examPass2_day now limit exam weekStart) days st1))
                    (weekStart + day) →
              weekStart + day
              ∈ s_date <$> out (forDays (examPass2_day now limit exam weekStart)
                                        days st1))
    as (? & ? & _) by done.
  apply (forDays_invariant_active
           (λ st, Forall2 toppedUp (out st1) (out st) ∧ tick st = tick st1
                  ∧ ∀ day, day ∈ days →
                      0 < trackerFree limit (sessionTimeUsed st) (weekStart + day) →
                      weekStart + day ∈ s_date <$> out st)); [done| |].
  { split; [apply Forall2_toppedUp_refl|by split]. }
  intros day st Hday Hleft (Htop & Htick & Hcovered).
  pose proof (Hcovered day Hday) as Hhere.
  unfold examPass2_day. unfold trackerFree in Hhere at 1.
  destruct (sessionTimeUsed st !! (weekStart + day)) as [u|] eqn:Hu;
    [|by repeat split].
  destruct (Z.ltb_spec 0 (limit - u)) as [Hfree|]; [|by repeat split].
  destruct (addToExisting _ _ (out st)) as [merged|] eqn:Hadd.
  - cbn [out tick sessionTimeUsed]. split; [|split; [done|]].
    + eapply addToExisting_toppedUp; [|done..]. lia.
    + intros day' Hday' Hfree'. rewrite (addToExisting_dates _ _ _ _ Hadd).
      destruct (decide (day' = day)) as [->|Hne]; [apply Hhere; lia|].
      rewrite trackerFree_insert_ne in Hfree' by lia.
      by apply Hcovered.
  - apply addToExisting_None in Hadd. exfalso. apply Hadd, Hhere. lia.
Qed.

End TopUp.

Lemma distributeExamRevision_tops_up now limit utcOffset exam weekStart used k :
  0 ≤ daysUntil utcOffset (exam_date exam) weekStart →
  Forall2 toppedUp
    (out (examPass1State now limit utcOffset exam weekStart used k))
    (out (distributeExamRevision now limit utcOffset exam weekStart used k))
  ∧ tick (distributeExamRevision now limit utcOffset exam weekStart used k)
    = tick (examPass1State now limit utcOffset exam weekStart used k).
Proof.
  intros Hdue. unfold distributeExamRevision; fold_daysUntil.
  destruct (Z.ltb_spec (daysUntil utcOffset (exam_date exam) weekStart) 0); [lia|].
  fold (examPass1State now limit utcOffset exam weekStart used k).
  set (st1 := examPass1State now limit utcOffset exam weekStart used k).
  destruct (Z.ltb_spec 0 (remainingMinutes st1)) as [Hleft|];
    [|split; [apply Forall2_toppedUp_refl|done]].
  set (needed := orDefault240 (exam_estimatedTime exam)).
  set (dUE := daysUntil utcOffset (exam_date exam) weekStart) in *.
  assert (remainingMinutes st1 ≤ needed) as Hle.
  { subst st1. unfold examPass1State.
    apply (forDays_invariant (λ st, remainingMinutes st ≤ needed));
      [simpl; lia|].
    intros day st _ Hst. unfold examPass1_day.
    destruct (sessionTimeUsed st !! (weekStart + day)); [|done].
    destruct (0 <? limit - z); [|done].
    destruct (0 <? _) eqn:Htake; [|done]. apply Z.ltb_lt in Htake.
    cbn [remainingMinutes]. lia. }
  assert (0 < daysToUse dUE) as Hd by (unfold daysToUse; lia).
  pose proof (ceilDiv_bounds needed (daysToUse dUE) Hd) as Hceil.
  assert (0 < ceilDiv needed (daysToUse dUE)) as Hideal by nia.
  apply examPass2_tops_up; [done|].
  assert (0 < needed) as Hneeded by lia.
  exact (proj1 (examPass1_covers now limit exam weekStart
                  (ceilDiv needed (daysToUse dUE)) (revisionDays dUE)
                  (mkAlloc needed used k []) Hideal (NoDup_seqZ _ _) Hneeded Hleft)).
Qed.

(** X5.  Pass 2 of [distributeExamRevision] never appends a session: the
    sessions returned are the sessions of pass 1, in the same order and with
    the same identities and dates, each with its minutes or more; the branch
    that creates an extra session is never taken, and [Date.now] is not
    called again. *)
Theorem pass2_only_tops_up now limit utcOffset exam weekStart used k :
  0 ≤ daysUntil utcOffset (exam_date exam) weekStart →
  Forall2 toppedUp
    (out (examPass1State now limit utcOffset exam weekStart used k))
    (out (distributeExamRevision now limit utcOffset exam weekStart used k))
  ∧ tick (distributeExamRevision now limit utcOffset exam weekStart used k)
    = tick (examPass1State now limit utcOffset exam weekStart used k).
Proof. apply distributeExamRevision_tops_up. Qed.

Lemma pass2_only_tops_up_witness :
  0 ≤ daysUntil 0 (exam_date defaultExam) (startOfWeek 19723)
  ∧ Forall2 toppedUp
      (out (examPass1State noClock 480 0 defaultExam (startOfWeek 19723) busyTracker 3))
      (out (distributeExamRevision noClock 480 0 defaultExam (startOfWeek 19723)
              busyTracker 3))
  ∧ s_duration
      <$> out (examPass1State noClock 480 0 defaultExam (startOfWeek 19723)
                 busyTracker 3)
    = [48; 48]
  ∧ s_duration
      <$> out (distributeExamRevision noClock 480 0 defaultExam (startOfWeek 19723)
                 busyTracker 3)
    = [192; 48].
Proof.
  assert (0 ≤ daysUntil 0 (exam_date defaultExam) (startOfWeek 19723)) as Hdue
    by (vm_compute; discriminate).
  split; [exact Hdue|]. split.
  - exact (proj1 (pass2_only_tops_up noClock 480 0 defaultExam (startOfWeek 19723)
                    busyTracker 3%nat Hdue)).
  - vm_compute. done.
Defined.

(** ** C8: one revision session per date, topped up by pass 2 *)





(** ** Exams in the weekly run *)

Section ExamRuns.
Variable now : nat → Z.
Variable limit : Z.
Variable utcOffset : Z.
Variable start : Z.

Lemma runExam_past st exam :
  daysUntil utcOffset (exam_date exam) start < 0 →
  runExam now limit utcOffset start st exam = st.
Proof.
  intros Hpast. unfold runExam, distributeExamRevision. fold_daysUntil.
  destruct (Z.ltb_spec (daysUntil utcOffset (exam_date exam) start) 0); [|lia].
  destruct st. simpl. by rewrite app_nil_r.
Qed.

Lemma madeForExam_hasExamId e s i :
  madeForExam e start s → hasExamId i s = true ↔ exam_id e = i.
Proof.
  intros (_ & _ & Hid & _). unfold hasExamId. rewrite bool_decide_eq_true, Hid.
  split; congruence.
Qed.

Lemma distributeExamRevision_filter_own e used k :
  filter (λ s, hasExamId (exam_id e) s = true)
         (out (distributeExamRevision now limit utcOffset e start used k))
  = out (distributeExamRevision now limit utcOffset e start used k).
Proof.
  apply filter_all. eapply Forall_impl; [apply distributeExamRevision_made|].
  intros s Hs. by apply (madeForExam_hasExamId e s).
Qed.

Lemma distributeExamRevision_filter_other e i used k :
  exam_id e ≠ i →
  filter (λ s, hasExamId i s = true)
         (out (distributeExamRevision now limit utcOffset e start used k)) = [].
Proof.
  intros Hne. apply filter_none.
  eapply Forall_impl; [apply distributeExamRevision_made|].
  intros s Hs Hi. by apply (madeForExam_hasExamId e s i) in Hi.
Qed.

Lemma scheduleTask_filter_exam t i used k :
  filter (λ s, hasExamId i s = true)
         (out (scheduleTask now limit utcOffset t start used k)) = [].
Proof.
  apply filter_none. eapply Forall_impl; [apply scheduleTask_made|].
  intros s (_ & _ & Hid & _). unfold hasExamId.
  rewrite bool_decide_eq_true, Hid. done.
Qed.

Lemma foldl_runTask_exams i tasks st :
  filter (λ s, hasExamId i s = true)
         (r_sessions (foldl (runTask now limit utcOffset start) st tasks))
  = filter (λ s, hasExamId i s = true) (r_sessions st).
Proof.
  revert st. induction tasks as [|t tasks IH]; intros st; simpl; [done|].
  rewrite IH. simpl. by rewrite filter_app, scheduleTask_filter_exam, app_nil_r.
Qed.

Lemma foldl_runExam_other i exams st :
  i ∉ exam_id <$> exams →
  filter (λ s, hasExamId i s = true)
         (r_sessions (foldl (runExam now limit utcOffset start) st exams))
  = filter (λ s, hasExamId i s = true) (r_sessions st).
Proof.
  revert st. induction exams as [|e exams IH]; intros st Hnot; simpl; [done|].
  rewrite fmap_cons, not_elem_of_cons in Hnot. destruct Hnot as [Hne Hnot].
  rewrite IH by done. simpl.
  rewrite filter_app, distributeExamRevision_filter_other by done.
  by rewrite app_nil_r.
Qed.

Lemma foldl_runExam_own e exams st :
  NoDup (exam_id <$> exams) → e ∈ exams →
  ∃ used k,
    filter (λ s, hasExamId (exam_id e) s = true)
           (r_sessions (foldl (runExam now limit utcOffset start) st exams))
    = filter (λ s, hasExamId (exam_id e) s = true) (r_sessions st)
      ++ out (distributeExamRevision now limit utcOffset e start used k).
Proof.
  revert st. induction exams as [|e' exams IH]; intros st Hnd Hin.
  { by apply elem_of_nil in Hin. }
  rewrite fmap_cons, NoDup_cons in Hnd. destruct Hnd as [Hfresh Hnd].
  apply elem_of_cons in Hin as [<-|Hin]; simpl.
  - exists (r_used st), (r_tick st).
    rewrite foldl_runExam_other by done. simpl.
    by rewrite filter_app, distributeExamRevision_filter_own.
  - destruct (IH (runExam now limit utcOffset start st e') Hnd Hin) as (used & k & Heq).
    exists used, k. rewrite Heq. simpl.
    rewrite filter_app, distributeExamRevision_filter_other, app_nil_r; [done|].
    intros Heq'. apply Hfresh. rewrite Heq'. by apply list_elem_of_fmap_2.
Qed.

(** The sessions of an exam in the allocation are those of the one call of
    [distributeExamRevision] made for it. *)
Lemma allocate_exam_sessions tasks exams e :
  NoDup (exam_id <$> exams) → e ∈ exams →
  ∃ used k,
    filter (λ s, hasExamId (exam_id e) s = true)
           (r_sessions (allocate now limit utcOffset tasks exams start))
    = out (distributeExamRevision now limit utcOffset e start used k).
Proof.
  intros Hnd Hin. unfold allocate.
  destruct (foldl_runExam_own e exams
              (foldl (runTask now limit utcOffset start)
                     (mkRun [] (initialTimeUsed start) 0%nat)
                     (sortTasksByDeadline tasks)) Hnd Hin) as (used & k & Heq).
  exists used, k. rewrite Heq, foldl_runTask_exams. done.
Qed.

End ExamRuns.

(** An exam is past for the engine when its date is two days or more before
    the window start, or before the window start in a zone that is not east
    of UTC: east of UTC the exam of the day before the window still has
    [daysUntilExam] 0. *)
Lemma sunday_exam_east_of_utc :
  exam_date sundayExam < startOfWeek 19723
  ∧ daysUntil 420 (exam_date sundayExam) (startOfWeek 19723) = 0
  ∧ durationsByDay (generateWeeklySchedule noClock 480 420 [] [sundayExam] 19723)
    = [[40]; [40]; [40]; []; []; []; []].
Proof. vm_compute. done. Qed.

(** X6.  An exam dated two days or more before the start of the window, or
    before the start of the window in a zone that is not east of UTC, takes
    no part in the allocation: the schedule is the one produced without it,
    identity strings included. *)
Theorem past_exam_ignored now limit utcOffset tasks before exam after startDate :
  -1440 < utcOffset < 1440 →
  exam_date exam < startOfWeek startDate - 1
  ∨ (exam_date exam < startOfWeek startDate ∧ utcOffset ≤ 0) →
  generateWeeklySchedule now limit utcOffset tasks (before ++ exam :: after) startDate
  = generateWeeklySchedule now limit utcOffset tasks (before ++ after) startDate.
Proof.
  intros Hoff Hpast. apply (daysUntil_negative utcOffset _ _ Hoff) in Hpast.
  unfold generateWeeklySchedule, allocate.
  rewrite !foldl_app. cbn [foldl]. by rewrite runExam_past.
Qed.

Lemma past_exam_ignored_witness :
  -1440 < -300 < 1440
  ∧ (exam_date sundayExam < startOfWeek 19723 - 1
     ∨ (exam_date sundayExam < startOfWeek 19723 ∧ -300 ≤ 0))
  ∧ generateWeeklySchedule noClock 480 (-300) sampleTasks
      ([] ++ sundayExam :: sampleExams) 19723
    = generateWeeklySchedule noClock 480 (-300) sampleTasks ([] ++ sampleExams) 19723.
Proof.
  assert (-1440 < -300 < 1440) as Hoff by lia.
  assert (exam_date sundayExam < startOfWeek 19723 - 1
          ∨ (exam_date sundayExam < startOfWeek 19723 ∧ -300 ≤ 0)) as Hpast
    by (right; vm_compute; split; [reflexivity|discriminate]).
  split; [exact Hoff|]. split; [exact Hpast|].
  exact (past_exam_ignored noClock 480 (-300) sampleTasks [] sundayExam sampleExams
           19723 Hoff Hpast).
Defined.

Lemma examShortfall_own all e :
  shortfallFor exam_revision (exam_id e) (examShortfall all e) = examShortfall all e.
Proof.
  unfold shortfallFor, examShortfall. destruct (_ <? _); [|done].
  by rewrite filter_cons_True.
Qed.

Lemma examShortfall_other all e i :
  exam_id e ≠ i → shortfallFor exam_revision i (examShortfall all e) = [].
Proof.
  intros Hne. unfold shortfallFor, examShortfall. destruct (_ <? _); [|done].
  rewrite filter_cons_False; [done|]. simpl. by intros [? ?].
Qed.

Lemma shortfallFor_revision_tasks all tasks i :
  shortfallFor exam_revision i (flat_map (taskShortfall all) tasks) = [].
Proof.
  induction tasks as [|t tasks IH]; [done|].
  cbn [flat_map]. rewrite shortfallFor_app, IH, taskShortfall_other; [done|].
  by left.
Qed.

Lemma shortfallFor_other_exams all exams i :
  i ∉ exam_id <$> exams →
  shortfallFor exam_revision i (flat_map (examShortfall all) exams) = [].
Proof.
  induction exams as [|x exams IH]; intros Hfresh; [done|].
  rewrite fmap_cons, not_elem_of_cons in Hfresh. destruct Hfresh as [Hne Hfresh].
  cbn [flat_map]. rewrite shortfallFor_app, IH by done.
  rewrite examShortfall_other; [done|]. congruence.
Qed.

Lemma shortfallFor_own_exam all exams e :
  NoDup (exam_id <$> exams) → e ∈ exams →
  shortfallFor exam_revision (exam_id e) (flat_map (examShortfall all) exams)
  = examShortfall all e.
Proof.
  induction exams as [|e' exams IH]; intros Hnd Hin.
  { by apply elem_of_nil in Hin. }
  rewrite fmap_cons, NoDup_cons in Hnd. destruct Hnd as [Hfresh Hnd].
  cbn [flat_map]. rewrite shortfallFor_app.
  apply elem_of_cons in Hin as [<-|Hin].
  - by rewrite examShortfall_own, shortfallFor_other_exams, app_nil_r.
  - rewrite IH by done.
    rewrite examShortfall_other; [done|].
    intros Heq. apply Hfresh. rewrite Heq. by apply list_elem_of_fmap_2.
Qed.

Lemma validateSchedule_exam_shortfall limit tasks exams schedule e :
  NoDup (exam_id <$> exams) → e ∈ exams →
  shortfallFor exam_revision (exam_id e)
    (unscheduledItems (validateSchedule limit tasks exams schedule))
  = examShortfall (allSessionsOf schedule) e.
Proof.
  intros Hnd Hin. unfold validateSchedule. cbn [unscheduledItems].
  by rewrite shortfallFor_app, shortfallFor_revision_tasks, shortfallFor_own_exam.
Qed.

Lemma validator_exam_sessions now limit utcOffset tasks exams startDate e :
  NoDup (exam_id <$> exams) → e ∈ exams →
  ∃ used k,
    filter (λ s, hasExamId (exam_id e) s = true)
           (allSessionsOf (generateWeeklySchedule now limit utcOffset tasks exams startDate))
    ≡ₚ out (distributeExamRevision now limit utcOffset e (startOfWeek startDate) used k).
Proof.
  intros Hnd Hin.
  destruct (allocate_exam_sessions now limit utcOffset (startOfWeek startDate) tasks exams e
              Hnd Hin) as (used & k & Heq).
  exists used, k. rewrite <- Heq.
  by rewrite generateWeeklySchedule_Permutation.
Qed.

Lemma distributeExamRevision_sum_le now limit utcOffset exam weekStart used k :
  0 ≤ orDefault240 (exam_estimatedTime exam) →
  sumDurations (out (distributeExamRevision now limit utcOffset exam weekStart used k))
  ≤ orDefault240 (exam_estimatedTime exam).
Proof.
  intros Hneed.
  destruct (Z.lt_ge_cases (daysUntil utcOffset (exam_date exam) weekStart) 0) as [Hpast|Hdue].
  - unfold distributeExamRevision; fold_daysUntil.
    destruct (Z.ltb_spec (daysUntil utcOffset (exam_date exam) weekStart) 0); [|lia].
    cbn [out]. by rewrite sumDurations_nil.
  - pose proof (distributeExamRevision_sum now limit utcOffset exam weekStart used k Hdue).
    pose proof (distributeExamRevision_remaining now limit utcOffset exam weekStart used k
                  Hdue Hneed).
    lia.
Qed.

(** X7.  For an exam of an exam list with distinct identities that needs a
    number of minutes that is not negative, the minutes scheduled for it are
    at most the minutes it needs (its estimated time, or 240), and
    [validateSchedule] reports a revision shortfall for it exactly when they
    are fewer, with the difference as [missingMinutes]. *)
Theorem exam_minutes_and_shortfall now limit utcOffset tasks exams startDate e :
  NoDup (exam_id <$> exams) → e ∈ exams →
  0 ≤ orDefault240 (exam_estimatedTime e) →
  let schedule := generateWeeklySchedule now limit utcOffset tasks exams startDate in
  let report := validateSchedule limit tasks exams schedule in
  let scheduled := scheduledMinutesOfExam (allSessionsOf schedule) e in
  scheduled ≤ orDefault240 (exam_estimatedTime e)
  ∧ shortfallFor exam_revision (exam_id e) (unscheduledItems report)
    = (if scheduled <? orDefault240 (exam_estimatedTime e)
       then [mkItem (exam_id e) (exam_subject e) exam_revision
                    (orDefault240 (exam_estimatedTime e) - scheduled)]
       else []).
Proof.
  intros Hnd Hin Hneed schedule report scheduled. split.
  - subst scheduled schedule. unfold scheduledMinutesOfExam.
    destruct (validator_exam_sessions now limit utcOffset tasks exams startDate e Hnd Hin)
      as (used & k & Hperm).
    rewrite (sumDurations_Permutation _ _ Hperm).
    by apply distributeExamRevision_sum_le.
  - subst report. by rewrite validateSchedule_exam_shortfall.
Qed.

Lemma exam_minutes_and_shortfall_witness :
  NoDup (exam_id <$> [defaultExam]) ∧ defaultExam ∈ [defaultExam]
  ∧ 0 ≤ orDefault240 (exam_estimatedTime defaultExam)
  ∧ scheduledMinutesOfExam
      (allSessionsOf (generateWeeklySchedule noClock 90 0 busyTasks [defaultExam] 19723))
      defaultExam ≤ 240
  ∧ shortfallFor exam_revision (exam_id defaultExam)
      (unscheduledItems
         (validateSchedule 90 busyTasks [defaultExam]
            (generateWeeklySchedule noClock 90 0 busyTasks [defaultExam] 19723)))
    = [mkItem "e2" "Biology" exam_revision 60].
Proof.
  assert (NoDup (exam_id <$> [defaultExam])) as Hnd
    by (apply (bool_decide_unpack _); vm_compute; exact I).
  assert (defaultExam ∈ [defaultExam]) as Hin by left.
  assert (0 ≤ orDefault240 (exam_estimatedTime defaultExam)) as Hneed
    by (vm_compute; discriminate).
  destruct (exam_minutes_and_shortfall noClock 90 0 busyTasks [defaultExam] 19723
              defaultExam Hnd Hin Hneed) as [Hle Hitems].
  split; [exact Hnd|]. split; [exact Hin|]. split; [exact Hneed|].
  split; [exact Hle|]. rewrite Hitems. vm_compute. reflexivity.
Defined.

(** X8.  An exam (of a list with distinct identities) dated two days or
    more before the window start, or before the window start in a zone that
    is not east of UTC, gets no session, so the validator reports all the
    minutes it needs as missing, when it needs any, and [examDistribution]
    is false. *)
Theorem past_exam_reported now limit utcOffset tasks exams startDate e :
  -1440 < utcOffset < 1440 →
  NoDup (exam_id <$> exams) → e ∈ exams →
  exam_date e < startOfWeek startDate - 1
  ∨ (exam_date e < startOfWeek startDate ∧ utcOffset ≤ 0) →
  0 < orDefault240 (exam_estimatedTime e) →
  let schedule := generateWeeklySchedule now limit utcOffset tasks exams startDate in
  let report := validateSchedule limit tasks exams schedule in
  filter (λ s, hasExamId (exam_id e) s = true) (allSessionsOf schedule) = []
  ∧ shortfallFor exam_revision (exam_id e) (unscheduledItems report)
    = [mkItem (exam_id e) (exam_subject e) exam_revision
              (orDefault240 (exam_estimatedTime e))]
  ∧ examDistribution (details report) = false
  ∧ isValid report = false.
Proof.
  intros Hoff Hnd Hin Hpast Hneed schedule report.
  apply (daysUntil_negative utcOffset _ _ Hoff) in Hpast.
  assert (filter (λ s, hasExamId (exam_id e) s = true) (allSessionsOf schedule) = [])
    as Hnone.
  { destruct (validator_exam_sessions now limit utcOffset tasks exams startDate e Hnd Hin)
      as (used & k & Hperm).
    unfold distributeExamRevision in Hperm. fold_daysUntil.
    destruct (Z.ltb_spec (daysUntil utcOffset (exam_date e) (startOfWeek startDate)) 0);
      [|lia].
    by apply Permutation_nil_r in Hperm. }
  assert (examDistribution (details report) = false) as Hdist.
  { subst report. unfold validateSchedule. cbn [details examDistribution].
    apply (forallb_false_elem _ _ e Hin).
    unfold examWellDistributed. by rewrite Hnone. }
  repeat split; [done| |done|].
  - subst report. rewrite validateSchedule_exam_shortfall by done.
    unfold examShortfall, scheduledMinutesOfExam. rewrite Hnone, sumDurations_nil.
    destruct (Z.ltb_spec 0 (orDefault240 (exam_estimatedTime e))); [|lia].
    by rewrite Z.sub_0_r.
  - subst report. unfold validateSchedule in *. cbn [isValid details] in *.
    cbn [examDistribution] in Hdist. rewrite Hdist.
    by rewrite andb_false_r.
Qed.

Lemma past_exam_reported_witness :
  -1440 < -300 < 1440
  ∧ NoDup (exam_id <$> [sundayExam; sampleExam])
  ∧ sundayExam ∈ [sundayExam; sampleExam]
  ∧ (exam_date sundayExam < startOfWeek 19723 - 1
     ∨ (exam_date sundayExam < startOfWeek 19723 ∧ -300 ≤ 0))
  ∧ 0 < orDefault240 (exam_estimatedTime sundayExam)
  ∧ isValid
      (validateSchedule 480 [] [sundayExam; sampleExam]
         (generateWeeklySchedule noClock 480 (-300) [] [sundayExam; sampleExam] 19723))
    = false.
Proof.
  assert (-1440 < -300 < 1440) as Hoff by lia.
  assert (NoDup (exam_id <$> [sundayExam; sampleExam]))
    as Hnd by (apply (bool_decide_unpack _); vm_compute; exact I).
  assert (sundayExam ∈ [sundayExam; sampleExam]) as Hin by left.
  assert (exam_date sundayExam < startOfWeek 19723 - 1
          ∨ (exam_date sundayExam < startOfWeek 19723 ∧ -300 ≤ 0)) as Hpast
    by (right; vm_compute; split; [reflexivity|discriminate]).
  assert (0 < orDefault240 (exam_estimatedTime sundayExam))
    as Hneed by (vm_compute; reflexivity).
  split; [exact Hoff|]. split; [exact Hnd|]. split; [exact Hin|].
  split; [exact Hpast|]. split; [exact Hneed|].
  exact (proj2 (proj2 (proj2
           (past_exam_reported noClock 480 (-300) [] [sundayExam; sampleExam] 19723
              sundayExam Hoff Hnd Hin Hpast Hneed)))).
Defined.

(** ** C10: a falsy estimated time counts as 240 minutes *)

(** C10.  An exam whose [estimatedTime] is 0, or is absent, requires 240
    minutes.  [distributeExamRevision] gives it the smaller of 240 minutes
    and the free minutes of its revision days and leaves the rest of the
    240 unplaced, exactly as for the same exam with 240 minutes; and
    [validateSchedule] reports it as unscheduled exactly when fewer than
    240 minutes are scheduled for it, with 240 minus the scheduled minutes
    missing, and returns the report of the same exam with 240 minutes. *)
Theorem falsy_estimate_is_240 now limit utcOffset i subj d estimatedTime :
  estimatedTime = Some 0 ∨ estimatedTime = None →
  (∀ ws used k,
     distributeExamRevision now limit utcOffset (mkExam i subj d estimatedTime)
                            ws used k
     = distributeExamRevision now limit utcOffset (mkExam i subj d (Some 240))
                              ws used k
     ∧ (0 ≤ daysUntil utcOffset d ws →
        sumDurations
          (out (distributeExamRevision now limit utcOffset
                  (mkExam i subj d estimatedTime) ws used k))
        = Z.min 240 (aggregateFree limit used ws
                       (revisionDays (daysUntil utcOffset d ws)))
        ∧ remainingMinutes
            (distributeExamRevision now limit utcOffset
               (mkExam i subj d estimatedTime) ws used k)
          = Z.max 0 (240 - aggregateFree limit used ws
                             (revisionDays (daysUntil utcOffset d ws)))))
  ∧ (∀ tasks exams schedule,
       NoDup (exam_id <$> exams) → mkExam i subj d estimatedTime ∈ exams →
       shortfallFor exam_revision i
         (unscheduledItems (validateSchedule limit tasks exams schedule))
       = (if scheduledMinutesOfExam (allSessionsOf schedule)
               (mkExam i subj d estimatedTime) <? 240
          then [mkItem i subj exam_revision
                  (240 - scheduledMinutesOfExam (allSessionsOf schedule)
                           (mkExam i subj d estimatedTime))]
          else []))
  ∧ (∀ tasks before after schedule,
       validateSchedule limit tasks
         (before ++ mkExam i subj d estimatedTime :: after) schedule
       = validateSchedule limit tasks
           (before ++ mkExam i subj d (Some 240) :: after) schedule).
Proof.
  intros Hfalsy.
  assert (orDefault240 estimatedTime = 240) as Hneed
    by (by destruct Hfalsy as [-> | ->]).
  split; [|split].
  - intros ws used k.
    split; [by destruct Hfalsy as [-> | ->]|]. intros Hdue.
    pose proof (distributeExamRevision_sum now limit utcOffset
                  (mkExam i subj d estimatedTime) ws used k Hdue) as Hsum.
    pose proof (distributeExamRevision_remaining now limit utcOffset
                  (mkExam i subj d estimatedTime) ws used k Hdue) as Hrem.
    cbn [exam_date exam_estimatedTime] in Hsum, Hrem. rewrite Hneed in Hsum, Hrem.
    specialize (Hrem ltac:(lia)). split; [lia|done].
  - intros tasks exams schedule Hnd Hin.
    etrans; [exact (validateSchedule_exam_shortfall limit tasks exams schedule
                      (mkExam i subj d estimatedTime) Hnd Hin)|].
    unfold examShortfall. cbn [exam_estimatedTime exam_id exam_subject].
    by rewrite Hneed.
  - intros tasks before after schedule. unfold validateSchedule.
    rewrite !flat_map_app, !forallb_app. by destruct Hfalsy as [-> | ->].
Qed.

Lemma falsy_estimate_is_240_witness :
  (exam_estimatedTime defaultExam = Some 0 ∨ exam_estimatedTime defaultExam = None)
  ∧ sumDurations
      (out (distributeExamRevision noClock 480 0 defaultExam 19723
              (initialTimeUsed 19723) 0))
    = 240
  ∧ sumDurations
      (out (distributeExamRevision noClock 30 0 defaultExam 19723
              (initialTimeUsed 19723) 0))
    = 150
  ∧ unscheduledItems (validateSchedule 480 [] [defaultExam] [])
    = [mkItem "e2" "Biology" exam_revision 240].
Proof.
  assert (exam_estimatedTime defaultExam = Some 0
          ∨ exam_estimatedTime defaultExam = None) as Hfalsy by (by right).
  assert (0 ≤ daysUntil 0 19728 19723) as Hdue by (vm_compute; discriminate).
  split; [exact Hfalsy|]. split; [|split].
  - etrans;
      [exact (proj1 (proj2 (proj1 (falsy_estimate_is_240 noClock 480 0 "e2"
                                     "Biology" 19728 None Hfalsy)
                              19723 (initialTimeUsed 19723) 0%nat) Hdue))|].
    vm_compute. reflexivity.
  - etrans;
      [exact (proj1 (proj2 (proj1 (falsy_estimate_is_240 noClock 30 0 "e2"
                                     "Biology" 19728 None Hfalsy)
                              19723 (initialTimeUsed 19723) 0%nat) Hdue))|].
    vm_compute. reflexivity.
  - vm_compute. reflexivity.
Defined.

(** ** What a generated schedule contains *)

Lemma allocate_Forall (P : Session → Prop) now limit utcOffset tasks exams start :
  (∀ t used k, t ∈ tasks → Forall P (out (scheduleTask now limit utcOffset t start used k))) →
  (∀ e used k, e ∈ exams →
               Forall P (out (distributeExamRevision now limit utcOffset e start used k))) →
  Forall P (r_sessions (allocate now limit utcOffset tasks exams start)).
Proof.
  intros Htasks Hexams. unfold allocate.
  assert (∀ l st, (∀ e, e ∈ l → e ∈ exams) → Forall P (r_sessions st) →
                  Forall P (r_sessions (foldl (runExam now limit utcOffset start) st l)))
    as Hfold2.
  { induction l as [|e l IH]; intros st Hsub Hst; simpl; [done|].
    apply IH; [intros; apply Hsub; by right|]. simpl.
    apply Forall_app; split; [done|]. apply Hexams, Hsub. left. }
  assert (∀ l st, (∀ t, t ∈ l → t ∈ tasks) → Forall P (r_sessions st) →
                  Forall P (r_sessions (foldl (runTask now limit utcOffset start) st l)))
    as Hfold1.
  { induction l as [|t l IH]; intros st Hsub Hst; simpl; [done|].
    apply IH; [intros; apply Hsub; by right|]. simpl.
    apply Forall_app; split; [done|]. apply Htasks, Hsub. left. }
  apply Hfold2; [done|]. apply Hfold1; [|done].
  intros t Ht. by rewrite sortTasksByDeadline_Permutation in Ht.
Qed.

Lemma distributeExamRevision_due now limit utcOffset e ws used k :
  Forall (λ _, 0 ≤ daysUntil utcOffset (exam_date e) ws)
         (out (distributeExamRevision now limit utcOffset e ws used k)).
Proof.
  unfold distributeExamRevision; fold_daysUntil.
  destruct (Z.ltb_spec (daysUntil utcOffset (exam_date e) ws) 0); [done|].
  apply Forall_forall. intros. lia.
Qed.

(** X9.  In every time zone, every session of a generated schedule is
    planned and dated in the window, and is either a homework session of
    one of the tasks given, dated on or before the deadline of that task or
    on the first day of the window, or a revision session of one of the
    exams given, an exam dated no earlier than the day before the window,
    dated within the first max(d, 3) days of the window, d being the
    calendar days from the window start to the exam.  In a zone that is not
    east of UTC the homework session is on or before the deadline, and the
    exam is not before the window. *)
Theorem generated_sessions_provenance now limit utcOffset tasks exams startDate :
  -1440 < utcOffset < 1440 →
  Forall (λ s,
            s_status s = planned
            ∧ startOfWeek startDate ≤ s_date s ≤ startOfWeek startDate + 6
            ∧ ((s_type s = homework ∧ s_examId s = None
                ∧ ∃ t, t ∈ tasks ∧ s_taskId s = Some (task_id t)
                       ∧ s_date s ≤ Z.max (task_deadline t) (startOfWeek startDate)
                       ∧ (utcOffset ≤ 0 → s_date s ≤ task_deadline t))
               ∨ (s_type s = exam_revision ∧ s_taskId s = None
                  ∧ ∃ e, e ∈ exams ∧ s_examId s = Some (exam_id e)
                         ∧ startOfWeek startDate - 1 ≤ exam_date e
                         ∧ (utcOffset ≤ 0 → startOfWeek startDate ≤ exam_date e)
                         ∧ s_date s
                           < startOfWeek startDate
                             + Z.max (exam_date e - startOfWeek startDate) 3)))
         (allSessionsOf (generateWeeklySchedule now limit utcOffset tasks exams startDate)).
Proof.
  intros Hoff. rewrite generateWeeklySchedule_Permutation.
  set (ws := startOfWeek startDate).
  apply allocate_Forall.
  - intros t used k Ht. eapply Forall_impl; [apply scheduleTask_made|].
    intros s (Hty & Hid & Hex & Hst & day & Hday & Hdate).
    pose proof (daysUntil_le_max utcOffset (task_deadline t) ws Hoff) as Hmax.
    split; [done|]. split; [lia|]. left. repeat split; try done.
    exists t. split; [done|]. split; [done|]. split; [lia|]. intros Hwest.
    pose proof (daysUntil_le utcOffset (task_deadline t) ws Hoff (or_introl Hwest)).
    lia.
  - intros e used k He.
    pose proof (distributeExamRevision_made now limit utcOffset e ws used k) as H1.
    pose proof (distributeExamRevision_days now limit utcOffset e ws used k) as H2.
    pose proof (distributeExamRevision_due now limit utcOffset e ws used k) as H3.
    rewrite Forall_forall in H1, H2, H3. apply Forall_forall. intros s Hs.
    destruct (H1 s Hs) as (Hty & Htid & Hid & Hst & _).
    destruct (H2 s Hs) as (Hwin & Hbound). pose proof (H3 s Hs) as Hdue.
    pose proof (daysUntil_le_max utcOffset (exam_date e) ws Hoff) as Hmax.
    assert (¬ daysUntil utcOffset (exam_date e) ws < 0) as Hnot by lia.
    rewrite (daysUntil_negative utcOffset _ _ Hoff) in Hnot.
    split; [done|]. split; [lia|]. right. repeat split; try done.
    exists e. split; [done|]. split; [done|]. split; [lia|]. split; lia.
Qed.

Lemma generated_sessions_provenance_witness :
  -1440 < 420 < 1440
  ∧ Forall (λ s, startOfWeek 19723 ≤ s_date s ≤ startOfWeek 19723 + 6)
      (allSessionsOf
         (generateWeeklySchedule noClock 480 420 (sundayTask :: sampleTasks)
            (sundayExam :: sampleExams) 19723)).
Proof.
  assert (-1440 < 420 < 1440) as Hoff by lia.
  split; [exact Hoff|].
  eapply Forall_impl;
    [exact (generated_sessions_provenance noClock 480 420 (sundayTask :: sampleTasks)
              (sundayExam :: sampleExams) 19723 Hoff)|].
  intros s (_ & Hwindow & _). exact Hwindow.
Defined.

(** ** The validator on a generated schedule *)

Lemma forallb_true_Forall {A} (f : A → bool) (l : list A) :
  forallb f l = true ↔ Forall (λ x, f x = true) l.
Proof.
  induction l as [|x l IH]; simpl.
  - split; [constructor|done].
  - rewrite andb_true_iff, IH, Forall_cons. done.
Qed.

Lemma generated_buckets_within_limit now limit utcOffset tasks exams startDate :
  0 ≤ limit →
  Forall (λ b, b_totalMinutes b ≤ limit)
         (generateWeeklySchedule now limit utcOffset tasks exams startDate).
Proof.
  intros Hlimit. unfold generateWeeklySchedule, formatSchedule.
  set (start := startOfWeek startDate).
  destruct (allocate_inv now limit utcOffset tasks exams start Hlimit) as [Htr Hlim].
  apply Forall_fmap, Forall_forall. intros d Hd. simpl.
  change (minutesOn d (r_sessions (allocate now limit utcOffset tasks exams start)) ≤ limit).
  specialize (Htr d). rewrite initialTimeUsed_lookup in Htr.
  rewrite bool_decide_eq_true_2 in Htr by done. simpl in Htr.
  apply Hlim in Htr. lia.
Qed.

(** X10.  With a daily limit that is not negative, the validator's
    [studySessionLimitRespected] check holds on every schedule that
    [generateWeeklySchedule] produces, whatever tasks and exams the
    validating engine was built with. *)
Theorem generated_schedule_passes_limit_check
    now limit utcOffset tasks exams startDate tasks' exams' :
  0 ≤ limit →
  studySessionLimitRespected
    (details (validateSchedule limit tasks' exams'
                (generateWeeklySchedule now limit utcOffset tasks exams startDate)))
  = true.
Proof.
  intros Hlimit. unfold validateSchedule. cbn [details studySessionLimitRespected].
  apply forallb_true_Forall.
  eapply Forall_impl; [by apply generated_buckets_within_limit|].
  intros b Hb. by apply Z.leb_le.
Qed.

Lemma generated_schedule_passes_limit_check_witness :
  0 ≤ 480
  ∧ studySessionLimitRespected
      (details (validateSchedule 480 sampleTasks sampleExams
                  (generateWeeklySchedule noClock 480 0 busyTasks [defaultExam] 19723)))
    = true.
Proof.
  assert (0 ≤ 480) as Hlimit by lia.
  split; [exact Hlimit|].
  exact (generated_schedule_passes_limit_check noClock 480 0 busyTasks [defaultExam]
           19723 sampleTasks sampleExams Hlimit).
Defined.

(** X11.  On a schedule generated from tasks with distinct identities, in a
    zone that is not east of UTC or from tasks that are all due on or after
    the first day of the window, the validator's [noDeadlineViolations]
    check can fail only through a task without any session: it holds
    exactly when every task has at least one session. *)
Theorem deadline_check_on_generated now limit utcOffset tasks exams startDate :
  -1440 < utcOffset < 1440 →
  utcOffset ≤ 0 ∨ Forall (λ t, startOfWeek startDate ≤ task_deadline t) tasks →
  NoDup (task_id <$> tasks) →
  noDeadlineViolations
    (details (validateSchedule limit tasks exams
                (generateWeeklySchedule now limit utcOffset tasks exams startDate)))
  = true
  ↔ ∀ t, t ∈ tasks →
         filter (λ s, hasTaskId (task_id t) s = true)
                (allSessionsOf
                   (generateWeeklySchedule now limit utcOffset tasks exams startDate))
         ≠ [].
Proof.
  intros Hoff Hcase Hnd. unfold validateSchedule. cbn [details noDeadlineViolations].
  rewrite forallb_true_Forall, Forall_forall.
  apply forall_proper. intros t.
  assert (t ∈ tasks →
          taskMeetsDeadline
            (allSessionsOf
               (generateWeeklySchedule now limit utcOffset tasks exams startDate)) t
          = true
          ↔ filter (λ s, hasTaskId (task_id t) s = true)
                   (allSessionsOf
                      (generateWeeklySchedule now limit utcOffset tasks exams startDate))
            ≠ []) as Hiff; [|tauto].
  intros Hin. unfold taskMeetsDeadline.
  destruct (validator_task_sessions now limit utcOffset tasks exams startDate t Hnd Hin)
    as (used & k & Hperm).
  assert (daysUntil utcOffset (task_deadline t) (startOfWeek startDate)
          ≤ task_deadline t - startOfWeek startDate) as Hdays.
  { apply daysUntil_le; [done|]. destruct Hcase as [Hwest|Hdue]; [by left|right].
    rewrite Forall_forall in Hdue. by apply Hdue. }
  set (mine := filter _ _) in *.
  destruct mine as [|s rest] eqn:Hmine; [done|]. simpl length. cbn [Nat.eqb].
  split; [done|]. intros _. apply forallb_true_Forall.
  rewrite Hperm. eapply Forall_impl; [apply scheduleTask_made|].
  intros s' (_ & _ & _ & _ & day & Hday & Hdate).
  apply orb_true_iff.
  destruct (Z.ltb_spec (s_date s') (task_deadline t)); [by left|right].
  apply Z.eqb_eq. lia.
Qed.

Lemma deadline_check_on_generated_witness :
  -1440 < 420 < 1440
  ∧ (420 ≤ 0 ∨ Forall (λ t, startOfWeek 19723 ≤ task_deadline t) busyTasks)
  ∧ NoDup (task_id <$> busyTasks)
  ∧ noDeadlineViolations
      (details (validateSchedule 480 busyTasks []
                  (generateWeeklySchedule noClock 480 420 busyTasks [] 19723)))
    = true.
Proof.
  assert (-1440 < 420 < 1440) as Hoff by lia.
  assert (420 ≤ 0 ∨ Forall (λ t, startOfWeek 19723 ≤ task_deadline t) busyTasks)
    as Hcase by (right; repeat constructor; vm_compute; discriminate).
  assert (NoDup (task_id <$> busyTasks)) as Hnd
    by (apply (bool_decide_unpack _); vm_compute; exact I).
  split; [exact Hoff|]. split; [exact Hcase|]. split; [exact Hnd|].
  apply (proj2 (deadline_check_on_generated noClock 480 420 busyTasks [] 19723
                  Hoff Hcase Hnd)).
  intros t Ht. vm_compute in Ht.
  repeat (apply elem_of_cons in Ht as [->|Ht]; [vm_compute; discriminate|]).
  by apply elem_of_nil in Ht.
Defined.

(** East of UTC the check also fails through the task due on the day before
    the window, which has a session, on the first day of the window. *)
Lemma deadline_check_east_of_utc :
  filter (λ s, hasTaskId (task_id sundayTask) s = true)
         (allSessionsOf (generateWeeklySchedule noClock 480 420 [sundayTask] [] 19723))
  ≠ []
  ∧ noDeadlineViolations
      (details (validateSchedule 480 [sundayTask] []
                  (generateWeeklySchedule noClock 480 420 [sundayTask] [] 19723)))
    = false.
Proof. split; [vm_compute; discriminate|vm_compute; reflexivity]. Qed.

(** ** calculateSessionTimeUsed and rescheduling *)

Lemma recordSession_is_Some used s d :
  is_Some (recordSession used s !! d) ↔ is_Some (used !! d) ∨ s_date s = d.
Proof.
  unfold recordSession. destruct (decide (s_date s = d)) as [->|Hne].
  - rewrite lookup_insert_eq. split; [by right|by eexists].
  - rewrite lookup_insert_ne by done. split; [by left|]. by intros [?|?].
Qed.

Lemma foldl_recordSession_is_Some ss used d :
  is_Some (foldl recordSession used ss !! d)
  ↔ is_Some (used !! d) ∨ d ∈ s_date <$> ss.
Proof.
  revert used. induction ss as [|s ss IH]; intros used; cbn [foldl].
  - rewrite fmap_nil, elem_of_nil. tauto.
  - rewrite IH, recordSession_is_Some, fmap_cons, elem_of_cons.
    split; [intros [[?|?]|?]|intros [?|[?|?]]]; auto.
Qed.

(** X12.  [calculateSessionTimeUsed] holds an entry for exactly the dates
    that occur in the sessions it is given, and the entry of a date is the
    sum of the durations of the sessions of that date, of any status. *)
Theorem calculateSessionTimeUsed_lookup sessions d :
  calculateSessionTimeUsed sessions !! d
  = if bool_decide (d ∈ s_date <$> sessions) then Some (minutesOn d sessions)
    else None.
Proof.
  pose proof (foldl_recordSession_is_Some sessions ∅ d) as Hsome.
  fold (calculateSessionTimeUsed sessions) in Hsome.
  rewrite lookup_empty in Hsome.
  pose proof (usedOr0_calculateSessionTimeUsed sessions d) as Hval.
  unfold usedOr0 in Hval.
  case_bool_decide as Hin.
  - destruct (proj2 Hsome (or_intror Hin)) as [v Hv].
    rewrite Hv in *. simpl in Hval. by rewrite Hval.
  - destruct (calculateSessionTimeUsed sessions !! d) as [v|] eqn:Hv; [|done].
    destruct (proj1 Hsome (mk_is_Some _ _ eq_refl)) as [[? [=]]|?]. done.
Qed.

Section RescheduleMore.
Variable now : nat → Z.
Variable limit : Z.
Variable missedSession : Session.
Variable currentDate : Z.

Lemma spareOver_nonneg used days : 0 ≤ spareOver limit used currentDate days.
Proof. induction days as [|day days IH]; simpl; unfold spareMinutes; lia. Qed.

Lemma reschedule_loop_remaining days st :
  NoDup days → 0 ≤ remainingMinutes st →
  remainingMinutes
    (forDays (reschedule_day now limit missedSession currentDate) days st)
  = Z.max 0 (remainingMinutes st
             - spareOver limit (sessionTimeUsed st) currentDate days).
Proof.
  intros Hnd. revert st.
  induction Hnd as [|day days Hfresh Hnd IH]; intros st Hrem.
  { simpl. lia. }
  change (spareOver limit (sessionTimeUsed st) currentDate (day :: days))
    with (spareMinutes limit (sessionTimeUsed st) (currentDate + day)
          + spareOver limit (sessionTimeUsed st) currentDate days).
  pose proof (spareOver_nonneg (sessionTimeUsed st) days) as Hspare.
  unfold spareMinutes. cbn [forDays].
  destruct (Z.ltb_spec 0 (limit - usedOr0 (sessionTimeUsed st) (currentDate + day)))
    as [Hfree|Hfull].
  - rewrite (reschedule_day_free now limit missedSession currentDate day st Hfree).
    cbn [remainingMinutes].
    destruct (Z.leb_spec
                (remainingMinutes st
                 - Z.min (remainingMinutes st)
                     (limit - usedOr0 (sessionTimeUsed st) (currentDate + day))) 0)
      as [Hdone|Hmore]; cbn [remainingMinutes]; [lia|].
    rewrite IH by (cbn [remainingMinutes]; lia).
    cbn [remainingMinutes sessionTimeUsed].
    rewrite spareOver_insert_fresh by done. lia.
  - rewrite (reschedule_day_full now limit missedSession currentDate day st Hfull).
    destruct (Z.leb_spec (remainingMinutes st) 0); [lia|].
    rewrite IH by lia. lia.
Qed.

Lemma reschedule_loop_positive days st :
  0 < remainingMinutes st →
  Forall (λ s, 1 ≤ s_duration s) (out st) →
  Forall (λ s, 1 ≤ s_duration s)
         (out (forDays (reschedule_day now limit missedSession currentDate) days st)).
Proof.
  intros Hrem Hst. apply forDays_invariant_active; [done..|].
  intros day st' _ Hleft Hall. unfold reschedule_day.
  destruct (Z.ltb_spec 0 (limit - usedOr0 (sessionTimeUsed st') (currentDate + day)));
    [|done].
  cbn [out]. apply Forall_app; split; [done|]. apply Forall_singleton. simpl. lia.
Qed.

Lemma reschedule_loop_inv existing days st :
  rescheduleInv limit missedSession currentDate days existing st →
  rescheduleInv limit missedSession currentDate days existing
    (forDays (reschedule_day now limit missedSession currentDate) days st).
Proof.
  intros Hst. apply forDays_invariant; [done|].
  intros day st' Hday (Hall & Htrack & Hbound). unfold reschedule_day.
  destruct (Z.ltb_spec 0 (limit - usedOr0 (sessionTimeUsed st') (currentDate + day)))
    as [Hfree|]; [|done].
  split; [|split]; cbn [out sessionTimeUsed].
  - apply Forall_app; split; [done|]. apply Forall_singleton.
    repeat split; try done. by exists day.
  - intros d. rewrite usedOr0_insert, minutesOn_app, minutesOn_single. simpl.
    case_decide as Hd.
    + subst d. rewrite Z.eqb_refl, (Htrack (currentDate + day)). lia.
    + destruct (Z.eqb_spec (currentDate + day) d); [done|]. rewrite (Htrack d). lia.
  - intros d. rewrite usedOr0_insert. case_decide as Hd; [|apply Hbound].
    subst d. lia.
Qed.

Lemma reschedule_loop_NoDup days st :
  NoDup days →
  NoDup (s_date <$> out st) →
  (∀ day, day ∈ days → currentDate + day ∉ s_date <$> out st) →
  NoDup (s_date <$> out (forDays (reschedule_day now limit missedSession currentDate)
                                 days st)).
Proof.
  intros Hnd. revert st.
  induction Hnd as [|day days Hfresh Hnd IH]; intros st Hout Hnew; [done|].
  cbn [forDays].
  assert (NoDup (s_date <$> out (reschedule_day now limit missedSession currentDate
                                   day st))
          ∧ ∀ day', day' ∈ days →
              currentDate + day'
              ∉ s_date <$> out (reschedule_day now limit missedSession currentDate
                                  day st)) as [Hout' Hnew'].
  { assert (∀ day', day' ∈ days → currentDate + day' ∉ s_date <$> out st) as Hrest
      by (intros; apply Hnew; by right).
    unfold reschedule_day. destruct (0 <? _); [|done]. cbn [out].
    rewrite fmap_app. cbn [fmap list_fmap rescheduledSession s_date]. split.
    - apply NoDup_app. split; [done|]. split; [|apply NoDup_singleton].
      intros d Hd ->%list_elem_of_singleton. revert Hd. apply Hnew. left.
    - intros day' Hday'. rewrite elem_of_app, list_elem_of_singleton.
      intros [Hin|Heq]; [by apply (Hrest day')|].
      apply Hfresh. replace day with day' by lia. done. }
  destruct (_ <=? 0); [done|]. by apply IH.
Qed.

Lemma reschedule_loop_length days st :
  (length (out (forDays (reschedule_day now limit missedSession currentDate) days st))
   ≤ length (out st) + length days)%nat.
Proof.
  revert st. induction days as [|day days IH]; intros st; cbn [forDays].
  { simpl. lia. }
  assert (length (out (reschedule_day now limit missedSession currentDate day st))
          ≤ length (out st) + 1)%nat as Hstep.
  { unfold reschedule_day. destruct (0 <? _); [|lia]. cbn [out].
    rewrite length_app. simpl. lia. }
  destruct (_ <=? 0); [simpl; lia|].
  etrans; [apply IH|]. simpl. lia.
Qed.

Lemma reschedule_loop_idle days st :
  spareOver limit (sessionTimeUsed st) currentDate days = 0 →
  out (forDays (reschedule_day now limit missedSession currentDate) days st) = out st.
Proof.
  revert st. induction days as [|day days IH]; intros st Hspare; [done|].
  change (spareOver limit (sessionTimeUsed st) currentDate (day :: days))
    with (spareMinutes limit (sessionTimeUsed st) (currentDate + day)
          + spareOver limit (sessionTimeUsed st) currentDate days) in Hspare.
  pose proof (spareOver_nonneg (sessionTimeUsed st) days).
  unfold spareMinutes in Hspare. cbn [forDays].
  rewrite reschedule_day_full by lia.
  destruct (_ <=? 0); [done|]. apply IH. lia.
Qed.

End RescheduleMore.

Lemma rescheduleInv_start limit m D days existing k :
  rescheduleInv limit m D days existing
    (mkAlloc (s_duration m) (calculateSessionTimeUsed existing) k []).
Proof.
  split; [done|]. split; intros d; cbn [sessionTimeUsed out];
    rewrite usedOr0_calculateSessionTimeUsed, ?minutesOn_nil; lia.
Qed.

(** X13.  Rescheduling a missed session of a duration that is not negative
    places as many of its minutes as the three days after the missed date
    have free, and drops the rest: the new sessions sum to the smaller of
    the missed duration and those free minutes.  For a positive duration the
    result is empty exactly when none of the three days has a free minute. *)
Theorem reschedule_takes_all_it_can now limit missedSession currentDate existing :
  0 ≤ s_duration missedSession →
  let free := freeOn limit existing (currentDate + 1)
              + freeOn limit existing (currentDate + 2)
              + freeOn limit existing (currentDate + 3) in
  let newSessions :=
    rescheduleMissedSession now limit missedSession currentDate existing in
  sumDurations newSessions = Z.min (s_duration missedSession) free
  ∧ (0 < s_duration missedSession → newSessions = [] ↔ free = 0).
Proof.
  intros Hpos free newSessions.
  set (st0 := mkAlloc (s_duration missedSession)
                      (calculateSessionTimeUsed existing) 0%nat []).
  assert (spareOver limit (sessionTimeUsed st0) currentDate (seqZ 1 3) = free)
    as Hspare.
  { change (seqZ 1 3) with [1; 2; 3]. cbn [spareOver foldr sessionTimeUsed st0].
    unfold spareMinutes, free, freeOn.
    rewrite !usedOr0_calculateSessionTimeUsed. lia. }
  assert (0 ≤ free) as Hfree.
  { rewrite <- Hspare. apply spareOver_nonneg. }
  assert (sumDurations newSessions = Z.min (s_duration missedSession) free) as Hsum.
  { subst newSessions. unfold rescheduleMissedSession. fold st0.
    pose proof (reschedule_loop_sum now limit missedSession currentDate (seqZ 1 3) st0)
      as Hs.
    rewrite reschedule_loop_remaining in Hs by (apply NoDup_seqZ || done).
    rewrite Hspare in Hs. cbn [out remainingMinutes st0] in Hs.
    rewrite sumDurations_nil in Hs. lia. }
  split; [done|]. intros Hdur. split.
  - intros Hnil. rewrite Hnil, sumDurations_nil in Hsum. lia.
  - intros Hzero. subst newSessions. unfold rescheduleMissedSession. fold st0.
    rewrite reschedule_loop_idle; [done|]. by rewrite Hspare.
Qed.

Lemma reschedule_takes_all_it_can_witness :
  0 ≤ s_duration sampleMissed
  ∧ sumDurations (rescheduleMissedSession noClock 155 sampleMissed 19723 sampleExisting)
    = Z.min 90 (freeOn 155 sampleExisting 19724 + freeOn 155 sampleExisting 19725
                + freeOn 155 sampleExisting 19726)
  ∧ rescheduleMissedSession noClock 0 sampleMissed 19723 sampleExisting = [].
Proof.
  assert (0 ≤ s_duration sampleMissed) as Hpos by (vm_compute; discriminate).
  split; [exact Hpos|]. split.
  - exact (proj1 (reschedule_takes_all_it_can noClock 155 sampleMissed 19723
                    sampleExisting Hpos)).
  - apply (proj2 (reschedule_takes_all_it_can noClock 0 sampleMissed 19723
                    sampleExisting Hpos)); [vm_compute; reflexivity|].
    vm_compute. reflexivity.
Defined.

Lemma reschedule_minutesOn_bound now limit missedSession currentDate existing d :
  minutesOn d (existing
               ++ rescheduleMissedSession now limit missedSession currentDate existing)
  ≤ Z.max limit (minutesOn d existing).
Proof.
  unfold rescheduleMissedSession.
  destruct (reschedule_loop_inv now limit missedSession currentDate existing
              (seqZ 1 3) _
              (rescheduleInv_start limit missedSession currentDate (seqZ 1 3)
                 existing 0%nat)) as (_ & Htrack & Hbound).
  rewrite minutesOn_app, <- Htrack. apply Hbound.
Qed.

(** X14.  Rescheduling never fills a day beyond the limit: with the new
    sessions added to the existing ones, every date holds at most the limit,
    or what it held before when that was already more. *)
Theorem reschedule_within_limit now limit missedSession currentDate existing d :
  minutesOn d (existing
               ++ rescheduleMissedSession now limit missedSession currentDate existing)
  ≤ Z.max limit (minutesOn d existing).
Proof. apply reschedule_minutesOn_bound. Qed.

(** X15.  Whatever the input, the sessions returned by
    [rescheduleMissedSession] are at most three, on pairwise distinct dates
    one to three days after the missed date, with status [rescheduled] and
    the type, task, exam, title and subject of the missed session. *)
Theorem rescheduled_sessions_shape now limit missedSession currentDate existing :
  let newSessions :=
    rescheduleMissedSession now limit missedSession currentDate existing in
  (length newSessions ≤ 3)%nat
  ∧ NoDup (s_date <$> newSessions)
  ∧ Forall (λ s, currentDate + 1 ≤ s_date s ≤ currentDate + 3
                 ∧ s_status s = rescheduled
                 ∧ s_type s = s_type missedSession
                 ∧ s_taskId s = s_taskId missedSession
                 ∧ s_examId s = s_examId missedSession
                 ∧ s_title s = s_title missedSession
                 ∧ s_subject s = s_subject missedSession) newSessions.
Proof.
  intros newSessions. subst newSessions. unfold rescheduleMissedSession.
  split; [|split].
  - etrans; [apply reschedule_loop_length|]. done.
  - apply reschedule_loop_NoDup; [apply NoDup_seqZ|apply NoDup_nil_2|].
    intros day _. apply not_elem_of_nil.
  - destruct (reschedule_loop_inv now limit missedSession currentDate existing
                (seqZ 1 3) _
                (rescheduleInv_start limit missedSession currentDate (seqZ 1 3)
                   existing 0%nat)) as (Hall & _ & _).
    eapply Forall_impl; [exact Hall|].
    intros s (? & ? & ? & ? & ? & ? & day & Hday & Hdate).
    apply elem_of_seqZ in Hday. repeat split; try done; lia.
Qed.

(** ** Loading a stored schedule *)

Lemma bucketFor_snoc_other p s d :
  d ≠ s_date s → bucketFor (p ++ [s]) d = bucketFor p d.
Proof.
  intros Hne. unfold bucketFor. rewrite filter_app.
  rewrite (filter_cons_False _ s []); [by rewrite app_nil_r|].
  unfold onDate. intros Heq%Z.eqb_eq. done.
Qed.

Lemma bucketFor_snoc_same p s :
  bucketFor (p ++ [s]) (s_date s)
  = mkBucket (s_date s)
      (b_sessions (bucketFor p (s_date s)) ++ [s])
      (b_totalMinutes (bucketFor p (s_date s)) + s_duration s).
Proof.
  unfold bucketFor. cbn [b_sessions b_totalMinutes]. rewrite filter_app.
  rewrite (filter_cons_True _ s []) by apply Z.eqb_refl.
  rewrite filter_nil. f_equal.
  rewrite sumDurations_app, sumDurations_cons, sumDurations_nil. lia.
Qed.

Lemma addToSchedule_buckets p s ds :
  NoDup ds →
  (s_date s ∉ ds → filter (λ x, onDate (s_date s) x = true) p = []) →
  addToSchedule s (bucketFor p <$> ds)
  = bucketFor (p ++ [s])
      <$> (if decide (s_date s ∈ ds) then ds else ds ++ [s_date s]).
Proof.
  induction 1 as [|d ds Hfresh Hnd IH]; intros Hempty.
  - rewrite decide_False by apply not_elem_of_nil. cbn.
    rewrite bucketFor_snoc_same. unfold bucketFor. cbn [b_sessions b_totalMinutes].
    rewrite Hempty by apply not_elem_of_nil. done.
  - rewrite fmap_cons. cbn [addToSchedule b_date bucketFor].
    destruct (Z.eqb_spec d (s_date s)) as [->|Hne].
    + rewrite decide_True by left. rewrite fmap_cons, bucketFor_snoc_same.
      f_equal. apply list_fmap_ext. intros i d Hd.
      symmetry. apply bucketFor_snoc_other. intros ->.
      apply Hfresh. by eapply list_elem_of_lookup_2.
    + rewrite IH by (intros Hnin; apply Hempty; rewrite not_elem_of_cons; done).
      destruct (decide (s_date s ∈ ds)) as [Hin|Hnin].
      * rewrite decide_True by (by right).
        by rewrite fmap_cons, bucketFor_snoc_other.
      * rewrite decide_False by (rewrite not_elem_of_cons; done).
        by rewrite <- app_comm_cons, fmap_cons, bucketFor_snoc_other.
Qed.

Lemma filter_onDate_nil d (p : list Session) :
  d ∉ s_date <$> p → filter (λ x, onDate d x = true) p = [].
Proof.
  intros Hnin. apply filter_none, Forall_forall. intros s Hs Heq.
  apply Hnin. apply Z.eqb_eq in Heq. rewrite <- Heq. by apply list_elem_of_fmap_2.
Qed.

Lemma sessionsToSchedule_foldl ss p ds :
  NoDup ds → (∀ d, d ∈ ds ↔ d ∈ s_date <$> p) →
  ∃ ds',
    foldl (λ scheduleObj session, addToSchedule session scheduleObj)
          (bucketFor p <$> ds) ss
    = bucketFor (p ++ ss) <$> ds'
    ∧ NoDup ds' ∧ ∀ d, d ∈ ds' ↔ d ∈ s_date <$> (p ++ ss).
Proof.
  revert p ds. induction ss as [|s ss IH]; intros p ds Hnd Hcover.
  { exists ds. by rewrite app_nil_r. }
  cbn [foldl]. rewrite addToSchedule_buckets; [|done|].
  2:{ intros Hnin. apply filter_onDate_nil. by rewrite <- Hcover. }
  destruct (IH (p ++ [s]) (if decide (s_date s ∈ ds) then ds else ds ++ [s_date s]))
    as (ds' & Heq & Hnd' & Hcover').
  - case_decide; [done|]. apply NoDup_app. split; [done|].
    split; [|apply NoDup_singleton]. by intros d Hd ->%list_elem_of_singleton.
  - intros d. rewrite fmap_app, elem_of_app, <- Hcover. cbn.
    rewrite list_elem_of_singleton. case_decide as Hin.
    + split; [by left|]. intros [? | ->]; done.
    + by rewrite elem_of_app, list_elem_of_singleton.
  - exists ds'. rewrite <- app_assoc in Heq, Hcover'. done.
Qed.

(** The schedule object built from stored sessions has one bucket for each
    date that occurs, and the bucket of a date is the one [formatSchedule]
    would make for it. *)
Lemma sessionsToSchedule_buckets ss :
  ∃ ds, sessionsToSchedule ss = bucketFor ss <$> ds
        ∧ NoDup ds ∧ ∀ d, d ∈ ds ↔ d ∈ s_date <$> ss.
Proof.
  destruct (sessionsToSchedule_foldl ss [] []) as (ds & Heq & Hnd & Hcover).
  - apply NoDup_nil_2.
  - intros d. by rewrite fmap_nil.
  - by exists ds.
Qed.

Lemma bucketOf_buckets ss ds d :
  bucketOf (bucketFor ss <$> ds) d
  = if decide (d ∈ ds) then Some (bucketFor ss d) else None.
Proof.
  unfold bucketOf. induction ds as [|x ds IH]; [done|].
  rewrite fmap_cons. cbn [find b_date bucketFor].
  destruct (Z.eqb_spec x d) as [->|Hne].
  - by rewrite decide_True by left.
  - rewrite IH. destruct (decide (d ∈ ds)) as [Hin|Hnin].
    + by rewrite decide_True by (by right).
    + rewrite decide_False; [done|]. rewrite not_elem_of_cons. done.
Qed.

Lemma sessionsToSchedule_Permutation sessions :
  allSessionsOf (sessionsToSchedule sessions) ≡ₚ sessions.
Proof.
  destruct (sessionsToSchedule_buckets sessions) as (ds & -> & Hnd & Hcover).
  rewrite buckets_Permutation by done. rewrite filter_all; [done|].
  apply Forall_forall. intros s Hs. apply Hcover. by apply list_elem_of_fmap_2.
Qed.

Lemma sessionsToSchedule_lookup sessions d :
  getSessionsForDate (sessionsToSchedule sessions) d
  = filter (λ s, onDate d s = true) sessions
  ∧ getTotalTimeForDate (sessionsToSchedule sessions) d = minutesOn d sessions.
Proof.
  destruct (sessionsToSchedule_buckets sessions) as (ds & -> & Hnd & Hcover).
  unfold getSessionsForDate, getTotalTimeForDate.
  rewrite bucketOf_buckets. case_decide as Hin.
  - cbn [b_sessions b_totalMinutes bucketFor]. split; [done|].
    fold (minutesOn d sessions). by destruct (Z.eqb_spec (minutesOn d sessions) 0).
  - rewrite Hcover in Hin. unfold minutesOn.
    rewrite filter_onDate_nil by done. done.
Qed.

(** X16.  The schedule object that [loadSchedule] builds from the stored
    sessions has one bucket per date that occurs, loses and duplicates no
    session, and answers the look-ups of the hook for every date: the
    sessions of that date in their stored order (none for a date without
    sessions) and the sum of their durations (0 for such a date). *)
Theorem loaded_schedule_lookup sessions :
  NoDup (b_date <$> sessionsToSchedule sessions)
  ∧ allSessionsOf (sessionsToSchedule sessions) ≡ₚ sessions
  ∧ ∀ d, getSessionsForDate (sessionsToSchedule sessions) d
         = filter (λ s, onDate d s = true) sessions
         ∧ getTotalTimeForDate (sessionsToSchedule sessions) d
           = minutesOn d sessions.
Proof.
  split; [|split; [apply sessionsToSchedule_Permutation
                  |apply sessionsToSchedule_lookup]].
  destruct (sessionsToSchedule_buckets sessions) as (ds & -> & Hnd & Hcover).
  rewrite <- list_fmap_compose.
  rewrite (list_fmap_ext (b_date ∘ bucketFor sessions) id ds) by done.
  by rewrite list_fmap_id.
Qed.

(** ** Validating a reloaded schedule *)

Lemma forallb_Permutation {A} (f : A → bool) (l1 l2 : list A) :
  l1 ≡ₚ l2 → forallb f l1 = forallb f l2.
Proof.
  induction 1 as [|x l1 l2 _ IH|x y l|l1 l2 l3 _ IH1 _ IH2]; simpl.
  - done.
  - by rewrite IH.
  - by destruct (f x), (f y).
  - congruence.
Qed.

Lemma taskShortfall_Permutation all1 all2 t :
  all1 ≡ₚ all2 → taskShortfall all1 t = taskShortfall all2 t.
Proof.
  intros Hperm. unfold taskShortfall, scheduledMinutesOfTask.
  by rewrite (sumDurations_Permutation _ _
                (filter_Permutation (λ s, hasTaskId (task_id t) s = true) _ _ Hperm)).
Qed.

Lemma examShortfall_Permutation all1 all2 e :
  all1 ≡ₚ all2 → examShortfall all1 e = examShortfall all2 e.
Proof.
  intros Hperm. unfold examShortfall, scheduledMinutesOfExam.
  by rewrite (sumDurations_Permutation _ _
                (filter_Permutation (λ s, hasExamId (exam_id e) s = true) _ _ Hperm)).
Qed.

Lemma taskMeetsDeadline_Permutation all1 all2 t :
  all1 ≡ₚ all2 → taskMeetsDeadline all1 t = taskMeetsDeadline all2 t.
Proof.
  intros Hperm. unfold taskMeetsDeadline.
  pose proof (filter_Permutation (λ s, hasTaskId (task_id t) s = true) _ _ Hperm)
    as Hf.
  by rewrite (Permutation_length Hf), (forallb_Permutation _ _ _ Hf).
Qed.

Lemma examWellDistributed_Permutation all1 all2 e :
  all1 ≡ₚ all2 → examWellDistributed all1 e = examWellDistributed all2 e.
Proof.
  intros Hperm. unfold examWellDistributed.
  by rewrite (Permutation_length
                (filter_Permutation (λ s, hasExamId (exam_id e) s = true) _ _ Hperm)).
Qed.

(** The report of the validator depends on the schedule through the bag of
    its sessions and through the outcome of the limit check. *)
Lemma validateSchedule_Permutation limit tasks exams schedule1 schedule2 :
  allSessionsOf schedule1 ≡ₚ allSessionsOf schedule2 →
  forallb (λ day, b_totalMinutes day <=? limit) schedule1
  = forallb (λ day, b_totalMinutes day <=? limit) schedule2 →
  validateSchedule limit tasks exams schedule1
  = validateSchedule limit tasks exams schedule2.
Proof.
  intros Hperm Hlimit. unfold validateSchedule.
  assert (flat_map (taskShortfall (allSessionsOf schedule1)) tasks
          = flat_map (taskShortfall (allSessionsOf schedule2)) tasks) as ->.
  { induction tasks as [|t l IH]; [done|]. cbn [flat_map].
    by rewrite IH, (taskShortfall_Permutation _ _ t Hperm). }
  assert (flat_map (examShortfall (allSessionsOf schedule1)) exams
          = flat_map (examShortfall (allSessionsOf schedule2)) exams) as ->.
  { induction exams as [|e l IH]; [done|]. cbn [flat_map].
    by rewrite IH, (examShortfall_Permutation _ _ e Hperm). }
  assert (forallb (taskMeetsDeadline (allSessionsOf schedule1)) tasks
          = forallb (taskMeetsDeadline (allSessionsOf schedule2)) tasks) as ->.
  { induction tasks as [|t l IH]; [done|]. cbn [forallb].
    by rewrite IH, (taskMeetsDeadline_Permutation _ _ t Hperm). }
  assert (forallb (examWellDistributed (allSessionsOf schedule1)) exams
          = forallb (examWellDistributed (allSessionsOf schedule2)) exams) as ->.
  { induction exams as [|e l IH]; [done|]. cbn [forallb].
    by rewrite IH, (examWellDistributed_Permutation _ _ e Hperm). }
  by rewrite Hlimit.
Qed.

Lemma generated_minutesOn_within_limit now limit utcOffset tasks exams startDate d :
  0 ≤ limit →
  minutesOn d (allSessionsOf (generateWeeklySchedule now limit utcOffset tasks exams startDate))
  ≤ limit.
Proof.
  intros Hlimit. unfold minutesOn.
  rewrite (sumDurations_Permutation _ _
             (filter_Permutation (λ s, onDate d s = true) _ _
                (generateWeeklySchedule_Permutation now limit utcOffset tasks exams startDate))).
  fold (minutesOn d (r_sessions (allocate now limit utcOffset tasks exams (startOfWeek startDate)))).
  destruct (allocate_inv now limit utcOffset tasks exams (startOfWeek startDate) Hlimit)
    as [Htr Hlim].
  specialize (Htr d). rewrite initialTimeUsed_lookup in Htr.
  case_bool_decide as Hin.
  - simpl in Htr. apply Hlim in Htr. lia.
  - unfold minutesOn. rewrite filter_none; [by rewrite sumDurations_nil|].
    apply Forall_forall. intros s Hs Heq. apply Hin.
    apply Z.eqb_eq in Heq. subst d. apply elem_of_windowDates.
    pose proof (allocate_inWindow now limit utcOffset (startOfWeek startDate) tasks exams)
      as Hwin.
    rewrite Forall_forall in Hwin. by apply Hwin.
Qed.

(** X17.  Saving the sessions of a generated schedule and loading them back
    in any order gives a schedule on which the validator reports exactly
    what it reports on the generated one (the daily limit being not
    negative), although the loaded schedule has no bucket for an empty day
    and lists its days in another order. *)
Theorem reloaded_schedule_validates_alike
    now limit utcOffset tasks exams startDate tasks' exams' stored :
  0 ≤ limit →
  stored ≡ₚ allSessionsOf (generateWeeklySchedule now limit utcOffset tasks exams startDate) →
  validateSchedule limit tasks' exams' (sessionsToSchedule stored)
  = validateSchedule limit tasks' exams'
      (generateWeeklySchedule now limit utcOffset tasks exams startDate).
Proof.
  intros Hlimit Hstored.
  destruct (sessionsToSchedule_buckets stored) as (ds & Heq & Hnd & Hcover).
  apply validateSchedule_Permutation.
  - rewrite Heq, buckets_Permutation by done. rewrite filter_all; [done|].
    apply Forall_forall. intros s Hs. apply Hcover. by apply list_elem_of_fmap_2.
  - transitivity true; [|symmetry].
    + rewrite Heq. apply forallb_true_Forall, Forall_fmap, Forall_forall.
      intros d _. simpl. apply Z.leb_le. fold (minutesOn d stored).
      unfold minutesOn.
      rewrite (sumDurations_Permutation _ _
                 (filter_Permutation (λ s, onDate d s = true) _ _ Hstored)).
      by apply generated_minutesOn_within_limit.
    + apply forallb_true_Forall.
      eapply Forall_impl; [by apply generated_buckets_within_limit|].
      intros b Hb. by apply Z.leb_le.
Qed.

Lemma reloaded_schedule_validates_alike_witness :
  0 ≤ 480
  ∧ reverse (allSessionsOf (generateWeeklySchedule noClock 480 0 sampleTasks sampleExams
                              19723))
    ≡ₚ allSessionsOf (generateWeeklySchedule noClock 480 0 sampleTasks sampleExams 19723)
  ∧ validateSchedule 480 sampleTasks sampleExams
      (sessionsToSchedule
         (reverse (allSessionsOf
                     (generateWeeklySchedule noClock 480 0 sampleTasks sampleExams
                        19723))))
    = validateSchedule 480 sampleTasks sampleExams
        (generateWeeklySchedule noClock 480 0 sampleTasks sampleExams 19723).
Proof.
  assert (0 ≤ 480) as Hlimit by lia.
  assert (reverse (allSessionsOf (generateWeeklySchedule noClock 480 0 sampleTasks
                                    sampleExams 19723))
          ≡ₚ allSessionsOf (generateWeeklySchedule noClock 480 0 sampleTasks
                              sampleExams 19723)) as Hperm
    by apply reverse_Permutation.
  split; [exact Hlimit|]. split; [exact Hperm|].
  exact (reloaded_schedule_validates_alike noClock 480 0 sampleTasks sampleExams 19723
           sampleTasks sampleExams _ Hlimit Hperm).
Defined.

(** ** Marking a session and rescheduling it *)

Section StatusUpdate.
Variable sessionId : string.
Variable status : SessionStatus.

Let mark (s : Session) : Session :=
  if bool_decide (s_id s = sessionId) then withStatus status s else s.

Lemma mark_fields s :
  s_date (mark s) = s_date s ∧ s_duration (mark s) = s_duration s
  ∧ s_taskId (mark s) = s_taskId s ∧ s_examId (mark s) = s_examId s
  ∧ s_id (mark s) = s_id s.
Proof. unfold mark. by case_bool_decide. Qed.

Lemma mark_same s :
  sameButStatus s (mark s)
  ∧ s_status (mark s)
    = (if bool_decide (s_id s = sessionId) then status else s_status s).
Proof. unfold mark, sameButStatus. by case_bool_decide. Qed.

Lemma allSessionsOf_updateSessionStatus schedule :
  allSessionsOf (updateSessionStatus sessionId status schedule)
  = mark <$> allSessionsOf schedule.
Proof.
  unfold allSessionsOf, updateSessionStatus.
  induction schedule as [|b schedule IH]; [done|].
  rewrite fmap_cons. cbn [flat_map b_sessions]. by rewrite fmap_app, IH.
Qed.

Lemma filter_mark (P : Session → bool) (l : list Session) :
  (∀ s, P (mark s) = P s) →
  filter (λ s, P s = true) (mark <$> l) = mark <$> filter (λ s, P s = true) l.
Proof.
  intros HP. induction l as [|s l IH]; [done|].
  rewrite fmap_cons, !filter_cons, IH, HP. by case_decide.
Qed.

Lemma sumDurations_mark l : sumDurations (mark <$> l) = sumDurations l.
Proof.
  induction l as [|s l IH]; [done|].
  rewrite fmap_cons, !sumDurations_cons, IH.
  by destruct (mark_fields s) as (_ & -> & _).
Qed.

Lemma hasTaskId_mark i s : hasTaskId i (mark s) = hasTaskId i s.
Proof. unfold hasTaskId. by destruct (mark_fields s) as (_ & _ & -> & _). Qed.

Lemma hasExamId_mark i s : hasExamId i (mark s) = hasExamId i s.
Proof. unfold hasExamId. by destruct (mark_fields s) as (_ & _ & _ & -> & _). Qed.

Lemma onDate_mark d s : onDate d (mark s) = onDate d s.
Proof. unfold onDate. by destruct (mark_fields s) as (-> & _). Qed.

Lemma forallb_mark (g : Session → bool) l :
  (∀ s, g (mark s) = g s) → forallb g (mark <$> l) = forallb g l.
Proof.
  intros Hg. induction l as [|s l IH]; [done|].
  rewrite fmap_cons. cbn [forallb]. by rewrite Hg, IH.
Qed.

Lemma minutesOn_mark d l : minutesOn d (mark <$> l) = minutesOn d l.
Proof.
  unfold minutesOn. rewrite (filter_mark (onDate d)) by apply onDate_mark.
  apply sumDurations_mark.
Qed.

Lemma calculateSessionTimeUsed_mark l :
  calculateSessionTimeUsed (mark <$> l) = calculateSessionTimeUsed l.
Proof.
  unfold calculateSessionTimeUsed. generalize (∅ : gmap Z Z).
  induction l as [|s l IH]; intros m; [done|].
  rewrite fmap_cons. cbn [foldl]. rewrite <- IH. f_equal.
  unfold recordSession. by destruct (mark_fields s) as (-> & -> & _).
Qed.

Lemma totals_updateSessionStatus limit schedule :
  forallb (λ day, b_totalMinutes day <=? limit)
          (updateSessionStatus sessionId status schedule)
  = forallb (λ day, b_totalMinutes day <=? limit) schedule.
Proof.
  unfold updateSessionStatus. induction schedule as [|b l IH]; [done|].
  rewrite fmap_cons. cbn [forallb b_totalMinutes]. by rewrite IH.
Qed.

Lemma validateSchedule_updateSessionStatus limit tasks exams schedule :
  validateSchedule limit tasks exams (updateSessionStatus sessionId status schedule)
  = validateSchedule limit tasks exams schedule.
Proof.
  unfold validateSchedule. rewrite allSessionsOf_updateSessionStatus.
  set (all := allSessionsOf schedule).
  assert (∀ t, taskShortfall (mark <$> all) t = taskShortfall all t) as Hts.
  { intros t. unfold taskShortfall, scheduledMinutesOfTask.
    by rewrite (filter_mark (hasTaskId (task_id t))), sumDurations_mark
      by (intros; apply hasTaskId_mark). }
  assert (∀ e, examShortfall (mark <$> all) e = examShortfall all e) as Hes.
  { intros e. unfold examShortfall, scheduledMinutesOfExam.
    by rewrite (filter_mark (hasExamId (exam_id e))), sumDurations_mark
      by (intros; apply hasExamId_mark). }
  assert (∀ t, taskMeetsDeadline (mark <$> all) t = taskMeetsDeadline all t) as Htd.
  { intros t. unfold taskMeetsDeadline.
    rewrite (filter_mark (hasTaskId (task_id t))) by (intros; apply hasTaskId_mark).
    rewrite length_fmap, forallb_mark; [done|].
    intros s. by destruct (mark_fields s) as (-> & _). }
  assert (∀ e, examWellDistributed (mark <$> all) e = examWellDistributed all e)
    as Hed.
  { intros e. unfold examWellDistributed.
    rewrite (filter_mark (hasExamId (exam_id e))) by (intros; apply hasExamId_mark).
    by rewrite length_fmap. }
  rewrite totals_updateSessionStatus.
  rewrite (flat_map_ext _ _ Hts), (flat_map_ext _ _ Hes).
  assert (forallb (taskMeetsDeadline (mark <$> all)) tasks
          = forallb (taskMeetsDeadline all) tasks) as ->.
  { induction tasks as [|t l IH]; [done|]. cbn [forallb]. by rewrite IH, Htd. }
  assert (forallb (examWellDistributed (mark <$> all)) exams
          = forallb (examWellDistributed all) exams) as ->.
  { induction exams as [|e l IH]; [done|]. cbn [forallb]. by rewrite IH, Hed. }
  done.
Qed.

(** X18.  Marking a session (completed, missed, ...) changes statuses only.
    The days stay as they are, in order, each with its date and its total;
    in every day the sessions stay in place, each with its identity, type,
    task, exam, title, subject, date and duration; a session with the given
    identity gets the new status and every other session keeps its own.
    The validator reports what it reported before, and a later rescheduling
    finds the same free minutes, so places the same minutes on the same
    days. *)
Theorem status_update_changes_status_only limit tasks exams schedule :
  Forall2 (λ b b',
             b_date b' = b_date b ∧ b_totalMinutes b' = b_totalMinutes b
             ∧ Forall2 (λ s s',
                          sameButStatus s s'
                          ∧ s_status s'
                            = (if bool_decide (s_id s = sessionId) then status
                               else s_status s))
                       (b_sessions b) (b_sessions b'))
          schedule (updateSessionStatus sessionId status schedule)
  ∧ validateSchedule limit tasks exams (updateSessionStatus sessionId status schedule)
    = validateSchedule limit tasks exams schedule
  ∧ ∀ now missedSession currentDate,
      rescheduleMissedSession now limit missedSession currentDate
        (allSessionsOf (updateSessionStatus sessionId status schedule))
      = rescheduleMissedSession now limit missedSession currentDate
          (allSessionsOf schedule).
Proof.
  split; [|split].
  - unfold updateSessionStatus.
    apply Forall2_fmap_r, Forall_Forall2_diag, Forall_forall. intros b _.
    cbn [b_date b_totalMinutes b_sessions]. split; [done|]. split; [done|].
    apply Forall2_fmap_r, Forall_Forall2_diag, Forall_forall. intros s _.
    exact (mark_same s).
  - apply validateSchedule_updateSessionStatus.
  - intros now missedSession currentDate. unfold rescheduleMissedSession.
    by rewrite allSessionsOf_updateSessionStatus, calculateSessionTimeUsed_mark.
Qed.

(** X19.  The dashboard's handling of a missed session: the session is
    marked, rescheduled against the sessions of the schedule, the new
    sessions are stored with the old ones and the schedule is loaded again.
    In the schedule loaded, every date totals at most the limit, or what its
    sessions totalled before when that was already more. *)
Theorem missed_session_flow_within_limit
    now limit schedule missedSession (stored : list Session) d :
  stored
  ≡ₚ allSessionsOf (updateSessionStatus sessionId status schedule)
     ++ rescheduleMissedSession now limit missedSession (s_date missedSession)
          (allSessionsOf (updateSessionStatus sessionId status schedule)) →
  getTotalTimeForDate (sessionsToSchedule stored) d
  ≤ Z.max limit (minutesOn d (allSessionsOf schedule)).
Proof.
  intros Hstored.
  rewrite (proj2 (sessionsToSchedule_lookup stored d)). unfold minutesOn at 1.
  rewrite (sumDurations_Permutation _ _
             (filter_Permutation (λ s, onDate d s = true) _ _ Hstored)).
  rewrite <- (minutesOn_mark d (allSessionsOf schedule)).
  rewrite <- allSessionsOf_updateSessionStatus.
  apply reschedule_minutesOn_bound.
Qed.

End StatusUpdate.

Lemma missed_session_flow_within_limit_witness :
  sampleExisting ++ rescheduleMissedSession noClock 480 sampleMissed
                      (s_date sampleMissed) sampleExisting
  ≡ₚ allSessionsOf (updateSessionStatus (s_id sampleMissed) missed
                      (sessionsToSchedule sampleExisting))
     ++ rescheduleMissedSession noClock 480 sampleMissed (s_date sampleMissed)
          (allSessionsOf (updateSessionStatus (s_id sampleMissed) missed
                            (sessionsToSchedule sampleExisting)))
  ∧ getTotalTimeForDate
      (sessionsToSchedule
         (sampleExisting ++ rescheduleMissedSession noClock 480 sampleMissed
                              (s_date sampleMissed) sampleExisting))
      (s_date sampleMissed + 1)
    ≤ Z.max 480 (minutesOn (s_date sampleMissed + 1)
                   (allSessionsOf (sessionsToSchedule sampleExisting))).
Proof.
  assert (sampleExisting ++ rescheduleMissedSession noClock 480 sampleMissed
                              (s_date sampleMissed) sampleExisting
          ≡ₚ allSessionsOf (updateSessionStatus (s_id sampleMissed) missed
                              (sessionsToSchedule sampleExisting))
             ++ rescheduleMissedSession noClock 480 sampleMissed
                  (s_date sampleMissed)
                  (allSessionsOf (updateSessionStatus (s_id sampleMissed) missed
                                    (sessionsToSchedule sampleExisting))))
    as Hstored by (vm_compute; reflexivity).
  split; [exact Hstored|].
  exact (missed_session_flow_within_limit (s_id sampleMissed) missed noClock 480
           (sessionsToSchedule sampleExisting) sampleMissed _
           (s_date sampleMissed + 1) Hstored).
Defined.

(** ** The workload and what a week can hold *)

Lemma foldl_add_shift {A} (f : A → Z) (l : list A) (a : Z) :
  foldl (λ sum x, sum + f x) a l = a + totalOver f l.
Proof.
  revert a. induction l as [|x l IH]; intros a; simpl; [lia|].
  rewrite IH. lia.
Qed.

Lemma getTotalWorkload_totalOver tasks exams :
  getTotalWorkload tasks exams
  = totalOver task_estimatedTime tasks
    + totalOver (λ e, orDefault240 (exam_estimatedTime e)) exams.
Proof. unfold getTotalWorkload. rewrite !foldl_add_shift. lia. Qed.

Lemma sumDurations_totalOver ss : sumDurations ss = totalOver s_duration ss.
Proof. unfold sumDurations. rewrite foldl_add_shift. lia. Qed.

Lemma totalOver_app {A} (f : A → Z) l1 l2 :
  totalOver f (l1 ++ l2) = totalOver f l1 + totalOver f l2.
Proof. induction l1 as [|x l1 IH]; simpl; lia. Qed.

Lemma totalOver_ext {A} (f g : A → Z) l :
  (∀ x, x ∈ l → f x = g x) → totalOver f l = totalOver g l.
Proof.
  induction l as [|x l IH]; intros Hfg; simpl; [done|].
  rewrite (Hfg x) by left. rewrite IH; [done|]. intros y Hy. apply Hfg. by right.
Qed.

Lemma totalOver_le {A} (f g : A → Z) l :
  (∀ x, x ∈ l → f x ≤ g x) → totalOver f l ≤ totalOver g l.
Proof.
  induction l as [|x l IH]; intros Hfg; simpl; [done|].
  pose proof (Hfg x ltac:(left)).
  assert (totalOver f l ≤ totalOver g l) by (apply IH; intros y Hy; apply Hfg; by right).
  lia.
Qed.

Lemma totalOver_plus {A} (f g : A → Z) l :
  totalOver (λ x, f x + g x) l = totalOver f l + totalOver g l.
Proof. induction l as [|x l IH]; simpl; lia. Qed.

Lemma totalOver_const {A} (c : Z) (l : list A) :
  totalOver (λ _, c) l = Z.of_nat (length l) * c.
Proof. induction l as [|x l IH]; simpl length; simpl totalOver; lia. Qed.

Lemma totalOver_flat_map {A B} (g : B → Z) (h : A → list B) l :
  totalOver g (flat_map h l) = totalOver (λ x, totalOver g (h x)) l.
Proof.
  induction l as [|x l IH]; [done|].
  cbn [flat_map]. rewrite totalOver_app, IH. done.
Qed.

Lemma totalOver_indicator_none {A} (key : A → string) l i v :
  i ∉ key <$> l → totalOver (λ y, if bool_decide (key y = i) then v else 0) l = 0.
Proof.
  induction l as [|x l IH]; [done|].
  rewrite fmap_cons, not_elem_of_cons. intros [Hx Hl]. simpl.
  rewrite bool_decide_eq_false_2 by done. rewrite IH by done. lia.
Qed.

Lemma totalOver_indicator_one {A} (key : A → string) l i v :
  NoDup (key <$> l) → i ∈ key <$> l →
  totalOver (λ y, if bool_decide (key y = i) then v else 0) l = v.
Proof.
  induction l as [|x l IH]; [by intros _ ?%elem_of_nil|].
  rewrite fmap_cons, NoDup_cons. intros [Hfresh Hnd] Hin. simpl.
  case_bool_decide as Hx.
  - subst i. rewrite totalOver_indicator_none by done. lia.
  - apply elem_of_cons in Hin as [Hin|Hin]; [done|]. rewrite IH by done. lia.
Qed.

Lemma scheduledMinutesOfTask_cons s all t :
  scheduledMinutesOfTask (s :: all) t
  = (if hasTaskId (task_id t) s then s_duration s else 0)
    + scheduledMinutesOfTask all t.
Proof.
  unfold scheduledMinutesOfTask. rewrite filter_cons.
  destruct (hasTaskId (task_id t) s) eqn:Hown.
  - rewrite decide_True by done. by rewrite sumDurations_cons.
  - rewrite decide_False by (by intros ?). lia.
Qed.

Lemma scheduledMinutesOfExam_cons s all e :
  scheduledMinutesOfExam (s :: all) e
  = (if hasExamId (exam_id e) s then s_duration s else 0)
    + scheduledMinutesOfExam all e.
Proof.
  unfold scheduledMinutesOfExam. rewrite filter_cons.
  destruct (hasExamId (exam_id e) s) eqn:Hown.
  - rewrite decide_True by done. by rewrite sumDurations_cons.
  - rewrite decide_False by (by intros ?). lia.
Qed.

Lemma owners_of_session tasks exams s :
  NoDup (task_id <$> tasks) → NoDup (exam_id <$> exams) →
  ownedBy tasks exams s →
  totalOver (λ t, if hasTaskId (task_id t) s then s_duration s else 0) tasks
  + totalOver (λ e, if hasExamId (exam_id e) s then s_duration s else 0) exams
  = s_duration s.
Proof.
  intros Hnt Hne [[Hnone (t & Ht & Hid)]|[Hnone (e & He & Hid)]].
  - rewrite (totalOver_ext _ (λ _, 0) exams), totalOver_const.
    2:{ intros e _. unfold hasExamId. rewrite Hnone.
        by rewrite bool_decide_eq_false_2. }
    rewrite (totalOver_ext _
               (λ y, if bool_decide (task_id y = task_id t)
                     then s_duration s else 0) tasks).
    2:{ intros y _. unfold hasTaskId. rewrite Hid.
        case_bool_decide as H1; case_bool_decide as H2; congruence. }
    rewrite totalOver_indicator_one; [lia|done|by apply list_elem_of_fmap_2].
  - rewrite (totalOver_ext _ (λ _, 0) tasks), totalOver_const.
    2:{ intros t _. unfold hasTaskId. rewrite Hnone.
        by rewrite bool_decide_eq_false_2. }
    rewrite (totalOver_ext _
               (λ y, if bool_decide (exam_id y = exam_id e)
                     then s_duration s else 0) exams).
    2:{ intros y _. unfold hasExamId. rewrite Hid.
        case_bool_decide as H1; case_bool_decide as H2; congruence. }
    rewrite totalOver_indicator_one; [lia|done|by apply list_elem_of_fmap_2].
Qed.

Lemma scheduled_minutes_partition tasks exams all :
  NoDup (task_id <$> tasks) → NoDup (exam_id <$> exams) →
  Forall (ownedBy tasks exams) all →
  totalOver (scheduledMinutesOfTask all) tasks
  + totalOver (scheduledMinutesOfExam all) exams
  = sumDurations all.
Proof.
  intros Hnt Hne. induction 1 as [|s all Hs Hall IH].
  - rewrite (totalOver_ext _ (λ _, 0) tasks), (totalOver_ext _ (λ _, 0) exams);
      [|done..].
    rewrite !totalOver_const, sumDurations_nil. lia.
  - rewrite (totalOver_ext _ _ tasks (λ t _, scheduledMinutesOfTask_cons s all t)).
    rewrite (totalOver_ext _ _ exams (λ e _, scheduledMinutesOfExam_cons s all e)).
    rewrite !totalOver_plus, sumDurations_cons.
    pose proof (owners_of_session tasks exams s Hnt Hne Hs). lia.
Qed.

Lemma generated_ownedBy now limit utcOffset tasks exams startDate :
  Forall (ownedBy tasks exams)
         (allSessionsOf (generateWeeklySchedule now limit utcOffset tasks exams startDate)).
Proof.
  rewrite generateWeeklySchedule_Permutation. apply allocate_Forall.
  - intros t used k Ht. eapply Forall_impl; [apply scheduleTask_made|].
    intros s (_ & Hid & Hex & _). left. split; [done|]. by exists t.
  - intros e used k He. eapply Forall_impl; [apply distributeExamRevision_made|].
    intros s (_ & Htid & Hid & _). right. split; [done|]. by exists e.
Qed.

Lemma sumDurations_buckets ss ds :
  sumDurations (allSessionsOf (bucketFor ss <$> ds))
  = totalOver (λ d, minutesOn d ss) ds.
Proof.
  unfold allSessionsOf. induction ds as [|d ds IH]; [done|].
  rewrite fmap_cons. cbn [flat_map b_sessions bucketFor].
  rewrite sumDurations_app, IH. done.
Qed.

Lemma generated_total_within_week now limit utcOffset tasks exams startDate :
  0 ≤ limit →
  sumDurations (allSessionsOf (generateWeeklySchedule now limit utcOffset tasks exams startDate))
  ≤ 7 * limit.
Proof.
  intros Hlimit. unfold generateWeeklySchedule, formatSchedule.
  rewrite sumDurations_buckets.
  set (start := startOfWeek startDate).
  etrans; [apply (totalOver_le _ (λ _, limit))|].
  - intros d Hd.
    destruct (allocate_inv now limit utcOffset tasks exams start Hlimit) as [Htr Hlim].
    specialize (Htr d). rewrite initialTimeUsed_lookup in Htr.
    rewrite bool_decide_eq_true_2 in Htr by done. simpl in Htr.
    apply Hlim in Htr. lia.
  - rewrite totalOver_const. unfold windowDates. rewrite length_fmap, length_seqZ. lia.
Qed.

Lemma flat_map_nil_inv {A B} (f : A → list B) (l : list A) x :
  flat_map f l = [] → x ∈ l → f x = [].
Proof.
  induction l as [|y l IH]; [by intros _ ?%elem_of_nil|].
  cbn [flat_map]. intros [Hy Hl]%app_eq_nil [->|Hin]%elem_of_cons; [done|].
  by apply IH.
Qed.

(** X20.  The workload that the generator displays is accounted for in
    full: with distinct task identities, distinct exam identities and no
    negative amount of work, the minutes of the generated schedule and the
    missing minutes that the validator reports add up to the total
    workload of the tasks and exams given. *)
Theorem workload_accounting now limit utcOffset tasks exams startDate :
  NoDup (task_id <$> tasks) → NoDup (exam_id <$> exams) →
  Forall (λ t, 0 ≤ task_estimatedTime t) tasks →
  Forall (λ e, 0 ≤ orDefault240 (exam_estimatedTime e)) exams →
  let schedule := generateWeeklySchedule now limit utcOffset tasks exams startDate in
  let report := validateSchedule limit tasks exams schedule in
  getTotalWorkload tasks exams
  = sumDurations (allSessionsOf schedule)
    + totalOver u_missingMinutes (unscheduledItems report).
Proof.
  intros Hnt Hne Hest Hneed schedule report.
  rewrite getTotalWorkload_totalOver.
  rewrite <- (scheduled_minutes_partition tasks exams (allSessionsOf schedule)
                Hnt Hne (generated_ownedBy now limit utcOffset tasks exams startDate)).
  subst report. unfold validateSchedule. cbn [unscheduledItems].
  rewrite totalOver_app, !totalOver_flat_map.
  set (all := allSessionsOf schedule).
  rewrite (totalOver_ext (λ t, totalOver u_missingMinutes (taskShortfall all t))
             (λ t, task_estimatedTime t + - scheduledMinutesOfTask all t) tasks).
  2:{ intros t Ht. unfold taskShortfall.
      destruct (Z.ltb_spec (scheduledMinutesOfTask all t) (task_estimatedTime t));
        cbn [totalOver foldr u_missingMinutes]; [lia|].
      assert (scheduledMinutesOfTask all t ≤ task_estimatedTime t); [|lia].
      unfold scheduledMinutesOfTask, all, schedule.
      destruct (validator_task_sessions now limit utcOffset tasks exams startDate t Hnt Ht)
        as (used & k & Hperm).
      rewrite (sumDurations_Permutation _ _ Hperm), scheduleTask_sum.
      rewrite Forall_forall in Hest.
      pose proof (scheduleTask_remaining now limit utcOffset t (startOfWeek startDate) used k
                    (Hest t Ht)). lia. }
  rewrite (totalOver_ext (λ e, totalOver u_missingMinutes (examShortfall all e))
             (λ e, orDefault240 (exam_estimatedTime e)
                   + - scheduledMinutesOfExam all e) exams).
  2:{ intros e He. unfold examShortfall.
      destruct (Z.ltb_spec (scheduledMinutesOfExam all e)
                  (orDefault240 (exam_estimatedTime e)));
        cbn [totalOver foldr u_missingMinutes]; [lia|].
      assert (scheduledMinutesOfExam all e ≤ orDefault240 (exam_estimatedTime e));
        [|lia].
      unfold scheduledMinutesOfExam, all, schedule.
      destruct (validator_exam_sessions now limit utcOffset tasks exams startDate e Hne He)
        as (used & k & Hperm).
      rewrite (sumDurations_Permutation _ _ Hperm).
      apply distributeExamRevision_sum_le.
      rewrite Forall_forall in Hneed. by apply Hneed. }
  rewrite !totalOver_plus.
  rewrite (totalOver_ext (λ t, - scheduledMinutesOfTask all t)
             (λ t, -1 * scheduledMinutesOfTask all t + 0) tasks) by (intros; lia).
  rewrite (totalOver_ext (λ e, - scheduledMinutesOfExam all e)
             (λ e, -1 * scheduledMinutesOfExam all e + 0) exams) by (intros; lia).
  assert (∀ A (f : A → Z) l, totalOver (λ x, -1 * f x + 0) l = - totalOver f l) as Hneg.
  { intros A f l. induction l as [|x l IH]; simpl; lia. }
  rewrite !Hneg. lia.
Qed.

Lemma workload_accounting_witness :
  NoDup (task_id <$> sampleTasks) ∧ NoDup (exam_id <$> sampleExams)
  ∧ Forall (λ t, 0 ≤ task_estimatedTime t) sampleTasks
  ∧ Forall (λ e, 0 ≤ orDefault240 (exam_estimatedTime e)) sampleExams
  ∧ getTotalWorkload sampleTasks sampleExams
    = sumDurations
        (allSessionsOf (generateWeeklySchedule noClock 480 0 sampleTasks sampleExams 19723))
      + totalOver u_missingMinutes
          (unscheduledItems
             (validateSchedule 480 sampleTasks sampleExams
                (generateWeeklySchedule noClock 480 0 sampleTasks sampleExams 19723))).
Proof.
  assert (NoDup (task_id <$> sampleTasks)) as Hnt
    by (apply (bool_decide_unpack _); vm_compute; exact I).
  assert (NoDup (exam_id <$> sampleExams)) as Hne
    by (apply (bool_decide_unpack _); vm_compute; exact I).
  assert (Forall (λ t, 0 ≤ task_estimatedTime t) sampleTasks) as Hest
    by (repeat constructor; vm_compute; discriminate).
  assert (Forall (λ e, 0 ≤ orDefault240 (exam_estimatedTime e)) sampleExams) as Hneed
    by (repeat constructor; vm_compute; discriminate).
  split; [exact Hnt|]. split; [exact Hne|]. split; [exact Hest|].
  split; [exact Hneed|].
  exact (workload_accounting noClock 480 0 sampleTasks sampleExams 19723
           Hnt Hne Hest Hneed).
Defined.

(** X21.  When the generator estimates more than seven days of work for a
    positive daily budget, the week cannot hold the workload: for tasks and
    exams with distinct identities, the validator reports unscheduled
    items on the generated schedule, and the schedule is not valid. *)
Theorem overload_is_reported now limit utcOffset tasks exams startDate :
  NoDup (task_id <$> tasks) → NoDup (exam_id <$> exams) →
  0 < limit → 7 < getEstimatedDays tasks exams limit →
  let schedule := generateWeeklySchedule now limit utcOffset tasks exams startDate in
  let report := validateSchedule limit tasks exams schedule in
  unscheduledItems report ≠ []
  ∧ allTasksScheduled (details report) = false
  ∧ isValid report = false.
Proof.
  intros Hnt Hne Hlimit Hdays schedule report.
  assert (unscheduledItems report ≠ []) as Hitems.
  { subst report. unfold validateSchedule. cbn [unscheduledItems].
    set (all := allSessionsOf schedule).
    intros [Htasks Hexams]%app_eq_nil.
    assert (getTotalWorkload tasks exams ≤ sumDurations all) as Hfits.
    { rewrite getTotalWorkload_totalOver.
      rewrite <- (scheduled_minutes_partition tasks exams all Hnt Hne
                    (generated_ownedBy now limit utcOffset tasks exams startDate)).
      apply Z.add_le_mono; apply totalOver_le.
      - intros t Ht. pose proof (flat_map_nil_inv _ _ t Htasks Ht) as Hnone.
        unfold taskShortfall in Hnone.
        by destruct (Z.ltb_spec (scheduledMinutesOfTask all t) (task_estimatedTime t)).
      - intros e He. pose proof (flat_map_nil_inv _ _ e Hexams He) as Hnone.
        unfold examShortfall in Hnone.
        by destruct (Z.ltb_spec (scheduledMinutesOfExam all e)
                       (orDefault240 (exam_estimatedTime e))). }
    pose proof (generated_total_within_week now limit utcOffset tasks exams startDate
                  ltac:(lia)) as Hweek.
    change (sumDurations all ≤ 7 * limit) in Hweek.
    unfold getEstimatedDays in Hdays.
    destruct (ceilDiv_bounds (getTotalWorkload tasks exams) limit Hlimit)
      as [Hlow _].
    assert (limit * 7 ≤ limit * (ceilDiv (getTotalWorkload tasks exams) limit - 1))
      by (apply Z.mul_le_mono_nonneg_l; lia).
    lia. }
  split; [done|].
  assert (allTasksScheduled (details report) = false) as Hflag.
  { subst report. unfold validateSchedule. cbn [details allTasksScheduled].
    apply Nat.eqb_neq. intros Hlen. apply Hitems.
    unfold validateSchedule. cbn [unscheduledItems].
    by apply length_zero_iff_nil. }
  split; [done|].
  subst report. unfold validateSchedule in *. cbn [isValid details allTasksScheduled] in *.
  by rewrite Hflag.
Qed.

Lemma overload_is_reported_witness :
  NoDup (task_id <$> sampleTasks) ∧ NoDup (exam_id <$> sampleExams)
  ∧ 0 < 240 ∧ 7 < getEstimatedDays sampleTasks sampleExams 240
  ∧ unscheduledItems
      (validateSchedule 240 sampleTasks sampleExams
         (generateWeeklySchedule noClock 240 0 sampleTasks sampleExams 19723)) ≠ []
  ∧ allTasksScheduled
      (details (validateSchedule 240 sampleTasks sampleExams
                  (generateWeeklySchedule noClock 240 0 sampleTasks sampleExams 19723)))
    = false
  ∧ isValid (validateSchedule 240 sampleTasks sampleExams
               (generateWeeklySchedule noClock 240 0 sampleTasks sampleExams 19723))
    = false.
Proof.
  assert (NoDup (task_id <$> sampleTasks)) as Hnt
    by (apply (bool_decide_unpack _); vm_compute; exact I).
  assert (NoDup (exam_id <$> sampleExams)) as Hne
    by (apply (bool_decide_unpack _); vm_compute; exact I).
  assert (0 < 240) as Hlimit by lia.
  assert (7 < getEstimatedDays sampleTasks sampleExams 240) as Hdays
    by (vm_compute; reflexivity).
  split; [exact Hnt|]. split; [exact Hne|]. split; [exact Hlimit|].
  split; [exact Hdays|].
  exact (overload_is_reported noClock 240 0 sampleTasks sampleExams 19723
           Hnt Hne Hlimit Hdays).
Defined.
